(** * Movie_Review: the user and review controllers, the auth gate and the router

    A shallow embedding of [src/contollers/users.controller.js], of the
    [authenticateToken] middleware and of the router, followed by the
    properties of the authentication and review flows.

    Conventions of the embedding.
    - JavaScript strings are sequences of code units; the model keeps the code
      units 0..255 (Latin-1), which is what [Ascii.ascii] holds.
    - JavaScript numbers are modelled by integers ([Z]); what [parseInt]
      returns is rounded as a double is, and [NaN] and the infinities, which
      no query takes, are [None] of [option Z].
    - The Prisma client, bcrypt and jsonwebtoken are libraries.  Prisma is
      modelled by an in-memory store whose tables are lists in insertion order;
      its columns are required ones, as the records have them that the
      handlers write.  What the sources leave open about the database (the
      range of an [Int], filter and update objects, the row order of a query
      without [orderBy]) is the class [Engine]; the properties are proved for
      every engine, and the examples run on the engines of [Sample].
      bcrypt and the helpers of [utils/authUtils.js] (which the controller
      imports) are parameters of the development.
    - The identifiers [verifyToken] and [jwt], which the handlers use and no
      import or declaration of the sources binds, are parameters that are
      [None] when unbound; a call through an unbound identifier throws a
      [ReferenceError].
    - An [await]ed call that rejects is a [Throw]; the store is threaded
      through every call, so that what was written before a [Throw] stays
      written, as it does without a transaction. *)

From Stdlib Require Import ZArith String Ascii List Bool Lia.
From stdpp Require Import base option list strings gmap.
Import ListNotations.

Set Warnings "-register-all".
Local Open Scope string_scope.
Local Open Scope Z_scope.

(** ** JavaScript values and strings *)

Module JS.

Inductive value : Type :=
| VUndefined
| VNull
| VBool (b : bool)
| VNumber (n : Z)
| VString (s : string)
| VObject (fields : list (string * value))
| VArray (items : list value).

(** [!v] is [negb (truthy v)]. *)
Definition truthy (v : value) : bool :=
  match v with
  | VUndefined | VNull => false
  | VBool b => b
  | VNumber n => negb (n =? 0)
  | VString s => negb (String.eqb s "")
  | VObject _ | VArray _ => true
  end.

(** A property read [o.k] on a parsed body: [undefined] when absent. *)
Definition prop (o : gmap string value) (k : string) : value :=
  default VUndefined (o !! k).

(** [{...o, k: v}]: an own key keeps its position, a new key goes last. *)
Fixpoint obj_set (k : string) (v : value) (o : list (string * value))
  : list (string * value) :=
  match o with
  | [] => [(k, v)]
  | (k', v') :: r =>
      if String.eqb k k' then (k, v) :: r else (k', v') :: obj_set k v r
  end.

Fixpoint obj_get (k : string) (o : list (string * value)) : value :=
  match o with
  | [] => VUndefined
  | (k', v') :: r => if String.eqb k k' then v' else obj_get k r
  end.

(** What [JSON.stringify] keeps of a value, as [res.json] sends it: a property
    whose value is [undefined] is left out, an [undefined] array item is
    [null]. *)
Fixpoint to_json (v : value) : value :=
  match v with
  | VObject fs =>
      VObject ((fix props (l : list (string * value)) :=
                  match l with
                  | [] => []
                  | (k, VUndefined) :: r => props r
                  | (k, x) :: r => (k, to_json x) :: props r
                  end) fs)
  | VArray xs =>
      VArray (List.map (fun x => match x with
                                 | VUndefined => VNull
                                 | _ => to_json x
                                 end) xs)
  | _ => v
  end.

Definition code (a : ascii) : Z := Z.of_N (N_of_ascii a).

(** WhiteSpace and LineTerminator code units below 256. *)
Definition isWhiteSpace (a : ascii) : bool :=
  let c := code a in
  ((9 <=? c) && (c <=? 13)) || (c =? 32) || (c =? 160).

Fixpoint trimStart (s : string) : string :=
  match s with
  | EmptyString => EmptyString
  | String a r => if isWhiteSpace a then trimStart r else s
  end.

Fixpoint rev_string (s acc : string) : string :=
  match s with
  | EmptyString => acc
  | String a r => rev_string r (String a acc)
  end.

Definition trimEnd (s : string) : string :=
  rev_string (trimStart (rev_string s EmptyString)) EmptyString.

Definition trim (s : string) : string := trimEnd (trimStart s).

Definition lowerChar (a : ascii) : ascii :=
  let c := code a in
  if ((65 <=? c) && (c <=? 90))
     || ((192 <=? c) && (c <=? 222) && negb (c =? 215))
  then ascii_of_N (Z.to_N (c + 32))
  else a.

Fixpoint toLowerCase (s : string) : string :=
  match s with
  | EmptyString => EmptyString
  | String a r => String (lowerChar a) (toLowerCase r)
  end.

(** [s.split(sep)] for a one-character separator. *)
Fixpoint split_aux (sep : ascii) (s cur : string) : list string :=
  match s with
  | EmptyString => [rev_string cur EmptyString]
  | String a r =>
      if Ascii.eqb a sep
      then rev_string cur EmptyString :: split_aux sep r EmptyString
      else split_aux sep r (String a cur)
  end.

Definition split (sep : ascii) (s : string) : list string :=
  split_aux sep s EmptyString.

(** *** parseInt, without a radix argument *)

Definition digitValue (radix : Z) (a : ascii) : option Z :=
  let c := code a in
  let d := if (48 <=? c) && (c <=? 57) then Some (c - 48)
           else if (97 <=? c) && (c <=? 122) then Some (c - 87)
           else if (65 <=? c) && (c <=? 90) then Some (c - 55)
           else None in
  match d with
  | Some v => if v <? radix then Some v else None
  | None => None
  end.

(** The longest prefix of digits; [None] when it is empty. *)
Fixpoint digits (radix : Z) (s : string) (acc : option Z) : option Z :=
  match s with
  | EmptyString => acc
  | String a r =>
      match digitValue radix a with
      | Some d => digits radix r (Some (radix * default 0 acc + d))
      | None => acc
      end
  end.

Definition unsignedInt (s : string) : option Z :=
  match s with
  | String "0" (String "x" r) | String "0" (String "X" r) => digits 16 r None
  | _ => digits 10 s None
  end.

(** The double nearest to an integer (ties to even), as an integer; [None]
    when it is an infinity. *)
Definition roundToDouble (n : Z) : option Z :=
  let a := Z.abs n in
  if a <? 2 ^ 53 then Some n else
  let e := Z.log2 a - 52 in
  let q := Z.shiftr a e in
  let r := a - Z.shiftl q e in
  let half := 2 ^ (e - 1) in
  let q' := if (half <? r) || ((r =? half) && Z.odd q) then q + 1 else q in
  let m := Z.shiftl q' e in
  if 2 ^ 1024 <=? m then None else Some (Z.sgn n * m).

Definition parseIntString (s : string) : option Z :=
  match trimStart s with
  | String "-" r => unsignedInt r ≫= fun n => roundToDouble (- n)
  | String "+" r => unsignedInt r ≫= roundToDouble
  | r => unsignedInt r ≫= roundToDouble
  end.

(** [parseInt(x)] for a route parameter: a string, or [undefined], which
    [parseInt] first turns into the string ["undefined"].  [None] is [NaN] or
    an infinity. *)
Definition parseInt (x : option string) : option Z :=
  match x with
  | Some s => parseIntString s
  | None => parseIntString "undefined"
  end.

End JS.

Import JS.

(** ** Errors, results and the store *)

(** The ways a Prisma client call rejects that the model tells apart. *)
Inductive PrismaFailure : Type :=
| ValidationFailure      (* an argument of the wrong type, [NaN], out of range *)
| UniqueConstraintFailure
| ForeignKeyFailure
| RecordNotFound.

Inductive Exn : Type :=
| ApiError (statusCode : Z) (message : string)
| TypeError
| ReferenceError (name : string)
| PrismaClientError (f : PrismaFailure)
| HelperError.           (* a rejection of bcrypt or jsonwebtoken *)

Inductive Result (A : Type) : Type :=
| Ok (a : A)
| Throw (e : Exn).
Arguments Ok {A} a.
Arguments Throw {A} e.

Module User.
Record t : Type := mk
  { id : Z; fullName : string; email : string; username : string;
    password : string; refreshToken : option string }.
End User.

Module Movie.
  (** A movie is read-only reference data: its id and descriptive fields. *)
Record t : Type := mk { id : Z; details : list (string * value) }.
End Movie.

Module Review.
Record t : Type := mk
  { id : Z; movieId : Z; userId : Z; reviewText : string; rating : Z }.
End Review.

(** Modelled from the spec: the Prisma schema is not part of the sources; the
    tables and columns are those of the data model (User with unique username
    and email and an optional refreshToken, Movie, Review with the foreign keys
    movieId and userId), with integer auto-increment ids, which is what the
    controllers' [parseInt] calls address. *)
Record Store : Type := mkStore
  { users : list User.t;
    movies : list Movie.t;
    reviews : list Review.t;
    nextUserId : Z;
    nextReviewId : Z }.

Definition M (A : Type) : Type := Store -> Store * Result A.

Definition ret {A} (a : A) : M A := fun st => (st, Ok a).
Definition throw {A} (e : Exn) : M A := fun st => (st, Throw e).
Definition bind {A B} (m : M A) (k : A -> M B) : M B :=
  fun st => match m st with
            | (st', Ok a) => k a st'
            | (st', Throw e) => (st', Throw e)
            end.
(** [try { m } catch (error) { h error }] *)
Definition tryCatch {A} (m : M A) (h : Exn -> M A) : M A :=
  fun st => match m st with
            | (st', Ok a) => (st', Ok a)
            | (st', Throw e) => h e st'
            end.
Definition lift {A} (r : Result A) : M A := fun st => (st, r).

Notation "x <~ m ;; k" := (bind m (fun x => k))
  (at level 100, m at next level, right associativity).

(** ** What the sources leave open about the database

    The Prisma schema, the database behind it and the version of the client
    are not part of the sources, and the handlers hand what they read from the
    request to the client unchecked.  What their behaviour then depends on is
    collected in this class; the properties hold for every instance. *)
Class Engine : Type := mkEngine
  { (** whether an [Int] argument or column takes the number *)
    fitsInt : Z -> bool;
    (** a filter object on a [String] column, such as [{ not: "" }]: the test
        it stands for, or [Throw] when the client refuses it *)
    stringFilterObject : list (string * value) -> Result (string -> bool);
    (** an update object on a [String] and on an [Int] column, such as
        [{ set: "x" }] and [{ increment: 1 }]: [Throw] when the client refuses
        it, otherwise what the database makes of the stored value, which is
        the new value or an error *)
    stringOperation : list (string * value) -> Result (string -> Result string);
    intOperation : list (string * value) -> Result (Z -> Result Z);
    (** which of the rows that match comes first when the query has no
        [orderBy]: its index, taken modulo the number of matching rows *)
    pickRow : list User.t -> nat }.

(** ** The Prisma client on the in-memory store *)

(** The first of the matching rows, in the order the database returns them. *)
Definition firstRow `{Engine} (rows : list User.t) : option User.t :=
  match rows with
  | [] => None
  | _ :: _ => nth_error rows (Nat.modulo (pickRow rows) (List.length rows))
  end.

(** An [Int] argument: [NaN], an infinity and what the engine does not take
    as an [Int] are refused. *)
Definition intArg `{Engine} (n : option Z) : Result Z :=
  match n with
  | Some z => if fitsInt z then Ok z else Throw (PrismaClientError ValidationFailure)
  | None => Throw (PrismaClientError ValidationFailure)
  end.

(** A required [Int] and a required [String] field of the [data] of a
    [create], which takes scalars only. *)
Definition intField `{Engine} (v : value) : Result Z :=
  match v with
  | VNumber n => intArg (Some n)
  | _ => Throw (PrismaClientError ValidationFailure)
  end.

Definition stringField (v : value) : Result string :=
  match v with
  | VString s => Ok s
  | _ => Throw (PrismaClientError ValidationFailure)
  end.

(** A [String] field of a [where]: [undefined] holds no filter, a string
    stands for equality, an object is a filter of the engine; anything else
    is refused. *)
Definition whereString `{Engine} (v : value) : Result (option (string -> bool)) :=
  match v with
  | VUndefined => Ok None
  | VString s => Ok (Some (fun x => String.eqb x s))
  | VObject fs =>
      match stringFilterObject fs with
      | Ok f => Ok (Some f)
      | Throw e => Throw e
      end
  | _ => Throw (PrismaClientError ValidationFailure)
  end.

(** A [String] and an [Int] field of the [data] of an [update]: [undefined]
    leaves the column alone ([None]), a scalar is the new value, an object is
    an operation of the engine on the stored value; anything else is
    refused. *)
Definition dataString `{Engine} (v : value)
  : Result (option (string -> Result string)) :=
  match v with
  | VUndefined => Ok None
  | VString s => Ok (Some (fun stored => Ok s))
  | VObject fs =>
      match stringOperation fs with
      | Ok f => Ok (Some f)
      | Throw e => Throw e
      end
  | _ => Throw (PrismaClientError ValidationFailure)
  end.

Definition dataInt `{Engine} (v : value) : Result (option (Z -> Result Z)) :=
  match v with
  | VUndefined => Ok None
  | VNumber n =>
      match intArg (Some n) with
      | Ok z => Ok (Some (fun stored => Ok z))
      | Throw e => Throw e
      end
  | VObject fs =>
      match intOperation fs with
      | Ok f => Ok (Some f)
      | Throw e => Throw e
      end
  | _ => Throw (PrismaClientError ValidationFailure)
  end.

(** The new value of a column whose stored value is [stored], if the update
    names the column. *)
Definition applyData {A} (d : option (A -> Result A)) (stored : A)
  : Result (option A) :=
  match d with
  | None => Ok None
  | Some f =>
      match f stored with
      | Ok x => Ok (Some x)
      | Throw e => Throw e
      end
  end.

Module prisma.

Module user.

Definition findUnique (id : Z) : M (option User.t) := fun st =>
  (st, Ok (List.find (fun u => User.id u =? id) (users st))).

(** The test [{ OR: [{ username }, { email }] }] stands for.  An operand whose
    field is [undefined] holds no filter and does not count; an [OR] over no
    filter matches no record. *)
Definition orFilter `{Engine} (username email : value) : Result (User.t -> bool) :=
  match whereString username, whereString email with
  | Ok fu, Ok fe =>
      Ok (fun u => match fu with Some f => f (User.username u) | None => false end
                   || match fe with Some f => f (User.email u) | None => false end)
  | Throw e, _ | _, Throw e => Throw e
  end.

(** [findFirst({ where: { OR: [{ username }, { email }] } })]: there is no
    [orderBy], so that which of several matching rows is returned is up to
    the database. *)
Definition findFirst `{Engine} (username email : value) : M (option User.t) :=
  fun st =>
  match orFilter username email with
  | Ok f => (st, Ok (firstRow (List.filter f (users st))))
  | Throw e => (st, Throw e)
  end.

Definition create (fullName email username password : string) : M User.t :=
  fun st =>
    if existsb (fun u => String.eqb (User.username u) username
                         || String.eqb (User.email u) email) (users st)
    then (st, Throw (PrismaClientError UniqueConstraintFailure))
    else
      let u := User.mk (nextUserId st) fullName email username password None in
      (mkStore (users st ++ [u])%list (movies st) (reviews st)
               (nextUserId st + 1) (nextReviewId st),
       Ok u).

Definition setRefreshToken (t : string) (u : User.t) : User.t :=
  User.mk (User.id u) (User.fullName u) (User.email u) (User.username u)
          (User.password u) (Some t).

(** [update({ where: { id }, data: { refreshToken } })] *)
Definition update (id : Z) (refreshToken : string) : M User.t := fun st =>
  match List.find (fun u => User.id u =? id) (users st) with
  | None => (st, Throw (PrismaClientError RecordNotFound))
  | Some u =>
      (mkStore (List.map (fun x => if User.id x =? id
                                   then setRefreshToken refreshToken x else x)
                         (users st))
               (movies st) (reviews st) (nextUserId st) (nextReviewId st),
       Ok (setRefreshToken refreshToken u))
  end.

End user.

Module review.

Definition hasMovie (st : Store) (id : Z) : bool :=
  existsb (fun m => Movie.id m =? id) (movies st).
Definition hasUser (st : Store) (id : Z) : bool :=
  existsb (fun u => User.id u =? id) (users st).

(** [create({ data: { movieId, reviewText, rating, userId } })] *)
Definition create `{Engine} (movieId : option Z) (reviewText rating : value)
    (userId : Z) : M Review.t := fun st =>
  match intArg movieId, stringField reviewText, intField rating,
        intArg (Some userId) with
  | Ok m, Ok t, Ok r, Ok u =>
      if hasMovie st m && hasUser st u then
        let rv := Review.mk (nextReviewId st) m u t r in
        (mkStore (users st) (movies st) (reviews st ++ [rv])%list
                 (nextUserId st) (nextReviewId st + 1),
         Ok rv)
      else (st, Throw (PrismaClientError ForeignKeyFailure))
  | _, _, _, _ => (st, Throw (PrismaClientError ValidationFailure))
  end.

Definition setData (t : option string) (r : option Z) (x : Review.t) : Review.t :=
  Review.mk (Review.id x) (Review.movieId x) (Review.userId x)
            (default (Review.reviewText x) t) (default (Review.rating x) r).

(** [update({ where: { id }, data: { reviewText, rating } })] *)
Definition update `{Engine} (id : option Z) (reviewText rating : value)
  : M Review.t := fun st =>
  match intArg id, dataString reviewText, dataInt rating with
  | Ok i, Ok dt, Ok dr =>
      match List.find (fun x => Review.id x =? i) (reviews st) with
      | None => (st, Throw (PrismaClientError RecordNotFound))
      | Some old =>
          match applyData dt (Review.reviewText old),
                applyData dr (Review.rating old) with
          | Ok t, Ok r =>
              (mkStore (users st) (movies st)
                       (List.map (fun x => if Review.id x =? i
                                           then setData t r x else x)
                                 (reviews st))
                       (nextUserId st) (nextReviewId st),
               Ok (setData t r old))
          | Throw e, _ | _, Throw e => (st, Throw e)
          end
      end
  | Throw e, _, _ | _, Throw e, _ | _, _, Throw e => (st, Throw e)
  end.

(** [delete({ where: { id } })] *)
Definition delete `{Engine} (id : option Z) : M Review.t := fun st =>
  match intArg id with
  | Ok i =>
      match List.find (fun x => Review.id x =? i) (reviews st) with
      | None => (st, Throw (PrismaClientError RecordNotFound))
      | Some old =>
          (mkStore (users st) (movies st)
                   (List.filter (fun x => negb (Review.id x =? i)) (reviews st))
                   (nextUserId st) (nextReviewId st),
           Ok old)
      end
  | Throw e => (st, Throw e)
  end.

End review.

Module movie.

(** A movie with [include: { reviews: { include: { user: true } } }]. *)
Definition withReviews : Type := (Movie.t * list (Review.t * option User.t))%type.

Definition findUnique `{Engine} (id : option Z) : M (option withReviews) :=
  fun st =>
  match intArg id with
  | Ok i =>
      (st, Ok (match List.find (fun m => Movie.id m =? i) (movies st) with
               | None => None
               | Some m =>
                   Some (m, List.map
                              (fun r => (r, List.find
                                              (fun u => User.id u =? Review.userId r)
                                              (users st)))
                              (List.filter (fun r => Review.movieId r =? i)
                                           (reviews st)))
               end))
  | Throw e => (st, Throw e)
  end.

Definition findMany : M (list Movie.t) := fun st => (st, Ok (movies st)).

End movie.

End prisma.

(** ** Requests and responses *)

(** Modelled from the spec: the decoded claims of a verified token, which
    contain the user id; the controllers read it as [_id]. *)
Record Identity : Type := mkIdentity { _id : Z }.

(** The Express request as the handlers see it.  Header names are in lower
    case, as Node delivers them; [user] is what the auth gate attached. *)
Record Request : Type := mkRequest
  { cookies : gmap string string;
    headers : gmap string string;
    params : gmap string string;
    body : gmap string value;
    user : option Identity }.

Record CookieOptions : Type := mkOptions { httpOnly : bool; secure : bool }.

(** [new ApiResponse(statusCode, data, message)]: the class is not part of the
    sources; the model keeps the three arguments of the constructor. *)
Record ApiResponse : Type := mkApiResponse
  { statusCode : Z; data : value; message : string }.

Inductive Body : Type :=
| NoBody                         (* [send()] *)
| StatusText                     (* [sendStatus(n)] *)
| Json (v : value)               (* [json(v)] *)
| JsonApi (r : ApiResponse).     (* [json(new ApiResponse(..))] *)

Record Response : Type := mkResponse
  { status : Z;
    setCookie : list (string * string * CookieOptions);
    sent : Body }.

Definition json (st : Z) (v : value) : Response := mkResponse st [] (Json (to_json v)).
Definition jsonApi (st : Z) (cs : list (string * string * CookieOptions))
    (code : Z) (d : value) (msg : string) : Response :=
  mkResponse st cs (JsonApi (mkApiResponse code (to_json d) msg)).

(** The objects the Prisma client returns. *)
Definition user_obj (u : User.t) : list (string * value) :=
  [ ("id", VNumber (User.id u));
    ("fullName", VString (User.fullName u));
    ("email", VString (User.email u));
    ("username", VString (User.username u));
    ("password", VString (User.password u));
    ("refreshToken", match User.refreshToken u with
                     | Some t => VString t
                     | None => VNull
                     end) ].

Definition review_obj (r : Review.t) : list (string * value) :=
  [ ("id", VNumber (Review.id r));
    ("movieId", VNumber (Review.movieId r));
    ("userId", VNumber (Review.userId r));
    ("reviewText", VString (Review.reviewText r));
    ("rating", VNumber (Review.rating r)) ].

Definition movie_obj (m : Movie.t) : list (string * value) :=
  ("id", VNumber (Movie.id m)) :: Movie.details m.

Definition nullable (o : option (list (string * value))) : value :=
  match o with Some fs => VObject fs | None => VNull end.

Definition movieWithReviews_obj (m : prisma.movie.withReviews) : list (string * value) :=
  (movie_obj (fst m) ++
   [ ("reviews",
      VArray (List.map (fun ru =>
                          VObject (review_obj (fst ru) ++
                                   [("user", nullable (user_obj <$> snd ru))])%list)
                       (snd m))) ])%list.

(** ** The controllers *)

Section Controllers.

Context {DB : Engine}.

(** bcrypt's [hash(password, rounds)], with the salt it draws made an
    argument. *)
Variable bcrypt_hash : string -> Z -> string -> string.

(** The helpers imported from [utils/authUtils.js], which is not part of the
    sources. *)
Variable verifyPassword : value -> string -> Result bool.
Variable generateAccessToken : Z -> Result string.
Variable generateRefreshToken : Z -> Result string.

(** [process.env.NODE_ENV] *)
Variable NODE_ENV : option string.

(** What the identifier [verifyToken] denotes where [createReview] calls it:
    [None] when nothing binds it. *)
Variable verifyToken : option (string -> Result Identity).

Definition generateAccessAndRefreshTokens (userId : Z) : M (string * string) :=
  tryCatch
    (user <~ prisma.user.findUnique userId ;;
     match user with
     | None => throw (ApiError 404 "User not found")
     | Some _ =>
         accessToken <~ lift (generateAccessToken userId) ;;
         refreshToken <~ lift (generateRefreshToken userId) ;;
         _ <~ prisma.user.update userId refreshToken ;;
         ret (accessToken, refreshToken)
     end)
    (fun error =>
       throw (ApiError 500
         "Something went wrong while generating refresh and access tokens")).

(** [field.trim()] and [username.toLowerCase()]: only a string has the
    method. *)
Definition callTrim (field : value) : Result string :=
  match field with
  | VString s => Ok (trim s)
  | _ => Throw TypeError
  end.

Definition callToLowerCase (field : value) : Result string :=
  match field with
  | VString s => Ok (toLowerCase s)
  | _ => Throw TypeError
  end.

(** [fields.some(field => !field.trim())], left to right, stopping at the
    first blank field. *)
Fixpoint someBlank (fields : list value) : Result bool :=
  match fields with
  | [] => Ok false
  | field :: rest =>
      match callTrim field with
      | Ok t => if String.eqb t "" then Ok true else someBlank rest
      | Throw e => Throw e
      end
  end.

(** [bcrypt.hash(password, 10)], which wants a string; the [salt] is the one
    bcrypt draws for this call. *)
Definition callHash (password : value) (salt : string) : Result string :=
  match password with
  | VString p => Ok (bcrypt_hash p 10 salt)
  | _ => Throw HelperError
  end.

(** [asyncHandler] (of [utils/asyncHandler.js], which is not part of the
    sources) hands what the handler throws to the error handling of Express:
    a [Throw] of the handler is the outcome of the request. *)
Definition registerUser (salt : string) (req : Request) : M Response :=
  let fullName := prop (body req) "fullName" in
  let email := prop (body req) "email" in
  let username := prop (body req) "username" in
  let password := prop (body req) "password" in
  blank <~ lift (someBlank [fullName; email; username; password]) ;;
  if (blank : bool) then throw (ApiError 400 "All fields are required") else
  lower <~ lift (callToLowerCase username) ;;
  existingUser <~ prisma.user.findFirst (VString lower) email ;;
  match existingUser with
  | Some _ => throw (ApiError 409 "User with email or username already exists")
  | None =>
      hashedPassword <~ lift (callHash password salt) ;;
      fn <~ lift (stringField fullName) ;;
      em <~ lift (stringField email) ;;
      user <~ prisma.user.create fn em lower hashedPassword ;;
      (* [if (!user) throw new ApiError(500, ..)]: [create] resolves to the
         record or rejects, so the guard never fires *)
      let createdUser := obj_set "password" VUndefined (user_obj user) in
      ret (jsonApi 201 [] 200 (VObject createdUser) "User registered successfully")
  end.

Definition loginUser (req : Request) : M Response :=
  let email := prop (body req) "email" in
  let username := prop (body req) "username" in
  let password := prop (body req) "password" in
  if negb (truthy username) && negb (truthy email)
  then throw (ApiError 400 "Username or Email is required") else
  user <~ prisma.user.findFirst username email ;;
  match user with
  | None => throw (ApiError 404 "User does not exist")
  | Some user =>
      isPasswordValid <~ lift (verifyPassword password (User.password user)) ;;
      if negb isPasswordValid
      then throw (ApiError 401 "Invalid user credentials") else
      tokens <~ generateAccessAndRefreshTokens (User.id user) ;;
      let accessToken := fst tokens in
      let refreshToken := snd tokens in
      let loggedInUser :=
        obj_set "refreshToken" VUndefined
          (obj_set "password" VUndefined (user_obj user)) in
      let options :=
        mkOptions true
          (match NODE_ENV with
           | Some e => String.eqb e "production"
           | None => false
           end) in
      ret (jsonApi 200
             [ ("accessToken", accessToken, options);
               ("refreshToken", refreshToken, options) ]
             200
             (VObject [ ("user", VObject loggedInUser);
                        ("accessToken", VString accessToken);
                        ("refreshToken", VString refreshToken) ])
             "User logged in successfully")
  end.

Definition getMovieWithReviews (req : Request) : M Response :=
  let id := params req !! "id" in
  tryCatch
    (movie <~ prisma.movie.findUnique (parseInt id) ;;
     match movie with
     | None => ret (json 404 (VObject [("error", VString "Movie not found")]))
     | Some m =>
         ret (json 200 (VObject [("movie", VObject (movieWithReviews_obj m))]))
     end)
    (fun error =>
       ret (json 500 (VObject [("error", VString "Internal server error")]))).

(** [req.headers.authorization?.split(' ')[1]] *)
Definition bearer (req : Request) : option string :=
  match headers req !! "authorization" with
  | Some h => nth_error (split " " h) 1
  | None => None
  end.

(** [!token] for a token that is a string or [undefined]. *)
Definition noToken (token : option string) : bool :=
  match token with
  | Some t => String.eqb t ""
  | None => true
  end.

Definition callVerifyToken (token : string) : Result Identity :=
  match verifyToken with
  | Some f => f token
  | None => Throw (ReferenceError "verifyToken")
  end.

Definition createReview (req : Request) : M Response :=
  let id := params req !! "id" in
  let reviewText := prop (body req) "reviewText" in
  let rating := prop (body req) "rating" in
  let token := bearer req in
  if noToken token
  then ret (json 401 (VObject [("error", VString "No token provided")])) else
  tryCatch
    (decoded <~ lift (callVerifyToken (default "" token)) ;;
     let userId := _id decoded in
     review <~ prisma.review.create (parseInt id) reviewText rating userId ;;
     ret (json 201 (VObject [("review", VObject (review_obj review))])))
    (fun error =>
       ret (json 500 (VObject [("error", VString "Internal server error")]))).

Definition updateReview (req : Request) : M Response :=
  let reviewText := prop (body req) "reviewText" in
  let rating := prop (body req) "rating" in
  let reviewId := params req !! "reviewId" in
  tryCatch
    (updatedReview <~ prisma.review.update (parseInt reviewId) reviewText rating ;;
     ret (json 200 (VObject (review_obj updatedReview))))
    (fun error =>
       ret (json 500 (VObject [("message", VString "Failed to update review")]))).

Definition deleteReview (req : Request) : M Response :=
  let reviewId := params req !! "reviewId" in
  tryCatch
    (_ <~ prisma.review.delete (parseInt reviewId) ;;
     ret (mkResponse 204 [] NoBody))
    (fun error =>
       ret (json 500 (VObject [("message", VString "Failed to delete review")]))).

(** [req.user._id] throws when the gate attached nothing. *)
Definition getcurrentUser (req : Request) : M Response :=
  tryCatch
    (who <~ lift (match user req with
                  | Some u => Ok (_id u)
                  | None => Throw TypeError
                  end) ;;
     user <~ prisma.user.findUnique who ;;
     ret (json 200 (nullable (user_obj <$> user))))
    (fun error =>
       ret (json 500 (VObject [("message", VString "Internal server error")]))).

Definition getMovieWithDetails (req : Request) : M Response :=
  tryCatch
    (movies <~ prisma.movie.findMany ;;
     ret (json 200 (VArray (List.map (fun m => VObject (movie_obj m)) movies))))
    (fun error =>
       ret (json 500 (VObject [("message", VString "Internal server error")]))).

End Controllers.

(** ** The auth gate *)

Inductive Gate : Type :=
| Rejected (r : Response)        (* the request terminates here *)
| Next (req : Request)           (* [next()] on the request as it is now *)
| Threw (e : Exn).               (* the middleware throws *)

Section AuthGate.

(** What the identifier [jwt] denotes where the middleware calls
    [jwt.verify]: [None] when nothing binds it, as in the text of the
    middleware, which holds no import of it.  Bound, it stands for
    [jwt.verify(token, process.env.ACCESS_TOKEN_SECRET, callback)]: [None]
    when the callback receives an error, the decoded claims otherwise. *)
Variable jwt : option (string -> option Identity).

Definition authenticateToken (req : Request) : Gate :=
  let token := cookies req !! "accessToken" in
  if noToken token then Rejected (mkResponse 401 [] StatusText) else
  match jwt with
  | None => Threw (ReferenceError "jwt")
  | Some verify =>
      match verify (default "" token) with
      | None => Rejected (mkResponse 403 [] StatusText)
      | Some user =>
          Next (mkRequest (cookies req) (headers req) (params req) (body req)
                          (Some user))
      end
  end.

End AuthGate.

(** ** The router *)

Inductive Method : Type := GET | HEAD | POST.

(** A request as it reaches the router: [http_path] is its path below the
    point where the application mounts the router, without the query
    string. *)
Record HttpRequest : Type := mkHttp
  { http_method : Method;
    http_path : string;
    http_cookies : gmap string string;
    http_headers : gmap string string;
    http_body : gmap string value }.

(** A path of [Router()], which is made with the default options: the case of
    letters does not count and one closing slash is optional. *)
Definition routeMatches (route path : string) : bool :=
  let p := toLowerCase path in
  String.eqb p route || String.eqb p (route +:+ "/").

(** The answer to a [HEAD] request: what the handler sends, without the
    body. *)
Definition headOnly (m : M Response) : M Response :=
  r <~ m ;; ret (mkResponse (status r) (setCookie r) NoBody).

Section Router.

Context {DB : Engine}.

Variable bcrypt_hash : string -> Z -> string -> string.
Variable verifyPassword : value -> string -> Result bool.
Variable generateAccessToken : Z -> Result string.
Variable generateRefreshToken : Z -> Result string.
Variable NODE_ENV : option string.
Variable verifyToken : option (string -> Result Identity).
Variable jwt : option (string -> option Identity).

(** No path of the router has a parameter, so [req.params] is empty on every
    route. *)
Definition incoming (h : HttpRequest) : Request :=
  mkRequest (http_cookies h) (http_headers h) ∅ (http_body h) None.

(** A handler behind [authenticateToken]; what the middleware throws goes to
    the error handling of the application. *)
Definition gated (handler : Request -> M Response) (req : Request) : M Response :=
  match authenticateToken jwt req with
  | Rejected r => ret r
  | Next req' => handler req'
  | Threw e => throw e
  end.

Definition postRoutes (salt : string) (h : HttpRequest) : option (M Response) :=
  let req := incoming h in
  if routeMatches "/register" (http_path h)
  then Some (registerUser bcrypt_hash salt req)
  else if routeMatches "/login" (http_path h)
  then Some (loginUser verifyPassword generateAccessToken
                       generateRefreshToken NODE_ENV req)
  else if routeMatches "/deletereview" (http_path h)
  then Some (gated deleteReview req)
  else if routeMatches "/updatereview" (http_path h)
  then Some (gated updateReview req)
  else if routeMatches "/getmoviewithreviews" (http_path h)
  then Some (gated getMovieWithReviews req)
  else if routeMatches "/createreview" (http_path h)
  then Some (gated (createReview verifyToken) req)
  else None.

Definition getRoutes (h : HttpRequest) : option (M Response) :=
  let req := incoming h in
  if routeMatches "/currentuser" (http_path h)
  then Some (gated getcurrentUser req)
  else if routeMatches "/movies" (http_path h)
  then Some (getMovieWithDetails req)
  else None.

(** [None]: no route matches.  A [HEAD] request is served by the route of
    [GET]. *)
Definition router (salt : string) (h : HttpRequest) : option (M Response) :=
  match http_method h with
  | POST => postRoutes salt h
  | GET => getRoutes h
  | HEAD => headOnly <$> getRoutes h
  end.

End Router.

(** ** Sequences of calls *)

(** One call of a handler, past the gate. *)
Inductive Call : Type :=
| CallRegister (salt : string) (req : Request)
| CallLogin (req : Request)
| CallGetMovieWithReviews (req : Request)
| CallCreateReview (req : Request)
| CallUpdateReview (req : Request)
| CallDeleteReview (req : Request)
| CallCurrentUser (req : Request)
| CallMovies (req : Request).

Section Calls.

Context {DB : Engine}.

Variable bcrypt_hash : string -> Z -> string -> string.
Variable verifyPassword : value -> string -> Result bool.
Variable generateAccessToken : Z -> Result string.
Variable generateRefreshToken : Z -> Result string.
Variable NODE_ENV : option string.
Variable verifyToken : option (string -> Result Identity).

Definition perform (c : Call) : M Response :=
  match c with
  | CallRegister salt req => registerUser bcrypt_hash salt req
  | CallLogin req =>
      loginUser verifyPassword generateAccessToken generateRefreshToken
                NODE_ENV req
  | CallGetMovieWithReviews req => getMovieWithReviews req
  | CallCreateReview req => createReview verifyToken req
  | CallUpdateReview req => updateReview req
  | CallDeleteReview req => deleteReview req
  | CallCurrentUser req => getcurrentUser req
  | CallMovies req => getMovieWithDetails req
  end.

(** The store after the calls, one after the other. *)
Fixpoint after (calls : list Call) (st : Store) : Store :=
  match calls with
  | [] => st
  | c :: rest => after rest (fst (perform c st))
  end.

End Calls.

(** The review ids in use are below the counter that numbers the next one. *)
Definition reviewIdsBelowCounter (st : Store) : Prop :=
  forall r, In r (reviews st) -> Review.id r < nextReviewId st.

(** The id [rid] was handed out and no review carries it. *)
Definition gone (rid : Z) (st : Store) : Prop :=
  rid < nextReviewId st /\ forall r, In r (reviews st) -> Review.id r <> rid.

(** A computation keeps a property of the store, whether it returns or
    throws. *)
Definition preserves {A} (P : Store -> Prop) (m : M A) : Prop :=
  forall st, P st -> P (fst (m st)).

(** ** Vocabulary of the properties *)

Definition attach (ident : Identity) (req : Request) : Request :=
  mkRequest (cookies req) (headers req) (params req) (body req) (Some ident).

Definition unauthorized : Response := mkResponse 401 [] StatusText.
Definition forbidden : Response := mkResponse 403 [] StatusText.

(** The gate as the specification words it: 401 exactly when the cookie is
    absent. *)
Definition gate_401_iff_absent (jwt : option (string -> option Identity))
    (req : Request) : Prop :=
  authenticateToken jwt req = Rejected unauthorized
  <-> cookies req !! "accessToken" = None.

(** An identifier as the login and register operations take it: a string, or
    not supplied. *)
Definition identifier (v : value) : Prop := v = VUndefined \/ exists s, v = VString s.

(** [identifies username email u]: the record [u] carries the supplied
    username or the supplied email. *)
Definition identifies (username email : value) (u : User.t) : bool :=
  match username with
  | VString s => String.eqb (User.username u) s
  | _ => false
  end
  || match email with
     | VString s => String.eqb (User.email u) s
     | _ => false
     end.



(** Two strings are case variants of one another. *)
Definition caseVariant (a b : string) : Prop := toLowerCase a = toLowerCase b.

(** The conflict rule as the specification words it: a registration whose
    username or email is a case variant of a stored one fails with 409 and
    leaves the store as it was. *)
Definition conflict_any_case `{Engine} (bcrypt_hash : string -> Z -> string -> string)
    (salt : string) (req : Request) (st : Store) : Prop :=
  forall (u : User.t) (un em : string),
    In u (users st) ->
    prop (body req) "username" = VString un ->
    prop (body req) "email" = VString em ->
    caseVariant un (User.username u) \/ caseVariant em (User.email u) ->
    registerUser bcrypt_hash salt req st
    = (st, Throw (ApiError 409 "User with email or username already exists")).

(** The data of a JSON response and a property of it. *)
Definition responseData (r : Response) : value :=
  match sent r with
  | JsonApi a => data a
  | Json v => v
  | NoBody | StatusText => VUndefined
  end.

Definition get (k : string) (v : value) : value :=
  match v with
  | VObject fs => obj_get k fs
  | _ => VUndefined
  end.

(** The record a registration inserts into [st]. *)
Definition registered (bcrypt_hash : string -> Z -> string -> string)
    (st : Store) (salt fn em un pw : string) : User.t :=
  User.mk (nextUserId st) fn em (toLowerCase un) (bcrypt_hash pw 10 salt) None.

(** The [reviewText] and [rating] of an update as the operation takes them: a
    string and a number that fits the column, or nothing. *)
Definition optionalText (v : value) : Prop :=
  v = VUndefined \/ exists s, v = VString s.
Definition optionalRating `{Engine} (v : value) : Prop :=
  v = VUndefined \/ exists n, v = VNumber n /\ fitsInt n = true.

(** A field of an update that is no object: a scalar, an array or nothing,
    and so no operation on the stored value. *)
Definition plain (v : value) : Prop := forall fs, v <> VObject fs.

(** The text and the rating such a field supplies, if any. *)
Definition suppliedText (v : value) : option string :=
  match v with
  | VString s => Some s
  | _ => None
  end.
Definition suppliedRating (v : value) : option Z :=
  match v with
  | VNumber n => Some n
  | _ => None
  end.

(** [createReview] as the specification words it: a request that carries an
    authenticated identity gets 201 with a review of that identity and of the
    given movie inserted, or else 500. *)
Definition createReview_as_stated `{Engine}
    (verifyToken : option (string -> Result Identity)) (req : Request)
    (st : Store) : Prop :=
  forall ident, user req = Some ident ->
    (exists st' rv,
        createReview verifyToken req st
        = (st', Ok (json 201 (VObject [("review", VObject (review_obj rv))])))
        /\ Review.userId rv = _id ident
        /\ parseInt (params req !! "id") = Some (Review.movieId rv)
        /\ In rv (reviews st'))
    \/ (exists st' resp,
          createReview verifyToken req st = (st', Ok resp) /\ status resp = 500).

(** A value that is not a string: absent, or of another type. *)
Definition notString (v : value) : Prop := forall s, v <> VString s.

(** What one call of a handler can do to the store: nothing, or one of five
    writes. *)
Inductive Effect (st : Store) : Store -> Prop :=
| Unchanged : Effect st st
| Registered (fn em un hash : string) :
    (forall u, In u (users st) ->
               User.username u <> toLowerCase un /\ User.email u <> em) ->
    Effect st
      (mkStore (users st ++ [User.mk (nextUserId st) fn em (toLowerCase un)
                                     hash None])%list
               (movies st) (reviews st) (nextUserId st + 1) (nextReviewId st))
| LoggedIn (uid : Z) (refreshToken : string) :
    Effect st
      (mkStore (List.map (fun x => if User.id x =? uid
                                   then prisma.user.setRefreshToken refreshToken x
                                   else x) (users st))
               (movies st) (reviews st) (nextUserId st) (nextReviewId st))
| Reviewed (rv : Review.t) :
    Review.id rv = nextReviewId st ->
    Effect st
      (mkStore (users st) (movies st) (reviews st ++ [rv])%list
               (nextUserId st) (nextReviewId st + 1))
| Edited (i : Z) (t : option string) (r : option Z) :
    Effect st
      (mkStore (users st) (movies st)
               (List.map (fun x => if Review.id x =? i
                                   then prisma.review.setData t r x else x)
                         (reviews st))
               (nextUserId st) (nextReviewId st))
| Deleted (i : Z) :
    Effect st
      (mkStore (users st) (movies st)
               (List.filter (fun x => negb (Review.id x =? i)) (reviews st))
               (nextUserId st) (nextReviewId st)).

(** What identifies an account and lets its owner in: everything of a user
    record but the refresh token. *)
Definition account (u : User.t) : Z * string * string * string * string :=
  (User.id u, User.fullName u, User.email u, User.username u, User.password u).

Definition lowerCaseUsernames (st : Store) : Prop :=
  forall u, In u (users st) -> toLowerCase (User.username u) = User.username u.

Definition uniqueUsers (st : Store) : Prop :=
  List.NoDup (List.map User.username (users st))
  /\ List.NoDup (List.map User.email (users st)).

(** Review ids are below the counter and no two reviews share one. *)
Definition reviewIdsFresh (st : Store) : Prop :=
  reviewIdsBelowCounter st /\ List.NoDup (List.map Review.id (reviews st)).

(** The properties of an object as [res.json] sends them. *)
Definition jsonFields (fs : list (string * value)) : list (string * value) :=
  match to_json (VObject fs) with
  | VObject sent => sent
  | _ => []
  end.

(** A review as [getMovieWithReviews] nests it in a movie: the review's
    columns, then its author as the user table has it, or [null]. *)
Definition nestedReview (us : list User.t) (r : Review.t) : value :=
  VObject (review_obj r ++
           [("user", match List.find (fun u => User.id u =? Review.userId r) us with
                     | Some u => VObject (user_obj u)
                     | None => VNull
                     end)])%list.

(** ** Sample data *)

Module Sample.

Definition alice : User.t :=
  User.mk 1 "Alice" "alice@x.com" "alice" "$2b$10$pw-alice$s1" None.
Definition bob : User.t :=
  User.mk 2 "Bob" "bob@x.com" "bob" "$2b$10$pw-bob$s2" (Some "rt:2").
Definition matrix : Movie.t := Movie.mk 10 [("title", VString "The Matrix")].
Definition review1 : Review.t := Review.mk 100 10 1 "Great" 5.
Definition review2 : Review.t := Review.mk 101 10 2 "Fine" 3.

Definition store : Store :=
  mkStore [alice; bob] [matrix] [review1; review2] 3 102.

Definition refused {A} : Result A := Throw (PrismaClientError ValidationFailure).

(** A database whose [Int] is of 64 bits and which returns rows in the order
    they were stored, behind a client that knows the filters [equals] and
    [not] and the operations [set] and [increment]. *)

#[global] Instance engine : Engine :=
  {| fitsInt := fun z => (- 2 ^ 63 <=? z) && (z <? 2 ^ 63);
     stringFilterObject := fun fs =>
       match fs with
       | [(k, VString s)] =>
           if String.eqb k "equals" then Ok (fun x => String.eqb x s)
           else if String.eqb k "not" then Ok (fun x => negb (String.eqb x s))
           else refused
       | _ => refused
       end;
     stringOperation := fun fs =>
       match fs with
       | [(k, VString s)] =>
           if String.eqb k "set" then Ok (fun stored => Ok s) else refused
       | _ => refused
       end;
     intOperation := fun fs =>
       match fs with
       | [(k, VNumber n)] =>
           if String.eqb k "set" then Ok (fun stored => Ok n)
           else if String.eqb k "increment" then Ok (fun stored => Ok (stored + n))
           else refused
       | _ => refused
       end;
     pickRow := fun rows => 0%nat |}.


(** Stand-ins for the libraries and helpers. *)
Definition bcrypt_hash (password : string) (rounds : Z) (salt : string) : string :=
  "$2b$10$" +:+ password +:+ "$" +:+ salt.

Definition verifyPassword (password : value) (hash : string) : Result bool :=
  match password with
  | VString p => Ok (String.prefix ("$2b$10$" +:+ p +:+ "$") hash)
  | _ => Throw HelperError
  end.

Definition generateAccessToken (userId : Z) : Result string :=
  if userId =? 1 then Ok "at:1"
  else if userId =? 2 then Ok "at:2"
  else if userId =? 3 then Ok "at:3"
  else Throw HelperError.

Definition generateRefreshToken (userId : Z) : Result string :=
  if userId =? 1 then Ok "rt:1"
  else if userId =? 2 then Ok "rt:2"
  else if userId =? 3 then Ok "rt:3"
  else Throw HelperError.

Definition jwt_verify (token : string) : option Identity :=
  if String.eqb token "at:1" then Some (mkIdentity 1)
  else if String.eqb token "at:2" then Some (mkIdentity 2)
  else if String.eqb token "at:3" then Some (mkIdentity 3)
  else None.

Definition verifyToken (token : string) : Result Identity :=
  match jwt_verify token with
  | Some i => Ok i
  | None => Throw HelperError
  end.

Definition request (cs hs ps : list (string * string))
    (b : list (string * value)) (u : option Identity) : Request :=
  mkRequest (list_to_map cs) (list_to_map hs) (list_to_map ps) (list_to_map b) u.

(** A request whose [accessToken] cookie is there and empty. *)
Definition emptyCookie : Request := request [("accessToken", "")] [] [] [] None.

Definition loginBob : Request :=
  request [] [] [] [("username", VString "bob"); ("password", VString "pw-bob")] None.

(** Registrations: a new user with a mixed-case username, the email of alice
    in upper case, the username of alice in upper case. *)
Definition registration (fullName email username password : string) : Request :=
  request [] [] []
    [ ("fullName", VString fullName); ("email", VString email);
      ("username", VString username); ("password", VString password) ] None.

Definition registerA1 : Request := registration "A" "a@x.com" "A1" "pw".
Definition registerAliceEmailUpper : Request :=
  registration "Carol" "ALICE@x.com" "carol" "pw".
Definition registerAliceUpper : Request :=
  registration "Carol" "carol@x.com" "ALICE" "pw".

Definition loginA1 : Request :=
  request [] [] [] [("username", VString "A1"); ("password", VString "pw")] None.
Definition loginA1Lower : Request :=
  request [] [] [] [("username", VString "a1"); ("password", VString "pw")] None.

(** The same update of review 100, which alice wrote, asked by alice and by
    bob. *)
Definition updateByAlice : Request :=
  request [("accessToken", "at:1")] [] [("reviewId", "100")]
    [("reviewText", VString "Changed"); ("rating", VNumber 1)]
    (Some (mkIdentity 1)).
Definition updateByBob : Request :=
  request [("accessToken", "at:2")] [] [("reviewId", "100")]
    [("reviewText", VString "Changed"); ("rating", VNumber 1)]
    (Some (mkIdentity 2)).

(** Movie 10 with its reviews, asked by alice. *)
Definition getMatrix : Request :=
  request [("accessToken", "at:1")] [] [("id", "10")] [] (Some (mkIdentity 1)).

(** The current user, asked by bob and by alice. *)
Definition whoAmI : Request :=
  request [("accessToken", "at:2")] [] [] [] (Some (mkIdentity 2)).

(** A review of movie 10 by alice: authenticated by the cookie, as the gate
    wants it, and without an [Authorization] header; and with the header. *)
Definition reviewByCookie : Request :=
  request [("accessToken", "at:1")] [] [("id", "10")]
    [("reviewText", VString "Again"); ("rating", VNumber 4)]
    (Some (mkIdentity 1)).
Definition reviewByHeader : Request :=
  request [] [("authorization", "Bearer at:1")] [("id", "10")]
    [("reviewText", VString "Again"); ("rating", VNumber 4)] None.

(** Registrations that validation stops: a password of blanks, with the
    username of alice; no password at all. *)
Definition registerBlankPassword : Request :=
  registration "Carol" "carol@x.com" "alice" "   ".
Definition registerNoPassword : Request :=
  request [] [] []
    [ ("fullName", VString "Carol"); ("email", VString "carol@x.com");
      ("username", VString "carol") ] None.
Definition registerCarol : Request :=
  registration "Carol" "carol@x.com" "Carol" "pw-carol".
Definition registerCarolAgain : Request :=
  registration "C." "other@x.com" "CAROL" "pw2".

(** Stand-ins for a token service whose refresh tokens cannot be issued. *)
Definition noRefreshToken (userId : Z) : Result string := Throw HelperError.

(** A day of calls: carol registers, bob logs in, alice reviews movie 10
    again, bob changes and then deletes review 100. *)
Definition day : list Call :=
  [ CallRegister "s3" registerCarol; CallLogin loginBob;
    CallCreateReview reviewByHeader; CallUpdateReview updateByBob;
    CallDeleteReview updateByBob ].

(** Movie 11 does not exist, nor does movie 9999999999, whose id is beyond 32
    bits; ["x"] is no number. *)
Definition getMovie11 : Request := request [] [] [("id", "11")] [] None.
Definition getMovieBig : Request := request [] [] [("id", "9999999999")] [] None.
Definition getMovieX : Request := request [] [] [("id", "x")] [] None.

(** A request on which the gate attached the id of nobody. *)
Definition whoIsNobody : Request := request [] [] [] [] (Some (mkIdentity 7)).

(** An update of review 100 that names no field, and one of its text only. *)
Definition updateNothing : Request := request [] [] [("reviewId", "100")] [] None.
(** An update of review 100 whose rating is an operation, not a number. *)
Definition updateIncrement : Request :=
  request [] [] [("reviewId", "100")]
    [("rating", VObject [("increment", VNumber 1)])] None.
(** An update and a deletion of review 555, which does not exist. *)
Definition update555 : Request :=
  request [] [] [("reviewId", "555")] [("rating", VNumber 2)] None.

(** HTTP requests: the current user with the cookies given; an update of
    review 100 with the cookie of bob, the path in capitals and with a closing
    slash; a deletion without a cookie. *)
Definition httpWhoAmI (cs : list (string * string)) : HttpRequest :=
  mkHttp GET "/currentuser" (list_to_map cs) ∅ ∅.
Definition httpUpdate : HttpRequest :=
  mkHttp POST "/UpdateReview/" (list_to_map [("accessToken", "at:2")]) ∅
         (list_to_map [("reviewId", VNumber 100); ("reviewText", VString "Changed")]).
Definition httpDeleteNoCookie : HttpRequest :=
  mkHttp POST "/deletereview" ∅ ∅ (list_to_map [("reviewId", VNumber 100)]).

End Sample.

(** * Properties *)

(** ** JavaScript strings on examples *)

Example parseInt_examples :
  parseInt (Some "42") = Some 42 /\ parseInt (Some " -7px") = Some (-7)
  /\ parseInt (Some "0x1f") = Some 31 /\ parseInt (Some "") = None
  /\ parseInt None = None /\ parseInt (Some "abc") = None.
Proof. repeat split; reflexivity. Qed.

Example string_examples :
  trim "  a b  " = "a b" /\ toLowerCase "A1" = "a1"
  /\ split " " "Bearer abc" = ["Bearer"; "abc"]
  /\ split " " "Bearer  abc" = ["Bearer"; ""; "abc"]
  /\ split " " "abc" = ["abc"].
Proof. repeat split; reflexivity. Qed.

(** ** The auth gate *)

Lemma noToken_spec (token : option string) :
  noToken token = true <-> token = None \/ token = Some "".
Proof.
  destruct token as [t|]; simpl.
  - rewrite String.eqb_eq. split.
    + intros ->. now right.
    + intros [H|H]; congruence.
  - split; auto.
Qed.

Lemma noToken_false (token : option string) :
  noToken token = false <-> exists t, token = Some t /\ t <> "".
Proof.
  destruct token as [t|]; simpl.
  - rewrite String.eqb_neq. split.
    + intros H. now exists t.
    + intros (t' & [= <-] & H). exact H.
  - split; [discriminate | intros (t & H & _); discriminate].
Qed.

(** C5, as stated, fails: a cookie [accessToken=] is present, its value is the
    empty string, [!token] holds and the gate answers 401, whatever [jwt]
    denotes. *)
Lemma authenticateToken_empty_cookie :
  cookies Sample.emptyCookie !! "accessToken" = Some ""
  /\ (forall jwt, authenticateToken jwt Sample.emptyCookie = Rejected unauthorized)
  /\ (forall jwt, ~ gate_401_iff_absent jwt Sample.emptyCookie).
Proof.
  assert (H1 : cookies Sample.emptyCookie !! "accessToken" = Some "")
    by (vm_compute; reflexivity).
  assert (H2 : forall jwt, authenticateToken jwt Sample.emptyCookie
                           = Rejected unauthorized).
  { intros jwt. unfold authenticateToken. rewrite H1. reflexivity. }
  split; [exact H1|]. split; [exact H2|].
  intros jwt. unfold gate_401_iff_absent. intros [H _].
  specialize (H (H2 jwt)). congruence.
Qed.

(** With [jwt] unbound, as the text of the middleware has it, a request with
    a cookie that is not empty gets no answer from the gate: it throws. *)
Lemma authenticateToken_unbound (req : Request) (t : string) :
  cookies req !! "accessToken" = Some t -> t <> "" ->
  authenticateToken None req = Threw (ReferenceError "jwt").
Proof.
  intros Ht Hne. unfold authenticateToken. rewrite Ht. simpl.
  apply String.eqb_neq in Hne. rewrite Hne. reflexivity.
Qed.

Lemma authenticateToken_Threw (jwt : option (string -> option Identity))
    (req : Request) (e : Exn) :
  authenticateToken jwt req = Threw e
  <-> jwt = None /\ e = ReferenceError "jwt"
      /\ exists t, cookies req !! "accessToken" = Some t /\ t <> "".
Proof.
  unfold authenticateToken.
  destruct (noToken (cookies req !! "accessToken")) eqn:Hno.
  - split; [discriminate|]. intros (_ & _ & t & Ht & Hne).
    apply noToken_spec in Hno. destruct Hno; congruence.
  - apply noToken_false in Hno. destruct jwt as [verify|].
    + split; [|intros (Hj & _); discriminate Hj].
      destruct (verify _); discriminate.
    + split.
      * intros [= <-]. auto.
      * intros (_ & -> & _). reflexivity.
Qed.

(** C5 (amended): whatever [jwt] denotes, the gate answers 401 exactly when
    the [accessToken] cookie is absent or empty; it answers 403 exactly when
    the cookie holds a non-empty token, [jwt] is bound and its verification
    of the token fails; it calls the next stage exactly when that
    verification succeeds, on the request with the decoded identity attached;
    and it rejects with no other answer than these two. *)
Theorem authenticateToken_spec (jwt : option (string -> option Identity))
    (req : Request) :
  let token := cookies req !! "accessToken" in
  (authenticateToken jwt req = Rejected unauthorized
   <-> token = None \/ token = Some "")
  /\ (authenticateToken jwt req = Rejected forbidden
      <-> exists t verify, token = Some t /\ t <> "" /\ jwt = Some verify
                           /\ verify t = None)
  /\ (forall req', authenticateToken jwt req = Next req'
      <-> exists t verify ident,
            token = Some t /\ t <> "" /\ jwt = Some verify
            /\ verify t = Some ident /\ req' = attach ident req)
  /\ (forall r, authenticateToken jwt req = Rejected r
      -> r = unauthorized \/ r = forbidden).
Proof.
  cbv zeta. unfold authenticateToken.
  destruct (noToken (cookies req !! "accessToken")) eqn:Hno.
  - pose proof (proj1 (noToken_spec _) Hno) as Habs.
    repeat split.
    + intros _. exact Habs.
    + intros H. discriminate H.
    + intros (t & verify & Ht & Hne & _). destruct Habs; congruence.
    + intros H. discriminate H.
    + intros (t & verify & ident & Ht & Hne & _). destruct Habs; congruence.
    + intros r [= <-]. now left.
  - destruct (proj1 (noToken_false _) Hno) as (t & Ht & Hne).
    rewrite Ht. simpl.
    destruct jwt as [verify|].
    + destruct (verify t) as [ident|] eqn:Hv.
      * repeat split.
        -- intros H. discriminate H.
        -- intros [H|H]; congruence.
        -- intros H. discriminate H.
        -- intros (t' & verify' & [= <-] & _ & [= <-] & H). congruence.
        -- intros [= <-]. exists t, verify, ident. repeat split; auto.
        -- intros (t' & verify' & ident' & [= <-] & _ & [= <-] & Hv' & ->).
           rewrite Hv in Hv'. injection Hv' as <-. reflexivity.
        -- intros r H. discriminate H.
      * repeat split.
        -- intros H. discriminate H.
        -- intros [H|H]; congruence.
        -- intros _. exists t, verify. auto.
        -- intros H. discriminate H.
        -- intros (t' & verify' & ident & [= <-] & _ & [= <-] & H & _).
           congruence.
        -- intros r [= <-]. now right.
    + repeat split.
      * intros H. discriminate H.
      * intros [H|H]; congruence.
      * intros H. discriminate H.
      * intros (t' & verify' & _ & _ & H & _). discriminate H.
      * intros H. discriminate H.
      * intros (t' & verify' & ident & _ & _ & H & _). discriminate H.
      * intros r H. discriminate H.
Qed.

(** The three answers of the gate on concrete requests, with [jwt] bound to
    the sample verification. *)
Lemma authenticateToken_spec_witness :
  authenticateToken (Some Sample.jwt_verify) (Sample.request [] [] [] [] None)
  = Rejected unauthorized
  /\ authenticateToken (Some Sample.jwt_verify)
       (Sample.request [("accessToken", "forged")] [] [] [] None)
     = Rejected forbidden
  /\ authenticateToken (Some Sample.jwt_verify)
       (Sample.request [("accessToken", "at:2")] [] [] [] None)
     = Next (attach (mkIdentity 2)
               (Sample.request [("accessToken", "at:2")] [] [] [] None)).
Proof.
  split; [|split].
  - apply (proj1 (authenticateToken_spec (Some Sample.jwt_verify)
                    (Sample.request [] [] [] [] None))).
    left. vm_compute. reflexivity.
  - apply (proj1 (proj2 (authenticateToken_spec (Some Sample.jwt_verify)
                    (Sample.request [("accessToken", "forged")] [] [] [] None)))).
    exists "forged", Sample.jwt_verify. split; [vm_compute; reflexivity|].
    split; [discriminate|]. split; [reflexivity | vm_compute; reflexivity].
  - apply (proj1 (proj2 (proj2 (authenticateToken_spec (Some Sample.jwt_verify)
                    (Sample.request [("accessToken", "at:2")] [] [] [] None))))).
    exists "at:2", Sample.jwt_verify, (mkIdentity 2).
    split; [vm_compute; reflexivity|].
    split; [discriminate|]. split; [reflexivity|].
    split; [vm_compute; reflexivity | reflexivity].
Defined.

(** ** Lookups of the user table *)

Lemma find_ext_eq {A} (f g : A -> bool) (l : list A) :
  (forall a, f a = g a) -> List.find f l = List.find g l.
Proof.
  intros H. induction l as [|a l IH]; simpl; [reflexivity|].
  rewrite H, IH. reflexivity.
Qed.

Lemma find_none_all {A} (f : A -> bool) (l : list A) :
  List.find f l = None <-> (forall a, In a l -> f a = false).
Proof.
  induction l as [|a l IH]; simpl.
  - split; [intros _ a [] | reflexivity].
  - destruct (f a) eqn:Hfa.
    + split; [discriminate|]. intros H. specialize (H a (or_introl eq_refl)).
      congruence.
    + rewrite IH. split.
      * intros H b [<-|Hb]; auto.
      * intros H b Hb. apply H. now right.
Qed.

Lemma find_app_none {A} (f : A -> bool) (l1 l2 : list A) :
  List.find f l1 = None -> List.find f (l1 ++ l2)%list = List.find f l2.
Proof.
  induction l1 as [|a l1 IH]; simpl; [reflexivity|].
  destruct (f a); [discriminate | exact IH].
Qed.

(** The row the database returns first is one of the rows, and there is one
    unless there is no row. *)
Lemma firstRow_In {DB : Engine} (rows : list User.t) (u : User.t) :
  firstRow rows = Some u -> In u rows.
Proof.
  unfold firstRow. destruct rows as [|r rows]; [discriminate|].
  apply nth_error_In.
Qed.

Lemma firstRow_None {DB : Engine} (rows : list User.t) :
  firstRow rows = None <-> rows = [].
Proof.
  unfold firstRow. destruct rows as [|r rows]; [tauto|].
  split; [|discriminate]. intros Hn. apply nth_error_None in Hn.
  pose proof (Nat.mod_upper_bound (pickRow (r :: rows)) (List.length (r :: rows)))
    as Hlt.
  simpl in Hn, Hlt. specialize (Hlt ltac:(discriminate)).
  exfalso. apply (proj1 (Nat.le_ngt _ _) Hn). exact Hlt.
Qed.

Lemma firstRow_filter_None {DB : Engine} (f : User.t -> bool) (l : list User.t) :
  firstRow (List.filter f l) = None <-> (forall u, In u l -> f u = false).
Proof.
  rewrite firstRow_None. split.
  - intros Hnil u Hu. destruct (f u) eqn:Hf; [|reflexivity].
    assert (Hin : In u (List.filter f l)) by (apply filter_In; auto).
    rewrite Hnil in Hin. destruct Hin.
  - intros Hall. destruct (List.filter f l) as [|u rest] eqn:Hfl; [reflexivity|].
    assert (Hin : In u (List.filter f l)) by (rewrite Hfl; now left).
    apply filter_In in Hin. destruct Hin as [Hin Hf].
    rewrite (Hall u Hin) in Hf. discriminate Hf.
Qed.

Lemma firstRow_filter_Some {DB : Engine} (f : User.t -> bool) (l : list User.t)
    (u : User.t) :
  firstRow (List.filter f l) = Some u -> In u l /\ f u = true.
Proof. intros Hf. apply firstRow_In in Hf. apply filter_In in Hf. exact Hf. Qed.

Lemma firstRow_filter_find_None {DB : Engine} (f : User.t -> bool) (l : list User.t) :
  firstRow (List.filter f l) = None <-> List.find f l = None.
Proof. rewrite firstRow_filter_None, find_none_all. reflexivity. Qed.

Lemma firstRow_filter_some_of_In {DB : Engine} (f : User.t -> bool)
    (l : list User.t) (u : User.t) :
  In u l -> f u = true -> exists v, firstRow (List.filter f l) = Some v.
Proof.
  intros Hin Hfu. destruct (firstRow (List.filter f l)) as [v|] eqn:Hrow; eauto.
  rewrite firstRow_filter_None in Hrow. rewrite (Hrow u Hin) in Hfu.
  discriminate Hfu.
Qed.

Lemma firstRow_filter_unique {DB : Engine} (f : User.t -> bool)
    (l : list User.t) (u : User.t) :
  (forall v, In v l -> f v = true -> v = u) ->
  In u l -> f u = true ->
  firstRow (List.filter f l) = Some u.
Proof.
  intros Huniq Hin Hfu.
  destruct (firstRow (List.filter f l)) as [v|] eqn:Hrow.
  - apply firstRow_filter_Some in Hrow. destruct Hrow as [Hv Hfv].
    f_equal. apply Huniq; assumption.
  - rewrite firstRow_filter_None in Hrow. rewrite (Hrow u Hin) in Hfu.
    discriminate Hfu.
Qed.

(** Where as many rows as one match, that one is returned: the order of the
    rows does not count. *)
Lemma firstRow_filter_find {DB : Engine} (f : User.t -> bool) (l : list User.t) :
  (forall a b, In a l -> In b l -> f a = true -> f b = true -> a = b) ->
  List.NoDup l ->
  firstRow (List.filter f l) = List.find f l.
Proof.
  intros Huniq Hnd.
  destruct (firstRow (List.filter f l)) as [u|] eqn:Hr.
  - apply firstRow_filter_Some in Hr. destruct Hr as [Hin Hf].
    destruct (List.find f l) as [v|] eqn:Hv.
    + apply find_some in Hv. destruct Hv as [Hvin Hvf].
      f_equal. apply Huniq; assumption.
    + pose proof (find_none _ _ Hv u Hin) as Hn. congruence.
  - rewrite firstRow_filter_None in Hr. symmetry.
    apply find_none_all. exact Hr.
Qed.

(** For identifiers that are strings or absent, the filter of the lookup is
    [identifies]. *)
Lemma orFilter_identifier {DB : Engine} (username email : value) :
  identifier username -> identifier email ->
  prisma.user.orFilter username email = Ok (identifies username email).
Proof. intros [->|[s ->]] [->|[e ->]]; reflexivity. Qed.

Lemma findFirst_identifies {DB : Engine} (username email : value) (st : Store) :
  identifier username -> identifier email ->
  prisma.user.findFirst username email st
  = (st, Ok (firstRow (List.filter (identifies username email) (users st)))).
Proof.
  intros Hu He. unfold prisma.user.findFirst.
  rewrite (orFilter_identifier _ _ Hu He). reflexivity.
Qed.

Lemma findFirst_unfold {DB : Engine} (username email : value) (st : Store) :
  prisma.user.findFirst username email st
  = match prisma.user.orFilter username email with
    | Ok f => (st, Ok (firstRow (List.filter f (users st))))
    | Throw e => (st, Throw e)
    end.
Proof. reflexivity. Qed.

Lemma findFirst_ok_inv {DB : Engine} (username email : value) (st st' : Store)
    (r : option User.t) :
  prisma.user.findFirst username email st = (st', Ok r) ->
  st' = st
  /\ exists f, prisma.user.orFilter username email = Ok f
               /\ r = firstRow (List.filter f (users st)).
Proof.
  rewrite findFirst_unfold.
  destruct (prisma.user.orFilter username email) as [f|e]; [|discriminate].
  intros [= <- <-]. split; [reflexivity|]. exists f. auto.
Qed.


(** ** Login *)


Section Login.

Context {DB : Engine}.

Variable verifyPassword : value -> string -> Result bool.
Variable generateAccessToken : Z -> Result string.
Variable generateRefreshToken : Z -> Result string.
Variable NODE_ENV : option string.


End Login.


Section LoginSuccess.

Context {DB : Engine}.

Variable verifyPassword : value -> string -> Result bool.
Variable generateAccessToken : Z -> Result string.
Variable generateRefreshToken : Z -> Result string.
Variable NODE_ENV : option string.

Lemma generateAccessAndRefreshTokens_ok (userId : Z) (st st' : Store)
    (tokens : string * string) :
  generateAccessAndRefreshTokens generateAccessToken generateRefreshToken userId st
  = (st', Ok tokens) ->
  generateAccessToken userId = Ok (fst tokens)
  /\ generateRefreshToken userId = Ok (snd tokens)
  /\ st' = mkStore
             (List.map (fun x => if User.id x =? userId
                                 then prisma.user.setRefreshToken (snd tokens) x
                                 else x) (users st))
             (movies st) (reviews st) (nextUserId st) (nextReviewId st).
Proof.
  unfold generateAccessAndRefreshTokens, tryCatch, bind, lift, ret, throw,
    prisma.user.findUnique, prisma.user.update.
  destruct (List.find (fun u => User.id u =? userId) (users st)) as [u|] eqn:Hf;
    [|discriminate].
  destruct (generateAccessToken userId) as [at_|e]; [|discriminate].
  destruct (generateRefreshToken userId) as [rt|e]; [|discriminate].
  cbv beta. rewrite Hf. intros [= <- <-]. auto.
Qed.


End LoginSuccess.


(** ** Registration *)

Lemma someBlank_false (fields : list value) :
  someBlank fields = Ok false ->
  Forall (fun v => exists s, v = VString s /\ trim s <> "") fields.
Proof.
  induction fields as [|v l IH]; simpl; [constructor|].
  destruct v; simpl; try discriminate.
  destruct (String.eqb (trim s) "") eqn:Hs; [discriminate|].
  intros H. constructor; [|auto].
  exists s. split; [reflexivity|]. now apply String.eqb_neq.
Qed.

Lemma someBlank_strings (fields : list value) :
  Forall (fun v => exists s, v = VString s /\ trim s <> "") fields ->
  someBlank fields = Ok false.
Proof.
  induction 1 as [|v l (s & -> & Hs) _ IH]; simpl; [reflexivity|].
  apply String.eqb_neq in Hs. rewrite Hs. exact IH.
Qed.

Lemma create_unique_of_find (username email : string) (st : Store) :
  List.find (identifies (VString username) (VString email)) (users st) = None ->
  existsb (fun u => String.eqb (User.username u) username
                    || String.eqb (User.email u) email) (users st) = false.
Proof.
  intros H. rewrite find_none_all in H.
  apply not_true_is_false. intros Hex. apply existsb_exists in Hex.
  destruct Hex as (u & Hin & Hu). specialize (H u Hin).
  unfold identifies in H. congruence.
Qed.

Section Registration.

Context {DB : Engine}.

Variable bcrypt_hash : string -> Z -> string -> string.

Lemma registerUser_ok_inv (salt : string) (req : Request) (st st1 : Store)
    (resp : Response) :
  registerUser bcrypt_hash salt req st = (st1, Ok resp) ->
  exists fn em un pw,
    prop (body req) "fullName" = VString fn
    /\ prop (body req) "email" = VString em
    /\ prop (body req) "username" = VString un
    /\ prop (body req) "password" = VString pw
    /\ trim un <> ""
    /\ List.find (identifies (VString (toLowerCase un)) (VString em)) (users st)
       = None
    /\ st1 = mkStore (users st ++ [registered bcrypt_hash st salt fn em un pw])%list
                     (movies st) (reviews st) (nextUserId st + 1)
                     (nextReviewId st)
    /\ resp = jsonApi 201 [] 200
                (VObject (obj_set "password" VUndefined
                            (user_obj (registered bcrypt_hash st salt fn em un pw))))
                "User registered successfully".
Proof.
  unfold registerUser. unfold bind at 1, lift at 1.
  destruct (someBlank _) as [[|]|e] eqn:Hblank; try discriminate.
  apply someBlank_false in Hblank.
  inversion Hblank as [|? ? (fn & Hfn & _) H1]; subst.
  inversion H1 as [|? ? (em & Hem & _) H2]; subst.
  inversion H2 as [|? ? (un & Hun & Tun) H3]; subst.
  inversion H3 as [|? ? (pw & Hpw & _) _]; subst.
  rewrite Hfn, Hem, Hun, Hpw. simpl.
  unfold bind at 1, lift at 1. unfold bind at 1.
  rewrite findFirst_identifies by (right; eauto).
  destruct (firstRow _) as [u|] eqn:Hfind; [discriminate|].
  apply firstRow_filter_find_None in Hfind.
  unfold bind, lift, ret, prisma.user.create. simpl.
  rewrite (create_unique_of_find _ _ _ Hfind).
  intros [= <- <-].
  exists fn, em, un, pw. repeat split; auto.
Qed.

(** C3 (amended): when the four fields are non-blank strings and some stored
    user has the lower-cased form of the supplied username as username, or
    exactly the supplied email as email, the registration fails with
    [ApiError 409] and the store is unchanged.  So every case variant of a
    username that is stored in lower case conflicts; emails are compared as
    they are. *)
Theorem registerUser_conflict (salt : string) (req : Request) (st : Store)
    (fn em un pw : string) (u : User.t) :
  prop (body req) "fullName" = VString fn ->
  prop (body req) "email" = VString em ->
  prop (body req) "username" = VString un ->
  prop (body req) "password" = VString pw ->
  trim fn <> "" -> trim em <> "" -> trim un <> "" -> trim pw <> "" ->
  In u (users st) ->
  User.username u = toLowerCase un \/ User.email u = em ->
  registerUser bcrypt_hash salt req st
  = (st, Throw (ApiError 409 "User with email or username already exists")).
Proof.
  intros Hfn Hem Hun Hpw Tfn Tem Tun Tpw Hin Hu.
  unfold registerUser. rewrite Hfn, Hem, Hun, Hpw.
  unfold bind at 1, lift at 1.
  rewrite someBlank_strings by (repeat constructor; eauto).
  simpl. unfold bind at 1, lift at 1. unfold bind at 1.
  rewrite findFirst_identifies by (right; eauto).
  destruct (firstRow _) as [v|] eqn:Hfind; [reflexivity|].
  exfalso. apply firstRow_filter_find_None in Hfind.
  rewrite find_none_all in Hfind. specialize (Hfind u Hin).
  unfold identifies in Hfind. apply orb_false_elim in Hfind.
  destruct Hfind as [H1 H2]. apply String.eqb_neq in H1, H2.
  destruct Hu; congruence.
Qed.

End Registration.

Lemma registerUser_conflict_witness :
  registerUser Sample.bcrypt_hash "s3" Sample.registerAliceUpper Sample.store
  = (Sample.store,
     Throw (ApiError 409 "User with email or username already exists")).
Proof.
  apply (registerUser_conflict Sample.bcrypt_hash "s3" Sample.registerAliceUpper
           Sample.store "Carol" "carol@x.com" "ALICE" "pw" Sample.alice);
    try reflexivity; try discriminate.
  - left. reflexivity.
  - left. reflexivity.
Defined.

(** C3, as stated, fails: the email of alice in upper case, with a new
    username, is accepted and a user is inserted. *)
Lemma registerUser_email_case_variant :
  In Sample.alice (users Sample.store)
  /\ caseVariant "ALICE@x.com" (User.email Sample.alice)
  /\ (forall DB : Engine,
      exists st1 resp,
        registerUser Sample.bcrypt_hash "s3" Sample.registerAliceEmailUpper
          Sample.store = (st1, Ok resp)
        /\ status resp = 201
        /\ length (users st1) = S (length (users Sample.store)))
  /\ (forall DB : Engine,
      ~ conflict_any_case Sample.bcrypt_hash "s3" Sample.registerAliceEmailUpper
          Sample.store).
Proof.
  split; [left; reflexivity|]. split; [reflexivity|]. split.
  - intros DB. eexists. eexists. split; [vm_compute; reflexivity|].
    split; reflexivity.
  - intros DB H.
    specialize (H Sample.alice "carol" "ALICE@x.com" (or_introl eq_refl)
                  eq_refl eq_refl (or_intror eq_refl)).
    vm_compute in H. discriminate H.
Qed.

(** ** Registration followed by login *)

Lemma toLowerCase_empty (s : string) : toLowerCase s = "" -> s = "".
Proof. destruct s; [reflexivity | discriminate]. Qed.

Lemma trim_empty : trim "" = "".
Proof. reflexivity. Qed.

Lemma find_some_of_In {A} (f : A -> bool) (l : list A) (a : A) :
  In a l -> f a = true -> exists b, List.find f l = Some b.
Proof.
  induction l as [|x l IH]; simpl; [intros []|].
  intros [->|Hin] Hfa.
  - rewrite Hfa. eauto.
  - destruct (f x); eauto.
Qed.

Section RegisterThenLogin.

Context {DB : Engine}.

Variable bcrypt_hash : string -> Z -> string -> string.
Variable verifyPassword : value -> string -> Result bool.
Variable generateAccessToken : Z -> Result string.
Variable generateRefreshToken : Z -> Result string.
Variable NODE_ENV : option string.
Variable jwt_verify : string -> option Identity.

Lemma generateAccessAndRefreshTokens_run (userId : Z) (st : Store) (u : User.t)
    (accessToken refreshToken : string) :
  In u (users st) -> User.id u = userId ->
  generateAccessToken userId = Ok accessToken ->
  generateRefreshToken userId = Ok refreshToken ->
  exists st',
    generateAccessAndRefreshTokens generateAccessToken generateRefreshToken
      userId st = (st', Ok (accessToken, refreshToken)).
Proof.
  intros Hin Hid Hat Hrt.
  destruct (find_some_of_In (fun x => User.id x =? userId) (users st) u Hin)
    as (v & Hv); [apply Z.eqb_eq; exact Hid|].
  unfold generateAccessAndRefreshTokens, tryCatch, bind, lift, ret, throw,
    prisma.user.findUnique, prisma.user.update.
  rewrite Hv, Hat, Hrt. cbv beta. rewrite Hv. eauto.
Qed.

(** A registration that succeeds can be followed by a login with the username
    in lower case, as it was stored, the same password, and the same email or
    none: the login succeeds and its access token verifies to the id of the
    user the registration returned.  The assumptions are those on the
    libraries: a password verifies against its own bcrypt hash, tokens can be
    issued for the new id, and an issued token verifies to the id it was
    issued for. *)
Theorem register_then_login_lower_case (salt : string) (req req' : Request)
    (st st1 : Store) (resp : Response) (un : string) :
  registerUser bcrypt_hash salt req st = (st1, Ok resp) ->
  (forall p s, verifyPassword (VString p) (bcrypt_hash p 10 s) = Ok true) ->
  (exists t, generateAccessToken (nextUserId st) = Ok t) ->
  (exists t, generateRefreshToken (nextUserId st) = Ok t) ->
  (forall uid t, generateAccessToken uid = Ok t ->
                 jwt_verify t = Some (mkIdentity uid)) ->
  prop (body req) "username" = VString un ->
  prop (body req') "username" = VString (toLowerCase un) ->
  prop (body req') "password" = prop (body req) "password" ->
  prop (body req') "email" = VUndefined
  \/ prop (body req') "email" = prop (body req) "email" ->
  exists st2 resp2 t uid,
    loginUser verifyPassword generateAccessToken generateRefreshToken NODE_ENV
      req' st1 = (st2, Ok resp2)
    /\ status resp2 = 200
    /\ get "id" (responseData resp) = VNumber uid
    /\ get "id" (get "user" (responseData resp2)) = VNumber uid
    /\ get "accessToken" (responseData resp2) = VString t
    /\ jwt_verify t = Some (mkIdentity uid).
Proof.
  intros Hreg Hpw (at_ & Hat) (rt & Hrt) Hjwt Hun Hun' Hpw' Hem'.
  apply registerUser_ok_inv in Hreg.
  destruct Hreg as (fn & em & un0 & pw & Bfn & Bem & Bun & Bpw & Tun & Hnone
                    & -> & ->).
  rewrite Bun in Hun. injection Hun as <-.
  set (new := registered bcrypt_hash st salt fn em un0 pw).
  assert (Hlow : toLowerCase un0 <> "").
  { intros H. apply toLowerCase_empty in H. subst un0. apply Tun, trim_empty. }
  assert (Hfind : forall e, e = VUndefined \/ e = VString em ->
            firstRow (List.filter (identifies (VString (toLowerCase un0)) e)
                                  (users st ++ [new])%list) = Some new).
  { intros e He. apply firstRow_filter_unique.
    - intros v Hv Hfv. apply in_app_or in Hv.
      destruct Hv as [Hv|[<-|[]]]; [exfalso | reflexivity].
      rewrite find_none_all in Hnone. specialize (Hnone v Hv).
      unfold identifies in *. apply orb_false_elim in Hnone.
      destruct Hnone as [H1 H2]. rewrite H1 in Hfv.
      destruct He as [-> | ->]; simpl in Hfv; congruence.
    - apply in_or_app. right. left. reflexivity.
    - unfold identifies at 1. simpl. rewrite String.eqb_refl. reflexivity. }
  rewrite Bem, Bpw in *.
  destruct (generateAccessAndRefreshTokens_run (nextUserId st)
              (mkStore (users st ++ [new])%list (movies st) (reviews st)
                       (nextUserId st + 1) (nextReviewId st))
              new at_ rt) as (st2 & Htok); auto.
  { simpl. apply in_or_app. right. left. reflexivity. }
  exists st2. eexists. exists at_, (nextUserId st).
  unfold loginUser. rewrite Hun', Hpw'.
  replace (negb (truthy (VString (toLowerCase un0)))
           && negb (truthy (prop (body req') "email"))) with false.
  2:{ simpl. apply String.eqb_neq in Hlow. rewrite Hlow. reflexivity. }
  unfold bind at 1.
  rewrite findFirst_identifies;
    [| right; eauto | destruct Hem' as [-> | ->]; [left | right]; eauto ].
  cbn [users]. rewrite (Hfind _ Hem').
  unfold bind at 1, lift at 1. unfold new at 1. cbn [User.password registered].
  rewrite Hpw. cbn [negb]. cbv iota. unfold bind at 1.
  unfold new at 1. cbn [User.id registered]. fold new. rewrite Htok.
  unfold ret. split; [reflexivity|].
  split; [reflexivity|]. split; [reflexivity|]. split; [reflexivity|].
  split; [reflexivity|]. apply Hjwt. exact Hat.
Qed.

(** The other side: when the username has an upper-case letter and no stored
    user carries it as typed, the login with the username as typed, and no
    email, finds nobody, whatever the password. *)
Theorem register_then_login_as_typed (salt : string) (req req' : Request)
    (st st1 : Store) (resp : Response) (un : string) :
  registerUser bcrypt_hash salt req st = (st1, Ok resp) ->
  prop (body req) "username" = VString un ->
  toLowerCase un <> un ->
  (forall u, In u (users st) -> User.username u <> un) ->
  prop (body req') "username" = VString un ->
  prop (body req') "email" = VUndefined ->
  loginUser verifyPassword generateAccessToken generateRefreshToken NODE_ENV
    req' st1 = (st1, Throw (ApiError 404 "User does not exist")).
Proof.
  intros Hreg Hun Hcase Hfresh Hun' Hem'.
  apply registerUser_ok_inv in Hreg.
  destruct Hreg as (fn & em & un0 & pw & _ & _ & Bun & _ & Tun & _ & -> & _).
  rewrite Bun in Hun. injection Hun as ->.
  unfold loginUser. rewrite Hun', Hem'.
  replace (negb (truthy (VString un)) && negb (truthy VUndefined)) with false.
  2:{ simpl. destruct (String.eqb_spec un ""); [|reflexivity].
      subst un. destruct Tun. apply trim_empty. }
  unfold bind at 1.
  rewrite findFirst_identifies by (unfold identifier; eauto).
  replace (firstRow _) with (@None User.t); [reflexivity|].
  symmetry. apply firstRow_filter_None. cbn [users]. intros u Hu.
  unfold identifies. rewrite orb_false_r. apply String.eqb_neq.
  apply in_app_or in Hu. destruct Hu as [Hu|[<-|[]]].
  - apply Hfresh, Hu.
  - exact Hcase.
Qed.

End RegisterThenLogin.

Lemma prefix_append (a b : string) : String.prefix a (a +:+ b) = true.
Proof.
  induction a as [|c a IH]; simpl.
  - destruct b; reflexivity.
  - destruct (ascii_dec c c) as [_|Hne]; [exact IH | now destruct Hne].
Qed.

Lemma append_assoc (a b c : string) : (a +:+ b) +:+ c = a +:+ (b +:+ c).
Proof.
  induction a as [|x a IH]; [reflexivity|].
  change (String x ((a +:+ b) +:+ c) = String x (a +:+ (b +:+ c))).
  f_equal. exact IH.
Qed.

Lemma sample_password_verifies (p s : string) :
  Sample.verifyPassword (VString p) (Sample.bcrypt_hash p 10 s) = Ok true.
Proof.
  unfold Sample.verifyPassword, Sample.bcrypt_hash. f_equal.
  rewrite <- (append_assoc p "$" s), <- (append_assoc "$2b$10$" (p +:+ "$") s).
  apply prefix_append.
Qed.

Lemma sample_token_verifies (uid : Z) (t : string) :
  Sample.generateAccessToken uid = Ok t ->
  Sample.jwt_verify t = Some (mkIdentity uid).
Proof.
  unfold Sample.generateAccessToken.
  destruct (uid =? 1) eqn:H1; [apply Z.eqb_eq in H1; intros [= <-]; now subst|].
  destruct (uid =? 2) eqn:H2; [apply Z.eqb_eq in H2; intros [= <-]; now subst|].
  destruct (uid =? 3) eqn:H3; [apply Z.eqb_eq in H3; intros [= <-]; now subst|].
  discriminate.
Qed.

(** The registration of ["A1"] followed by the login of ["a1"]. *)
Lemma register_then_login_lower_case_witness :
  exists st1 resp st2 resp2,
    registerUser Sample.bcrypt_hash "s3" Sample.registerA1 Sample.store
    = (st1, Ok resp)
    /\ loginUser Sample.verifyPassword Sample.generateAccessToken
         Sample.generateRefreshToken None Sample.loginA1Lower st1
       = (st2, Ok resp2)
    /\ get "accessToken" (responseData resp2) = VString "at:3"
    /\ Sample.jwt_verify "at:3" = Some (mkIdentity 3).
Proof.
  destruct (registerUser Sample.bcrypt_hash "s3" Sample.registerA1 Sample.store)
    as [st1 [resp|e]] eqn:Hreg; [|vm_compute in Hreg; discriminate Hreg].
  destruct (register_then_login_lower_case Sample.bcrypt_hash
              Sample.verifyPassword Sample.generateAccessToken
              Sample.generateRefreshToken None Sample.jwt_verify
              "s3" Sample.registerA1 Sample.loginA1Lower Sample.store st1 resp
              "A1" Hreg sample_password_verifies
              (ex_intro _ "at:3" eq_refl) (ex_intro _ "rt:3" eq_refl)
              sample_token_verifies eq_refl eq_refl eq_refl (or_introl eq_refl))
    as (st2 & resp2 & t & uid & Hlogin & _ & Hid & _ & Ht & Hv).
  exists st1, resp, st2, resp2. split; [reflexivity|]. split; [exact Hlogin|].
  vm_compute in Hreg. injection Hreg as <- <-.
  vm_compute in Hid. injection Hid as <-.
  vm_compute in Hlogin. injection Hlogin as <- <-.
  vm_compute in Ht. injection Ht as <-.
  split; [reflexivity | exact Hv].
Defined.

Lemma register_then_login_as_typed_witness :
  exists st1 resp,
    registerUser Sample.bcrypt_hash "s3" Sample.registerA1 Sample.store
    = (st1, Ok resp)
    /\ loginUser Sample.verifyPassword Sample.generateAccessToken
         Sample.generateRefreshToken None Sample.loginA1 st1
       = (st1, Throw (ApiError 404 "User does not exist")).
Proof.
  destruct (registerUser Sample.bcrypt_hash "s3" Sample.registerA1 Sample.store)
    as [st1 [resp|e]] eqn:Hreg; [|vm_compute in Hreg; discriminate Hreg].
  exists st1, resp. split; [reflexivity|].
  apply (register_then_login_as_typed Sample.bcrypt_hash Sample.verifyPassword
           Sample.generateAccessToken Sample.generateRefreshToken None
           "s3" Sample.registerA1 Sample.loginA1 Sample.store st1 resp "A1" Hreg).
  - reflexivity.
  - discriminate.
  - intros u [<-|[<-|[]]]; discriminate.
  - reflexivity.
  - reflexivity.
Defined.

(** C2 at a mixed-case username: the registration of ["A1"] succeeds and
    stores the username ["a1"]; the login with the same username ["A1"] and
    the same password then finds no user and fails with [ApiError 404]. *)
Theorem register_then_login_mixed_case {DB : Engine} :
  exists st1 resp,
    registerUser Sample.bcrypt_hash "s3" Sample.registerA1 Sample.store
    = (st1, Ok resp)
    /\ status resp = 201
    /\ get "username" (responseData resp) = VString "a1"
    /\ prop (body Sample.loginA1) "username"
       = prop (body Sample.registerA1) "username"
    /\ prop (body Sample.loginA1) "password"
       = prop (body Sample.registerA1) "password"
    /\ loginUser Sample.verifyPassword Sample.generateAccessToken
         Sample.generateRefreshToken None Sample.loginA1 st1
       = (st1, Throw (ApiError 404 "User does not exist")).
Proof.
  eexists. eexists. split; [vm_compute; reflexivity|].
  repeat split; vm_compute; reflexivity.
Qed.

(** ** Reviews: update and delete *)

Lemma find_map_preserving {A} (p : A -> bool) (f : A -> A) (l : list A) :
  (forall x, p (f x) = p x) ->
  List.find p (List.map f l) = f <$> List.find p l.
Proof.
  intros H. induction l as [|a l IH]; simpl; [reflexivity|].
  rewrite H. destruct (p a); [reflexivity | exact IH].
Qed.

Lemma setData_idem (t : option string) (r : option Z) (x : Review.t) :
  prisma.review.setData t r (prisma.review.setData t r x)
  = prisma.review.setData t r x.
Proof. destruct t, r; reflexivity. Qed.

Lemma update_typed {DB : Engine} (id : option Z) (reviewText rating : value)
    (st : Store) :
  optionalText reviewText -> optionalRating rating ->
  prisma.review.update id reviewText rating st
  = match intArg id with
    | Ok i =>
        match List.find (fun x => Review.id x =? i) (reviews st) with
        | None => (st, Throw (PrismaClientError RecordNotFound))
        | Some old =>
            (mkStore (users st) (movies st)
               (List.map (fun x => if Review.id x =? i
                                   then prisma.review.setData
                                          (suppliedText reviewText)
                                          (suppliedRating rating) x
                                   else x) (reviews st))
               (nextUserId st) (nextReviewId st),
             Ok (prisma.review.setData (suppliedText reviewText)
                                       (suppliedRating rating) old))
        end
    | Throw e => (st, Throw e)
    end.
Proof.
  intros [->|[s ->]] [->|(n & -> & Hn)]; unfold prisma.review.update;
    cbn [dataString dataInt intArg]; rewrite ?Hn;
    (destruct (intArg id) as [i|e]; [|reflexivity]);
    (destruct (List.find _ (reviews st)) as [old|]; reflexivity).
Qed.

Lemma review_update_twice {DB : Engine} (id : option Z)
    (reviewText rating : value) (st : Store) :
  optionalText reviewText -> optionalRating rating ->
  prisma.review.update id reviewText rating
    (fst (prisma.review.update id reviewText rating st))
  = prisma.review.update id reviewText rating st.
Proof.
  intros Ht Hr. rewrite (update_typed id _ _ st Ht Hr).
  destruct (intArg id) as [i|e] eqn:Hi;
    [|cbn [fst]; rewrite (update_typed id _ _ st Ht Hr), Hi; reflexivity].
  destruct (List.find (fun x => Review.id x =? i) (reviews st)) as [old|] eqn:Hf.
  - cbn [fst]. rewrite update_typed by assumption. rewrite Hi.
    cbn [reviews users movies nextUserId nextReviewId].
    rewrite (find_map_preserving (fun x => Review.id x =? i)).
    + rewrite Hf. cbn [fmap option_fmap option_map].
      rewrite (proj2 (Z.eqb_eq (Review.id old) i))
        by (apply find_some in Hf; apply Z.eqb_eq, Hf).
      rewrite setData_idem. f_equal. f_equal.
      rewrite List.map_map. apply List.map_ext. intros x.
      destruct (Review.id x =? i) eqn:Hx.
      * cbn [prisma.review.setData Review.id]. rewrite Hx. apply setData_idem.
      * rewrite Hx. reflexivity.
    + intros x. destruct (Review.id x =? i) eqn:Hx; [|exact Hx].
      cbn [prisma.review.setData Review.id]. exact Hx.
  - cbn [fst]. rewrite update_typed by assumption. rewrite Hi, Hf. reflexivity.
Qed.

Lemma updateReview_unfold {DB : Engine} (req : Request) (st : Store) :
  updateReview req st
  = match prisma.review.update (parseInt (params req !! "reviewId"))
            (prop (body req) "reviewText") (prop (body req) "rating") st with
    | (st', Ok rv) => (st', Ok (json 200 (VObject (review_obj rv))))
    | (st', Throw _) =>
        (st', Ok (json 500 (VObject [("message",
                                      VString "Failed to update review")])))
    end.
Proof.
  unfold updateReview, tryCatch, bind, ret.
  destruct (prisma.review.update _ _ _ st) as [st' [rv|e]]; reflexivity.
Qed.

Lemma deleteReview_unfold {DB : Engine} (req : Request) (st : Store) :
  deleteReview req st
  = match prisma.review.delete (parseInt (params req !! "reviewId")) st with
    | (st', Ok _) => (st', Ok (mkResponse 204 [] NoBody))
    | (st', Throw _) =>
        (st', Ok (json 500 (VObject [("message",
                                      VString "Failed to delete review")])))
    end.
Proof.
  unfold deleteReview, tryCatch, bind, ret.
  destruct (prisma.review.delete _ st) as [st' [rv|e]]; reflexivity.
Qed.

Lemma update_refused {DB : Engine} (id : option Z) (reviewText rating : value)
    (st : Store) :
  (exists e, dataString reviewText = Throw e)
  \/ (exists e, dataInt rating = Throw e) ->
  exists e, prisma.review.update id reviewText rating st = (st, Throw e).
Proof.
  unfold prisma.review.update. intros [[e He] | [e He]]; rewrite He.
  - destruct (intArg id); destruct (dataInt rating); eauto.
  - destruct (intArg id); destruct (dataString reviewText); eauto.
Qed.

Lemma plain_text {DB : Engine} (v : value) :
  plain v -> optionalText v \/ exists e, dataString v = Throw e.
Proof.
  intros Hv. destruct v as [| | |n|s|fs|l]; cbn [dataString]; eauto.
  - left. left. reflexivity.
  - left. right. eauto.
  - now destruct (Hv fs).
Qed.

Lemma plain_rating {DB : Engine} (v : value) :
  plain v -> optionalRating v \/ exists e, dataInt v = Throw e.
Proof.
  intros Hv. destruct v as [| | |n|s|fs|l]; cbn [dataInt intArg]; eauto.
  - left. left. reflexivity.
  - destruct (fitsInt n) eqn:Hn; [left; right | right]; eauto.
  - now destruct (Hv fs).
Qed.

Lemma review_update_twice_plain {DB : Engine} (id : option Z)
    (reviewText rating : value) (st : Store) :
  plain reviewText -> plain rating ->
  prisma.review.update id reviewText rating
    (fst (prisma.review.update id reviewText rating st))
  = prisma.review.update id reviewText rating st.
Proof.
  intros Ht Hr.
  destruct (plain_text _ Ht) as [Ht' | Hno];
    [destruct (plain_rating _ Hr) as [Hr' | Hno]|].
  - apply review_update_twice; assumption.
  - destruct (update_refused id reviewText rating st (or_intror Hno)) as [e He].
    rewrite He. cbn [fst]. exact He.
  - destruct (update_refused id reviewText rating st (or_introl Hno)) as [e He].
    rewrite He. cbn [fst]. exact He.
Qed.

(** C9: [updateReview] is idempotent.  For a text and a rating that are no
    objects (the handler would pass an object to the client as an operation
    on the stored value), running the same update on the store the first run
    left gives that store again, and the same response; in particular an
    existing review is in the same state after two runs as after one. *)
Theorem updateReview_idempotent {DB : Engine} (req : Request) (st : Store) :
  plain (prop (body req) "reviewText") ->
  plain (prop (body req) "rating") ->
  updateReview req (fst (updateReview req st)) = updateReview req st.
Proof.
  intros Ht Hr.
  rewrite (updateReview_unfold req st).
  destruct (prisma.review.update (parseInt (params req !! "reviewId"))
              (prop (body req) "reviewText") (prop (body req) "rating") st)
    as [st1 r1] eqn:H1.
  assert (H2 := review_update_twice_plain (parseInt (params req !! "reviewId"))
                  (prop (body req) "reviewText") (prop (body req) "rating") st
                  Ht Hr).
  rewrite H1 in H2. cbn [fst] in H2.
  replace (fst (let (st', r) := (st1, r1) in
                match r with
                | Ok rv => (st', Ok (json 200 (VObject (review_obj rv))))
                | Throw _ =>
                    (st', Ok (json 500 (VObject [("message",
                                VString "Failed to update review")])))
                end)) with st1 by (destruct r1; reflexivity).
  rewrite (updateReview_unfold req st1), H2. reflexivity.
Qed.

(** The update bob asks for changes review 100, and asking again changes
    nothing more. *)
Lemma updateReview_idempotent_witness :
  reviews (fst (updateReview Sample.updateByBob Sample.store))
  = [Review.mk 100 10 1 "Changed" 1; Sample.review2]
  /\ updateReview Sample.updateByBob
       (fst (updateReview Sample.updateByBob Sample.store))
     = updateReview Sample.updateByBob Sample.store.
Proof.
  split; [vm_compute; reflexivity|].
  apply (updateReview_idempotent Sample.updateByBob Sample.store);
    intros fs Hfs; vm_compute in Hfs; discriminate Hfs.
Defined.

(** What the two hypotheses keep out: the handler hands the body to the
    client as it is, and with the operation [{ increment: 1 }] as rating, on a
    client and a database that know it, each run adds one. *)
Example updateReview_increment_sample :
  List.map Review.rating
    (reviews (fst (updateReview Sample.updateIncrement Sample.store)))
  = [6; 3]
  /\ List.map Review.rating
       (reviews (fst (updateReview Sample.updateIncrement
                        (fst (updateReview Sample.updateIncrement
                                Sample.store)))))
     = [7; 3].
Proof. split; vm_compute; reflexivity. Qed.

(** C4: the outcome of an update or a deletion of a review does not depend on
    who asks.  Two requests that agree on the route parameters and on the body,
    whatever identity, cookies and headers each carries, get the same response
    and leave the same store; and when the parameter names an existing review
    and the fields are a text and a rating (or absent), both succeed, whether
    or not the requester is the review's [userId].  The update answers 200
    with a review of that id as it is after the update and leaves the store
    in which every review of that id, the given one among them, carries the
    supplied text and rating, all else being as it was; the deletion answers
    204 and leaves no review of that id. *)
Theorem review_mutation_ignores_identity {DB : Engine} (st : Store)
    (r : Review.t) (req1 req2 : Request) :
  params req1 = params req2 -> body req1 = body req2 ->
  In r (reviews st) -> fitsInt (Review.id r) = true ->
  parseInt (params req1 !! "reviewId") = Some (Review.id r) ->
  optionalText (prop (body req1) "reviewText") ->
  optionalRating (prop (body req1) "rating") ->
  (exists st' resp,
      updateReview req1 st = (st', Ok resp)
      /\ updateReview req2 st = (st', Ok resp)
      /\ status resp = 200
      /\ (let edit :=
            prisma.review.setData
              (suppliedText (prop (body req1) "reviewText"))
              (suppliedRating (prop (body req1) "rating")) in
          st' = mkStore (users st) (movies st)
                  (List.map (fun x => if Review.id x =? Review.id r
                                      then edit x else x) (reviews st))
                  (nextUserId st) (nextReviewId st)
          /\ In (edit r) (reviews st')
          /\ exists old, In old (reviews st) /\ Review.id old = Review.id r
                         /\ sent resp = Json (VObject (review_obj (edit old))))
      /\ (forall x, In x (reviews st') -> Review.id x = Review.id r ->
            (forall s, prop (body req1) "reviewText" = VString s ->
                       Review.reviewText x = s)
            /\ (forall n, prop (body req1) "rating" = VNumber n ->
                          Review.rating x = n)))
  /\ (exists st' resp,
        deleteReview req1 st = (st', Ok resp)
        /\ deleteReview req2 st = (st', Ok resp)
        /\ status resp = 204
        /\ forall x, In x (reviews st') -> Review.id x <> Review.id r).
Proof.
  intros Hp Hb Hin Hrange Hid Htext Hrating.
  destruct (find_some_of_In (fun x => Review.id x =? Review.id r) (reviews st) r
              Hin (Z.eqb_refl _)) as (old & Hold).
  split.
  - rewrite !updateReview_unfold, <- Hp, <- Hb, Hid.
    rewrite (update_typed _ _ _ st Htext Hrating).
    unfold intArg. rewrite Hrange, Hold.
    eexists. eexists. split; [reflexivity|]. split; [reflexivity|].
    split; [reflexivity|]. split; [cbv zeta; split; [reflexivity|split]|].
    + cbn [reviews]. apply in_map_iff. exists r.
      rewrite Z.eqb_refl. auto.
    + exists old. apply find_some in Hold. destruct Hold as [Ho Hoid].
      apply Z.eqb_eq in Hoid. auto.
    + cbn [reviews]. intros x Hx Hxid. apply in_map_iff in Hx.
      destruct Hx as (y & <- & Hy).
      destruct (Review.id y =? Review.id r) eqn:Hyid.
      * split; [intros s Hs | intros n Hn]; [rewrite Hs | rewrite Hn];
          reflexivity.
      * apply Z.eqb_neq in Hyid. contradiction.
  - rewrite !deleteReview_unfold, <- Hp, Hid.
    unfold prisma.review.delete, intArg. rewrite Hrange, Hold.
    eexists. eexists. split; [reflexivity|]. split; [reflexivity|].
    split; [reflexivity|].
    cbn [reviews]. intros x Hx. apply filter_In in Hx. destruct Hx as [_ Hx].
    apply negb_true_iff, Z.eqb_neq in Hx. exact Hx.
Qed.

(** Bob updates and deletes the review of alice, as alice would: after the
    update the review of alice reads as bob wrote it. *)
Lemma review_mutation_ignores_identity_witness :
  Review.userId Sample.review1 = 1
  /\ user Sample.updateByBob = Some (mkIdentity 2)
  /\ (exists st' resp,
        updateReview Sample.updateByAlice Sample.store = (st', Ok resp)
        /\ updateReview Sample.updateByBob Sample.store = (st', Ok resp)
        /\ status resp = 200
        /\ reviews st' = [Review.mk 100 10 1 "Changed" 1; Sample.review2]
        /\ sent resp = Json (VObject (review_obj (Review.mk 100 10 1 "Changed" 1))))
  /\ (exists st' resp,
        deleteReview Sample.updateByAlice Sample.store = (st', Ok resp)
        /\ deleteReview Sample.updateByBob Sample.store = (st', Ok resp)
        /\ status resp = 204
        /\ forall x, In x (reviews st') -> Review.id x <> Review.id Sample.review1).
Proof.
  split; [reflexivity|]. split; [reflexivity|].
  destruct (review_mutation_ignores_identity Sample.store Sample.review1
              Sample.updateByAlice Sample.updateByBob)
    as [(st' & resp & H1 & H2 & Hs & (Hst & _ & old & Hold & Hoid & Hsent) & _)
        Hdel].
  - reflexivity.
  - reflexivity.
  - left. reflexivity.
  - reflexivity.
  - vm_compute. reflexivity.
  - right. exists "Changed". vm_compute. reflexivity.
  - right. exists 1. split; vm_compute; reflexivity.
  - split; [|exact Hdel].
    exists st', resp. split; [exact H1|]. split; [exact H2|]. split; [exact Hs|].
    split; [rewrite Hst; vm_compute; reflexivity|].
    rewrite Hsent.
    destruct Hold as [<-|[<-|[]]]; [vm_compute; reflexivity|].
    vm_compute in Hoid. discriminate Hoid.
Defined.

(** ** Deletion followed by a read *)

Lemma deleteReview_204_inv {DB : Engine} (req : Request) (st st' : Store) (resp : Response) :
  deleteReview req st = (st', Ok resp) -> status resp = 204 ->
  exists rid r,
    parseInt (params req !! "reviewId") = Some rid
    /\ In r (reviews st) /\ Review.id r = rid
    /\ st' = mkStore (users st) (movies st)
               (List.filter (fun x => negb (Review.id x =? rid)) (reviews st))
               (nextUserId st) (nextReviewId st).
Proof.
  rewrite deleteReview_unfold. unfold prisma.review.delete, intArg.
  destruct (parseInt (params req !! "reviewId")) as [rid|].
  - destruct (fitsInt rid).
    + destruct (List.find _ (reviews st)) as [old|] eqn:Hf.
      * intros [= <- <-] _. apply find_some in Hf. destruct Hf as [Hin Hid].
        apply Z.eqb_eq in Hid. exists rid, old. auto.
      * intros [= <- <-]. discriminate.
    + intros [= <- <-]. discriminate.
  - intros [= <- <-]. discriminate.
Qed.

Lemma getMovieWithReviews_200_inv {DB : Engine} (req : Request) (st st' : Store)
    (resp : Response) :
  getMovieWithReviews req st = (st', Ok resp) -> status resp = 200 ->
  exists m,
    prisma.movie.findUnique (parseInt (params req !! "id")) st = (st, Ok (Some m))
    /\ st' = st
    /\ resp = json 200 (VObject [("movie", VObject (movieWithReviews_obj m))]).
Proof.
  unfold getMovieWithReviews, tryCatch, bind, ret.
  destruct (prisma.movie.findUnique _ st) as [st1 [[m|]|e]] eqn:Hf.
  - intros [= <- <-] _. exists m.
    assert (st1 = st) as ->.
    { unfold prisma.movie.findUnique in Hf.
      destruct (intArg _); now injection Hf. }
    auto.
  - intros [= <- <-]. discriminate.
  - intros [= <- <-]. discriminate.
Qed.

(** C8: after a [deleteReview] that succeeded (204), a [getMovieWithReviews]
    on the store it left, for that movie or any other, answers with a movie
    none of whose nested reviews is the deleted one. *)
Theorem deleteReview_then_getMovieWithReviews {DB : Engine} (reqD reqG : Request)
    (st st' st'' : Store) (respD respG : Response) :
  deleteReview reqD st = (st', Ok respD) -> status respD = 204 ->
  getMovieWithReviews reqG st' = (st'', Ok respG) -> status respG = 200 ->
  exists rid m,
    parseInt (params reqD !! "reviewId") = Some rid
    /\ (exists r, In r (reviews st) /\ Review.id r = rid)
    /\ prisma.movie.findUnique (parseInt (params reqG !! "id")) st'
       = (st', Ok (Some m))
    /\ respG = json 200 (VObject [("movie", VObject (movieWithReviews_obj m))])
    /\ forall ru, In ru (snd m) -> Review.id (fst ru) <> rid.
Proof.
  intros HD H204 HG H200.
  destruct (deleteReview_204_inv _ _ _ _ HD H204) as (rid & r & Hid & Hin & Hr & ->).
  destruct (getMovieWithReviews_200_inv _ _ _ _ HG H200) as (m & Hm & -> & ->).
  exists rid, m. split; [exact Hid|]. split; [eauto|]. split; [exact Hm|].
  split; [reflexivity|].
  unfold prisma.movie.findUnique in Hm.
  destruct (intArg (parseInt (params reqG !! "id"))) as [i|e]; [|discriminate].
  cbn [movies reviews users] in Hm.
  destruct (List.find _ (movies st)) as [mv|]; [|discriminate].
  injection Hm as <-. cbn [snd].
  intros ru Hru. apply in_map_iff in Hru. destruct Hru as (x & <- & Hx).
  cbn [fst]. apply filter_In in Hx. destruct Hx as [Hx _].
  apply filter_In in Hx. destruct Hx as [_ Hx].
  apply negb_true_iff, Z.eqb_neq in Hx. exact Hx.
Qed.

(** Bob deletes review 100; the reviews of movie 10 are then review 101
    alone. *)
Lemma deleteReview_then_getMovieWithReviews_witness :
  exists st' respD respG m,
    deleteReview Sample.updateByBob Sample.store = (st', Ok respD)
    /\ getMovieWithReviews Sample.getMatrix st' = (st', Ok respG)
    /\ respG = json 200 (VObject [("movie", VObject (movieWithReviews_obj m))])
    /\ List.map (fun ru => Review.id (fst ru)) (snd m) = [101]
    /\ forall ru, In ru (snd m) -> Review.id (fst ru) <> 100.
Proof.
  destruct (deleteReview Sample.updateByBob Sample.store)
    as [st' [respD|e]] eqn:HD; [|vm_compute in HD; discriminate HD].
  destruct (getMovieWithReviews Sample.getMatrix st')
    as [st'' [respG|e]] eqn:HG;
    [|vm_compute in HD; injection HD as <- <-; vm_compute in HG; discriminate HG].
  assert (H204 : status respD = 204)
    by (vm_compute in HD; injection HD as <- <-; reflexivity).
  assert (H200 : status respG = 200)
    by (vm_compute in HD; injection HD as <- <-; vm_compute in HG;
        injection HG as <- <-; reflexivity).
  destruct (deleteReview_then_getMovieWithReviews _ _ _ _ _ _ _ HD H204 HG H200)
    as (rid & m & Hrid & _ & Hm & Hresp & Hall).
  vm_compute in Hrid. injection Hrid as <-.
  exists st', respD, respG, m. split; [reflexivity|].
  assert (st'' = st') as ->.
  { destruct (getMovieWithReviews_200_inv _ _ _ _ HG H200) as (_ & _ & ? & _).
    assumption. }
  split; [exact HG|]. split; [exact Hresp|]. split; [|exact Hall].
  vm_compute in HD. injection HD as <- <-.
  vm_compute in Hm. injection Hm as <-. reflexivity.
Defined.

(** ** The current user *)

(** C10: for a request whose identity is the id of a stored user, the response
    of [getcurrentUser] is 200 with that record as Prisma returns it: every
    column is there, the password hash and the refresh token included, and the
    store is not touched. *)
Theorem getcurrentUser_returns_record (req : Request) (st : Store)
    (ident : Identity) (u : User.t) :
  user req = Some ident ->
  List.find (fun x => User.id x =? _id ident) (users st) = Some u ->
  exists resp,
    getcurrentUser req st = (st, Ok resp)
    /\ status resp = 200
    /\ responseData resp = VObject (user_obj u)
    /\ get "password" (responseData resp) = VString (User.password u)
    /\ get "refreshToken" (responseData resp)
       = match User.refreshToken u with
         | Some t => VString t
         | None => VNull
         end.
Proof.
  intros Hu Hf.
  unfold getcurrentUser, tryCatch, bind, lift, ret, prisma.user.findUnique.
  rewrite Hu, Hf. eexists. split; [reflexivity|].
  unfold json, responseData, user_obj.
  cbn [status sent fmap option_fmap option_map nullable].
  destruct (User.refreshToken u); repeat split; reflexivity.
Qed.

(** Bob, logged in before, reads his record: hash and refresh token are in
    the body. *)
Lemma getcurrentUser_returns_record_witness :
  exists resp,
    getcurrentUser Sample.whoAmI Sample.store = (Sample.store, Ok resp)
    /\ status resp = 200
    /\ get "password" (responseData resp) = VString "$2b$10$pw-bob$s2"
    /\ get "refreshToken" (responseData resp) = VString "rt:2".
Proof.
  destruct (getcurrentUser_returns_record Sample.whoAmI Sample.store
              (mkIdentity 2) Sample.bob eq_refl eq_refl)
    as (resp & Hrun & Hs & _ & Hp & Hr).
  exists resp. auto.
Defined.

(** ** Creating a review *)

Lemma review_create_ok_inv {DB : Engine} (movieId : option Z) (reviewText rating : value)
    (userId : Z) (st st' : Store) (rv : Review.t) :
  prisma.review.create movieId reviewText rating userId st = (st', Ok rv) ->
  movieId = Some (Review.movieId rv)
  /\ reviewText = VString (Review.reviewText rv)
  /\ rating = VNumber (Review.rating rv)
  /\ Review.userId rv = userId
  /\ Review.id rv = nextReviewId st
  /\ st' = mkStore (users st) (movies st) (reviews st ++ [rv])%list
             (nextUserId st) (nextReviewId st + 1).
Proof.
  unfold prisma.review.create, intArg.
  destruct movieId as [m|]; [|discriminate].
  destruct (fitsInt m); [|discriminate].
  destruct reviewText; try discriminate.
  destruct rating; try discriminate. simpl.
  destruct (fitsInt n); [|discriminate].
  destruct (fitsInt userId); [|discriminate].
  destruct (prisma.review.hasMovie st m && prisma.review.hasUser st userId);
    [|discriminate].
  intros [= <- <-]. repeat split; reflexivity.
Qed.

Lemma review_create_throw_inv {DB : Engine} (movieId : option Z) (reviewText rating : value)
    (userId : Z) (st st' : Store) (e : Exn) :
  prisma.review.create movieId reviewText rating userId st = (st', Throw e) ->
  st' = st.
Proof.
  unfold prisma.review.create.
  destruct (intArg movieId); [|now intros [= <-]].
  destruct (stringField reviewText); [|now intros [= <-]].
  destruct (intField rating); [|now intros [= <-]].
  destruct (intArg (Some userId)); [|now intros [= <-]].
  destruct (_ && _); [discriminate | now intros [= <-]].
Qed.

Section CreateReview.

Context {DB : Engine}.

Variable verifyToken : option (string -> Result Identity).

Lemma createReview_accepts (req : Request) (st st1 : Store)
    (verify : string -> Result Identity) (t : string) (ident : Identity)
    (rv : Review.t) :
  verifyToken = Some verify -> bearer req = Some t -> t <> "" ->
  verify t = Ok ident ->
  prisma.review.create (parseInt (params req !! "id"))
    (prop (body req) "reviewText") (prop (body req) "rating") (_id ident) st
  = (st1, Ok rv) ->
  createReview verifyToken req st
  = (st1, Ok (json 201 (VObject [("review", VObject (review_obj rv))]))).
Proof.
  intros Hvt Hb Hne Hv Hc. unfold createReview.
  rewrite Hb. cbn [noToken]. apply String.eqb_neq in Hne. rewrite Hne.
  change (default "" (Some t)) with t.
  unfold tryCatch, bind, lift, ret, callVerifyToken.
  rewrite Hvt, Hv, Hc. reflexivity.
Qed.

(** C1 (amended): [createReview] takes its token from the second word of the
    [Authorization] header, not from the [accessToken] cookie or from the
    identity the gate attached: two requests with the same headers, parameters
    and body get the same outcome.  It always responds, with 401, 201 or 500:
    401 exactly when that token is absent or empty; 201 only when the token
    verifies, and then exactly one review has been inserted, the one in the
    body, whose [userId] is the [_id] decoded from the header token and whose
    [movieId] is [parseInt] of the [id] parameter, with the supplied text and
    rating; in the other cases the store is unchanged.  It adds no check of
    its own to the insertion: whenever the header token verifies and the store
    accepts the record, the answer is 201. *)
Theorem createReview_spec (req : Request) (st : Store) :
  exists st' resp,
    createReview verifyToken req st = (st', Ok resp)
    /\ (status resp = 401 \/ status resp = 201 \/ status resp = 500)
    /\ (status resp = 401 <-> noToken (bearer req) = true)
    /\ (status resp = 201 ->
        exists verify t ident rv,
          verifyToken = Some verify /\ bearer req = Some t
          /\ verify t = Ok ident
          /\ Review.userId rv = _id ident
          /\ parseInt (params req !! "id") = Some (Review.movieId rv)
          /\ prop (body req) "reviewText" = VString (Review.reviewText rv)
          /\ prop (body req) "rating" = VNumber (Review.rating rv)
          /\ resp = json 201 (VObject [("review", VObject (review_obj rv))])
          /\ st' = mkStore (users st) (movies st) (reviews st ++ [rv])%list
                     (nextUserId st) (nextReviewId st + 1))
    /\ (status resp <> 201 -> st' = st)
    /\ (forall verify t ident st1 rv,
          verifyToken = Some verify -> bearer req = Some t -> t <> "" ->
          verify t = Ok ident ->
          prisma.review.create (parseInt (params req !! "id"))
            (prop (body req) "reviewText") (prop (body req) "rating")
            (_id ident) st = (st1, Ok rv) ->
          st' = st1
          /\ resp = json 201 (VObject [("review", VObject (review_obj rv))]))
    /\ (forall req2, headers req2 = headers req -> params req2 = params req ->
                     body req2 = body req ->
                     createReview verifyToken req2 st = (st', Ok resp)).
Proof.
  assert (Hindep : forall req2, headers req2 = headers req ->
            params req2 = params req -> body req2 = body req ->
            createReview verifyToken req2 st = createReview verifyToken req st).
  { intros req2 Hh Hp Hb. unfold createReview, bearer. now rewrite Hh, Hp, Hb. }
  enough (Hcore : exists st' resp,
    createReview verifyToken req st = (st', Ok resp)
    /\ (status resp = 401 \/ status resp = 201 \/ status resp = 500)
    /\ (status resp = 401 <-> noToken (bearer req) = true)
    /\ (status resp = 201 ->
        exists verify t ident rv,
          verifyToken = Some verify /\ bearer req = Some t
          /\ verify t = Ok ident
          /\ Review.userId rv = _id ident
          /\ parseInt (params req !! "id") = Some (Review.movieId rv)
          /\ prop (body req) "reviewText" = VString (Review.reviewText rv)
          /\ prop (body req) "rating" = VNumber (Review.rating rv)
          /\ resp = json 201 (VObject [("review", VObject (review_obj rv))])
          /\ st' = mkStore (users st) (movies st) (reviews st ++ [rv])%list
                     (nextUserId st) (nextReviewId st + 1))
    /\ (status resp <> 201 -> st' = st)).
  { destruct Hcore as (st' & resp & Hrun & H1 & H2 & H3 & H4).
    exists st', resp. repeat (split; [assumption|]). split.
    - intros verify t ident st1 rv Hvt Hb Hne Hv Hc.
      rewrite (createReview_accepts req st st1 verify t ident rv Hvt Hb Hne Hv Hc)
        in Hrun.
      injection Hrun as <- <-. split; reflexivity.
    - intros req2 Hh Hp Hb. rewrite (Hindep req2 Hh Hp Hb). exact Hrun. }
  clear Hindep. unfold createReview.
  destruct (noToken (bearer req)) eqn:Hno.
  - eexists. eexists. split; [reflexivity|].
    split; [left; reflexivity|]. split; [split; reflexivity|].
    split; [discriminate | reflexivity].
  - destruct (proj1 (noToken_false _) Hno) as (t & Ht & Hne).
    rewrite Ht. change (default "" (Some t)) with t.
    unfold tryCatch, bind, lift, ret, callVerifyToken.
    destruct verifyToken as [verify|].
    + destruct (verify t) as [ident|e] eqn:Hv.
      * destruct (prisma.review.create (parseInt (params req !! "id"))
                    (prop (body req) "reviewText") (prop (body req) "rating")
                    (_id ident) st) as [st1 [rv|e]] eqn:Hc.
        -- apply review_create_ok_inv in Hc.
           destruct Hc as (Hm & Htx & Hrt & Hu & _ & ->).
           eexists. eexists. split; [reflexivity|].
           split; [right; left; reflexivity|].
           split; [split; discriminate|].
           split; [|intros H; now destruct H].
           intros _. exists verify, t, ident, rv. repeat split; auto.
        -- apply review_create_throw_inv in Hc. subst st1.
           eexists. eexists. split; [reflexivity|].
           split; [right; right; reflexivity|].
           split; [split; discriminate|].
           split; [discriminate | reflexivity].
      * eexists. eexists. split; [reflexivity|].
        split; [right; right; reflexivity|].
        split; [split; discriminate|].
        split; [discriminate | reflexivity].
    + eexists. eexists. split; [reflexivity|].
      split; [right; right; reflexivity|].
      split; [split; discriminate|].
      split; [discriminate | reflexivity].
Qed.

End CreateReview.

(** Alice, with the header: the review is inserted under her id. *)
Lemma createReview_spec_witness :
  exists st' resp,
    createReview (Some Sample.verifyToken) Sample.reviewByHeader Sample.store
    = (st', Ok resp)
    /\ status resp = 201
    /\ List.map (fun r => (Review.id r, Review.movieId r, Review.userId r))
                (reviews st')
       = [(100, 10, 1); (101, 10, 2); (102, 10, 1)].
Proof.
  destruct (createReview_spec (Some Sample.verifyToken) Sample.reviewByHeader
              Sample.store) as (st' & resp & Hrun & _).
  exists st', resp. split; [exact Hrun|].
  vm_compute in Hrun. injection Hrun as <- <-. split; reflexivity.
Defined.

(** C1, as stated, fails: alice passed the gate with her cookie and her
    identity is on the request, but there is no [Authorization] header;
    [createReview] answers 401 and inserts nothing, although the identifiers
    [jwt] and [verifyToken] are bound to a working verification here. *)
Lemma createReview_cookie_only :
  user Sample.reviewByCookie = Some (mkIdentity 1)
  /\ authenticateToken (Some Sample.jwt_verify) Sample.reviewByCookie
     = Next Sample.reviewByCookie
  /\ (forall DB : Engine,
      createReview (Some Sample.verifyToken) Sample.reviewByCookie Sample.store
      = (Sample.store,
         Ok (json 401 (VObject [("error", VString "No token provided")]))))
  /\ (forall DB : Engine,
      ~ createReview_as_stated (Some Sample.verifyToken) Sample.reviewByCookie
          Sample.store).
Proof.
  split; [reflexivity|]. split; [vm_compute; reflexivity|].
  split; [intros DB; vm_compute; reflexivity|].
  intros DB H. destruct (H (mkIdentity 1) eq_refl)
    as [(st' & rv & Hrun & _) | (st' & resp & Hrun & Hs)].
  - vm_compute in Hrun. discriminate Hrun.
  - vm_compute in Hrun. injection Hrun as <- <-. discriminate Hs.
Qed.

(** In the file as it stands no import and no declaration binds
    [verifyToken]: the call throws inside the [try], and [createReview] never
    inserts a review. *)
Lemma createReview_unbound {DB : Engine} (req : Request) (st : Store) :
  exists resp,
    createReview None req st = (st, Ok resp)
    /\ (status resp = 401 \/ status resp = 500).
Proof.
  unfold createReview. destruct (noToken (bearer req)).
  - eexists. split; [reflexivity | left; reflexivity].
  - eexists. split; [reflexivity | right; reflexivity].
Qed.

(** ** The review routes as the router mounts them *)

Lemma authenticateToken_params (jwt : option (string -> option Identity))
    (req req' : Request) :
  authenticateToken jwt req = Next req' ->
  params req' = params req /\ body req' = body req /\ headers req' = headers req.
Proof.
  unfold authenticateToken. destruct (noToken _); [discriminate|].
  destruct jwt as [verify|]; [|discriminate].
  destruct (verify _); [|discriminate]. intros [= <-]. auto.
Qed.

Lemma authenticateToken_rejects (jwt : option (string -> option Identity))
    (req : Request) (r : Response) :
  authenticateToken jwt req = Rejected r ->
  status r = 401 \/ status r = 403.
Proof.
  unfold authenticateToken. destruct (noToken _).
  - intros [= <-]. left. reflexivity.
  - destruct jwt as [verify|]; [|discriminate].
    destruct (verify _); [discriminate|]. intros [= <-]. right. reflexivity.
Qed.

Lemma routeMatches_cases (route path : string) :
  routeMatches route path = true ->
  toLowerCase path = route \/ toLowerCase path = route +:+ "/".
Proof.
  unfold routeMatches. intros H. apply orb_true_iff in H.
  destruct H as [H|H]; apply String.eqb_eq in H; auto.
Qed.

Section Routes.

Context {DB : Engine}.

Variable bcrypt_hash : string -> Z -> string -> string.
Variable verifyPassword : value -> string -> Result bool.
Variable generateAccessToken : Z -> Result string.
Variable generateRefreshToken : Z -> Result string.
Variable NODE_ENV : option string.
Variable verifyToken : option (string -> Result Identity).
Variable jwt : option (string -> option Identity).

(** The handlers behind the paths of the review routes, however the path is
    cased and with or without a closing slash. *)
Lemma postRoutes_review (salt : string) (h : HttpRequest) :
  let routes := postRoutes bcrypt_hash verifyPassword generateAccessToken
                           generateRefreshToken NODE_ENV verifyToken jwt salt h in
  (routeMatches "/deletereview" (http_path h) = true ->
   routes = Some (gated jwt deleteReview (incoming h)))
  /\ (routeMatches "/updatereview" (http_path h) = true ->
      routes = Some (gated jwt updateReview (incoming h)))
  /\ (routeMatches "/getmoviewithreviews" (http_path h) = true ->
      routes = Some (gated jwt getMovieWithReviews (incoming h)))
  /\ (routeMatches "/createreview" (http_path h) = true ->
      routes = Some (gated jwt (createReview verifyToken) (incoming h))).
Proof.
  cbv zeta. repeat split; intros Hr; apply routeMatches_cases in Hr;
    unfold postRoutes, routeMatches; cbv zeta;
    destruct Hr as [-> | ->]; reflexivity.
Qed.

(** What a gated handler does, by what the gate does. *)
Lemma gated_cases (handler : Request -> M Response) (req : Request) (st : Store) :
  (exists r, authenticateToken jwt req = Rejected r
             /\ gated jwt handler req st = (st, Ok r)
             /\ (status r = 401 \/ status r = 403))
  \/ (exists req', authenticateToken jwt req = Next req'
                   /\ gated jwt handler req st = handler req' st
                   /\ params req' = params req /\ body req' = body req
                   /\ headers req' = headers req)
  \/ (jwt = None
      /\ (exists t, cookies req !! "accessToken" = Some t /\ t <> "")
      /\ gated jwt handler req st = (st, Throw (ReferenceError "jwt"))).
Proof.
  unfold gated. destruct (authenticateToken jwt req) as [r|req'|e] eqn:Hg.
  - left. exists r. split; [reflexivity|]. split; [reflexivity|].
    apply (authenticateToken_rejects _ _ _ Hg).
  - right. left. exists req'. split; [reflexivity|]. split; [reflexivity|].
    apply (authenticateToken_params _ _ _ Hg).
  - right. right. apply authenticateToken_Threw in Hg.
    destruct Hg as (-> & -> & Ht). auto.
Qed.

(** The four routes that address a review or a movie read its id from
    [req.params], which no route pattern fills.  Whatever the request and
    whatever [jwt] denotes, none of them succeeds and the store is as before:
    they end in a rejection by the gate, in the 401 of [createReview], or in
    500; or, where [jwt] is unbound and the cookie holds a token, in the
    [ReferenceError] of the gate. *)
Lemma review_routes_without_parameters (salt : string) (h : HttpRequest)
    (st : Store) (route : string) :
  http_method h = POST ->
  In route ["/deletereview"; "/updatereview"; "/getmoviewithreviews";
            "/createreview"] ->
  routeMatches route (http_path h) = true ->
  exists handler,
    router bcrypt_hash verifyPassword generateAccessToken generateRefreshToken
           NODE_ENV verifyToken jwt salt h = Some handler
    /\ ((exists resp,
           handler st = (st, Ok resp)
           /\ (status resp = 401 \/ status resp = 403 \/ status resp = 500))
        \/ (jwt = None
            /\ (exists t, http_cookies h !! "accessToken" = Some t /\ t <> "")
            /\ handler st = (st, Throw (ReferenceError "jwt")))).
Proof.
  intros Hm Hp Hroute. unfold router. rewrite Hm.
  assert (Hgate : forall (handler : Request -> M Response),
            (forall req, params req = ∅ ->
               exists resp, handler req st = (st, Ok resp)
                            /\ (status resp = 401 \/ status resp = 500)) ->
            (exists resp, gated jwt handler (incoming h) st = (st, Ok resp)
                          /\ (status resp = 401 \/ status resp = 403
                              \/ status resp = 500))
            \/ (jwt = None
                /\ (exists t, http_cookies h !! "accessToken" = Some t /\ t <> "")
                /\ gated jwt handler (incoming h) st
                   = (st, Throw (ReferenceError "jwt")))).
  { intros handler Hh.
    destruct (gated_cases handler (incoming h) st)
      as [(r & _ & Hrun & Hs) | [(req' & _ & Hrun & Hpar & _) | Hthrow]].
    - left. exists r. split; [exact Hrun|]. destruct Hs; auto.
    - left. destruct (Hh req' Hpar) as (resp & Hrun' & Hs).
      exists resp. split; [rewrite Hrun; exact Hrun'|]. destruct Hs; auto.
    - right. exact Hthrow. }
  destruct (postRoutes_review salt h) as (Hd & Hu & Hg & Hc).
  destruct Hp as [<-|[<-|[<-|[<-|[]]]]];
    [ rewrite (Hd Hroute) | rewrite (Hu Hroute) | rewrite (Hg Hroute)
    | rewrite (Hc Hroute) ];
    eexists; (split; [reflexivity|]); apply Hgate; intros req Hreq.
  - rewrite deleteReview_unfold, Hreq. eexists.
    split; [reflexivity | right; reflexivity].
  - rewrite updateReview_unfold, Hreq.
    unfold prisma.review.update, intArg.
    replace (parseInt (∅ !! "reviewId")) with (@None Z) by reflexivity.
    eexists. split; [reflexivity | right; reflexivity].
  - unfold getMovieWithReviews. rewrite Hreq. eexists.
    split; [reflexivity | right; reflexivity].
  - unfold createReview. rewrite Hreq. destruct (noToken (bearer req)).
    + eexists. split; [reflexivity | left; reflexivity].
    + unfold tryCatch, bind, lift, ret.
      destruct (callVerifyToken verifyToken _) as [ident|e].
      * eexists. split; [reflexivity | right; reflexivity].
      * eexists. split; [reflexivity | right; reflexivity].
Qed.

End Routes.

(** ** A deleted review stays deleted *)

Section Preservation.

Context {DB : Engine}.

Variable P : Store -> Prop.

Lemma preserves_ret {A} (a : A) : preserves P (ret a).
Proof. intros st H. exact H. Qed.

Lemma preserves_throw {A} (e : Exn) : preserves P (@throw A e).
Proof. intros st H. exact H. Qed.

Lemma preserves_lift {A} (r : Result A) : preserves P (lift r).
Proof. intros st H. exact H. Qed.

Lemma preserves_bind {A B} (m : M A) (k : A -> M B) :
  preserves P m -> (forall a, preserves P (k a)) -> preserves P (bind m k).
Proof.
  intros Hm Hk st H. unfold bind. specialize (Hm st H).
  destruct (m st) as [st' [a|e]]; cbn [fst] in *; [apply Hk|]; exact Hm.
Qed.

Lemma preserves_tryCatch {A} (m : M A) (h : Exn -> M A) :
  preserves P m -> (forall e, preserves P (h e)) -> preserves P (tryCatch m h).
Proof.
  intros Hm Hh st H. unfold tryCatch. specialize (Hm st H).
  destruct (m st) as [st' [a|e]]; cbn [fst] in *; [|apply Hh]; exact Hm.
Qed.

End Preservation.

(** What a call that leaves the review table and its counter alone
    preserves. *)
Lemma preserves_same_reviews {A} (rid : Z) (m : M A) :
  (forall st, reviews (fst (m st)) = reviews st
              /\ nextReviewId (fst (m st)) = nextReviewId st) ->
  preserves (gone rid) m.
Proof.
  intros Hm st [H1 H2]. destruct (Hm st) as [Hr Hn].
  unfold gone. rewrite Hr, Hn. auto.
Qed.

Section Gone.

Context {DB : Engine}.

Variable rid : Z.

Lemma gone_user_findUnique (id : Z) : preserves (gone rid) (prisma.user.findUnique id).
Proof. intros st H. exact H. Qed.

Lemma gone_user_findFirst (username email : value) :
  preserves (gone rid) (prisma.user.findFirst username email).
Proof.
  apply preserves_same_reviews. intros st. rewrite findFirst_unfold.
  destruct (prisma.user.orFilter username email); auto.
Qed.

Lemma gone_user_create (fn em un pw : string) :
  preserves (gone rid) (prisma.user.create fn em un pw).
Proof.
  apply preserves_same_reviews. intros st. unfold prisma.user.create.
  destruct (existsb _ _); auto.
Qed.

Lemma gone_user_update (id : Z) (t : string) :
  preserves (gone rid) (prisma.user.update id t).
Proof.
  apply preserves_same_reviews. intros st. unfold prisma.user.update.
  destruct (List.find _ _); auto.
Qed.

Lemma gone_movie_findUnique (id : option Z) :
  preserves (gone rid) (prisma.movie.findUnique id).
Proof.
  apply preserves_same_reviews. intros st. unfold prisma.movie.findUnique.
  destruct (intArg id); auto.
Qed.

Lemma gone_movie_findMany : preserves (gone rid) prisma.movie.findMany.
Proof. intros st H. exact H. Qed.

(** A new review takes the counter as its id, which is above [rid]. *)
Lemma gone_review_create (movieId : option Z) (reviewText rating : value)
    (userId : Z) :
  preserves (gone rid) (prisma.review.create movieId reviewText rating userId).
Proof.
  intros st [Hlt Hno]. unfold prisma.review.create.
  destruct (intArg movieId); [|split; assumption].
  destruct (stringField reviewText); [|split; assumption].
  destruct (intField rating); [|split; assumption].
  destruct (intArg (Some userId)); [|split; assumption].
  destruct (_ && _); [|split; assumption].
  cbn [fst]. split; cbn [nextReviewId reviews]; [lia|].
  intros r Hr. apply in_app_or in Hr. destruct Hr as [Hr|[<-|[]]].
  - apply Hno, Hr.
  - cbn [Review.id]. lia.
Qed.

Lemma gone_review_update (id : option Z) (reviewText rating : value) :
  preserves (gone rid) (prisma.review.update id reviewText rating).
Proof.
  intros st [Hlt Hno]. unfold prisma.review.update.
  destruct (intArg id) as [i|]; [|split; assumption].
  destruct (dataString reviewText) as [dt|]; [|split; assumption].
  destruct (dataInt rating) as [dr|]; [|split; assumption].
  destruct (List.find _ _) as [old|]; [|split; assumption].
  destruct (applyData dt _) as [t|]; [|split; assumption].
  destruct (applyData dr _) as [g|]; [|split; assumption].
  cbn [fst]. split; cbn [nextReviewId reviews]; [exact Hlt|].
  intros r Hr. apply in_map_iff in Hr. destruct Hr as (x & <- & Hx).
  specialize (Hno x Hx). destruct (Review.id x =? i); [|exact Hno].
  cbn [prisma.review.setData Review.id]. exact Hno.
Qed.

Lemma gone_review_delete (id : option Z) :
  preserves (gone rid) (prisma.review.delete id).
Proof.
  intros st [Hlt Hno]. unfold prisma.review.delete.
  destruct (intArg id) as [i|]; [|split; assumption].
  destruct (List.find _ _); [|split; assumption].
  cbn [fst]. split; cbn [nextReviewId reviews]; [exact Hlt|].
  intros r Hr. apply filter_In in Hr. apply Hno, Hr.
Qed.

End Gone.

Create HintDb gone.

#[local] Hint Resolve preserves_ret preserves_throw preserves_lift
  gone_user_findUnique gone_user_findFirst gone_user_create gone_user_update
  gone_movie_findUnique gone_movie_findMany gone_review_create
  gone_review_update gone_review_delete : gone.

(** Walks down a handler: a bind, a try, a case distinction, a leaf. *)
Ltac preserved :=
  repeat first
    [ progress cbv zeta
    | solve [auto with gone]
    | apply preserves_bind; [|intros ?]
    | apply preserves_tryCatch; [|intros ?]
    | match goal with
      | |- preserves _ (match ?x with _ => _ end) => destruct x
      | |- preserves _ (if ?b then _ else _) => destruct b
      end ].

Section CallsPreserve.

Context {DB : Engine}.

Variable bcrypt_hash : string -> Z -> string -> string.
Variable verifyPassword : value -> string -> Result bool.
Variable generateAccessToken : Z -> Result string.
Variable generateRefreshToken : Z -> Result string.
Variable NODE_ENV : option string.
Variable verifyToken : option (string -> Result Identity).

Lemma perform_preserves_gone (rid : Z) (c : Call) :
  preserves (gone rid)
    (perform bcrypt_hash verifyPassword generateAccessToken generateRefreshToken
             NODE_ENV verifyToken c).
Proof.
  destruct c; cbn [perform];
    unfold registerUser, loginUser, generateAccessAndRefreshTokens,
      getMovieWithReviews, createReview, updateReview, deleteReview,
      getcurrentUser, getMovieWithDetails;
    preserved.
Qed.

Lemma after_preserves_gone (rid : Z) (calls : list Call) (st : Store) :
  gone rid st ->
  gone rid (after bcrypt_hash verifyPassword generateAccessToken
                  generateRefreshToken NODE_ENV verifyToken calls st).
Proof.
  revert st. induction calls as [|c calls IH]; intros st H; cbn [after].
  - exact H.
  - apply IH, perform_preserves_gone, H.
Qed.

(** After a [deleteReview] that succeeded, on a store whose review ids are
    below the counter, no later [getMovieWithReviews] shows the deleted
    review, whatever calls of the handlers came in between: its id is not
    handed out again. *)
Theorem deleted_review_never_returns (reqD reqG : Request) (calls : list Call)
    (st st' st'' : Store) (respD respG : Response) :
  reviewIdsBelowCounter st ->
  deleteReview reqD st = (st', Ok respD) -> status respD = 204 ->
  getMovieWithReviews reqG
    (after bcrypt_hash verifyPassword generateAccessToken generateRefreshToken
           NODE_ENV verifyToken calls st') = (st'', Ok respG) ->
  status respG = 200 ->
  exists rid m,
    parseInt (params reqD !! "reviewId") = Some rid
    /\ respG = json 200 (VObject [("movie", VObject (movieWithReviews_obj m))])
    /\ forall ru, In ru (snd m) -> Review.id (fst ru) <> rid.
Proof.
  intros Hwf HD H204 HG H200.
  destruct (deleteReview_204_inv _ _ _ _ HD H204) as (rid & r & Hid & Hin & Hr & ->).
  assert (Hgone : gone rid
            (mkStore (users st) (movies st)
               (List.filter (fun x => negb (Review.id x =? rid)) (reviews st))
               (nextUserId st) (nextReviewId st))).
  { split; cbn [nextReviewId reviews].
    - rewrite <- Hr. apply Hwf, Hin.
    - intros x Hx. apply filter_In in Hx. destruct Hx as [_ Hx].
      apply negb_true_iff, Z.eqb_neq in Hx. exact Hx. }
  apply (after_preserves_gone rid calls) in Hgone.
  destruct (getMovieWithReviews_200_inv _ _ _ _ HG H200) as (m & Hm & -> & ->).
  exists rid, m. split; [exact Hid|]. split; [reflexivity|].
  destruct Hgone as [_ Hno].
  unfold prisma.movie.findUnique in Hm.
  destruct (intArg (parseInt (params reqG !! "id"))) as [i|e]; [|discriminate].
  destruct (List.find _ (movies _)) as [mv|]; [|discriminate].
  injection Hm as <-. cbn [snd].
  intros ru Hru. apply in_map_iff in Hru. destruct Hru as (x & <- & Hx).
  cbn [fst]. apply filter_In in Hx. apply Hno, Hx.
Qed.

End CallsPreserve.

(** Bob deletes review 100, alice then writes a new review and the old update
    of review 100 is tried again: movie 10 shows reviews 101 and 102. *)
Lemma deleted_review_never_returns_witness :
  exists st' respD st'' respG m,
    deleteReview Sample.updateByBob Sample.store = (st', Ok respD)
    /\ getMovieWithReviews Sample.getMatrix
         (after Sample.bcrypt_hash Sample.verifyPassword
                Sample.generateAccessToken Sample.generateRefreshToken None
                (Some Sample.verifyToken)
                [CallCreateReview Sample.reviewByHeader;
                 CallUpdateReview Sample.updateByAlice] st')
       = (st'', Ok respG)
    /\ respG = json 200 (VObject [("movie", VObject (movieWithReviews_obj m))])
    /\ (forall ru, In ru (snd m) -> Review.id (fst ru) <> 100).
Proof.
  destruct (deleteReview Sample.updateByBob Sample.store)
    as [st' [respD|e]] eqn:HD; [|vm_compute in HD; discriminate HD].
  destruct (getMovieWithReviews Sample.getMatrix
              (after Sample.bcrypt_hash Sample.verifyPassword
                     Sample.generateAccessToken Sample.generateRefreshToken None
                     (Some Sample.verifyToken)
                     [CallCreateReview Sample.reviewByHeader;
                      CallUpdateReview Sample.updateByAlice] st'))
    as [st'' [respG|e]] eqn:HG;
    [|vm_compute in HD; injection HD as <- <-; vm_compute in HG; discriminate HG].
  assert (Hwf : reviewIdsBelowCounter Sample.store)
    by (intros r [<-|[<-|[]]]; reflexivity).
  assert (H204 : status respD = 204)
    by (vm_compute in HD; injection HD as <- <-; reflexivity).
  assert (H200 : status respG = 200)
    by (vm_compute in HD; injection HD as <- <-; vm_compute in HG;
        injection HG as <- <-; reflexivity).
  destruct (deleted_review_never_returns _ _ _ _ _ _ _ _ _ _ _ _ _ _
              Hwf HD H204 HG H200) as (rid & m & Hrid & Hresp & Hall).
  vm_compute in Hrid. injection Hrid as <-.
  exists st', respD, st'', respG, m. auto.
Defined.

(** * Further properties of the handlers *)

(** ** Registration: validation, success, repetition *)

Lemma someBlank_of_strings (l : list string) :
  someBlank (VString <$> l) = Ok (existsb (fun s => String.eqb (trim s) "") l).
Proof.
  induction l as [|s l IH]; [reflexivity|].
  cbn [fmap list_fmap someBlank callTrim existsb].
  destruct (String.eqb (trim s) ""); [reflexivity | exact IH].
Qed.

Lemma someBlank_not_string (pre : list string) (v : value) (rest : list value) :
  Forall (fun s => trim s <> "") pre -> notString v ->
  someBlank ((VString <$> pre) ++ v :: rest)%list = Throw TypeError.
Proof.
  intros Hpre Hv. induction Hpre as [|s pre Hs _ IH].
  - cbn. destruct v; try reflexivity. now destruct (Hv s).
  - cbn [fmap list_fmap app someBlank callTrim].
    apply String.eqb_neq in Hs. rewrite Hs. exact IH.
Qed.

Section RegistrationMore.

Context {DB : Engine}.

Variable bcrypt_hash : string -> Z -> string -> string.

(** A blank field stops the registration before anything else: when the four
    fields are strings and one of them is empty or all white space, the
    handler throws [ApiError 400] and the store is untouched, also when the
    username or email is already taken. *)
Theorem registerUser_blank_field (salt : string) (req : Request) (st : Store)
    (fn em un pw : string) :
  prop (body req) "fullName" = VString fn ->
  prop (body req) "email" = VString em ->
  prop (body req) "username" = VString un ->
  prop (body req) "password" = VString pw ->
  trim fn = "" \/ trim em = "" \/ trim un = "" \/ trim pw = "" ->
  registerUser bcrypt_hash salt req st
  = (st, Throw (ApiError 400 "All fields are required")).
Proof.
  intros Hfn Hem Hun Hpw Hblank.
  unfold registerUser. rewrite Hfn, Hem, Hun, Hpw.
  change [VString fn; VString em; VString un; VString pw]
    with (VString <$> [fn; em; un; pw]).
  rewrite someBlank_of_strings.
  replace (existsb _ [fn; em; un; pw]) with true; [reflexivity|].
  symmetry. cbn [existsb].
  destruct Hblank as [H|[H|[H|H]]]; rewrite H; cbn;
    rewrite ?orb_true_r; reflexivity.
Qed.

(** A field that is missing, or is not a string, makes [field.trim()] throw a
    [TypeError] instead of the 400, provided the fields before it are
    non-blank strings; the store is untouched. *)
Theorem registerUser_missing_field (salt : string) (req : Request) (st : Store)
    (pre : list string) (v : value) (rest : list value) :
  [ prop (body req) "fullName"; prop (body req) "email";
    prop (body req) "username"; prop (body req) "password" ]
  = ((VString <$> pre) ++ v :: rest)%list ->
  Forall (fun s => trim s <> "") pre -> notString v ->
  registerUser bcrypt_hash salt req st = (st, Throw TypeError).
Proof.
  intros Hfields Hpre Hv. unfold registerUser.
  rewrite Hfields, (someBlank_not_string pre v rest Hpre Hv). reflexivity.
Qed.

Lemma registerUser_409_of_find (salt : string) (req : Request) (st : Store)
    (fn em un pw : string) (u : User.t) :
  prop (body req) "fullName" = VString fn ->
  prop (body req) "email" = VString em ->
  prop (body req) "username" = VString un ->
  prop (body req) "password" = VString pw ->
  trim fn <> "" -> trim em <> "" -> trim un <> "" -> trim pw <> "" ->
  In u (users st) ->
  identifies (VString (toLowerCase un)) (VString em) u = true ->
  registerUser bcrypt_hash salt req st
  = (st, Throw (ApiError 409 "User with email or username already exists")).
Proof.
  intros Hfn Hem Hun Hpw Tfn Tem Tun Tpw Hin Hu.
  unfold registerUser. rewrite Hfn, Hem, Hun, Hpw.
  unfold bind at 1, lift at 1.
  rewrite someBlank_strings by (repeat constructor; eauto).
  simpl. unfold bind at 1, lift at 1. unfold bind at 1.
  rewrite findFirst_identifies by (right; eauto).
  destruct (firstRow_filter_some_of_In _ _ u Hin Hu) as (v & ->). reflexivity.
Qed.

(** A registration whose four fields are non-blank strings, and whose
    lower-cased username and email no stored user has, answers 201.  The store
    gains exactly one user, numbered by the counter, with the username in
    lower case, the bcrypt hash in place of the password and no refresh token;
    the body shows that record without its [password] property. *)
Theorem registerUser_success (salt : string) (req : Request) (st : Store)
    (fn em un pw : string) :
  prop (body req) "fullName" = VString fn ->
  prop (body req) "email" = VString em ->
  prop (body req) "username" = VString un ->
  prop (body req) "password" = VString pw ->
  trim fn <> "" -> trim em <> "" -> trim un <> "" -> trim pw <> "" ->
  (forall u, In u (users st) ->
             User.username u <> toLowerCase un /\ User.email u <> em) ->
  exists resp,
    registerUser bcrypt_hash salt req st
    = (mkStore (users st ++ [registered bcrypt_hash st salt fn em un pw])%list
               (movies st) (reviews st) (nextUserId st + 1) (nextReviewId st),
       Ok resp)
    /\ status resp = 201
    /\ responseData resp
       = VObject [ ("id", VNumber (nextUserId st));
                   ("fullName", VString fn);
                   ("email", VString em);
                   ("username", VString (toLowerCase un));
                   ("refreshToken", VNull) ]
    /\ get "password" (responseData resp) = VUndefined.
Proof.
  intros Hfn Hem Hun Hpw Tfn Tem Tun Tpw Hfree.
  assert (Hnone : List.find (identifies (VString (toLowerCase un)) (VString em))
                            (users st) = None).
  { apply find_none_all. intros u Hu. destruct (Hfree u Hu) as [H1 H2].
    unfold identifies. apply String.eqb_neq in H1, H2. now rewrite H1, H2. }
  unfold registerUser. rewrite Hfn, Hem, Hun, Hpw.
  unfold bind at 1, lift at 1.
  rewrite someBlank_strings by (repeat constructor; eauto).
  simpl. unfold bind at 1, lift at 1. unfold bind at 1.
  rewrite findFirst_identifies by (right; eauto).
  rewrite (proj2 (firstRow_filter_find_None _ _) Hnone).
  unfold bind, lift, ret, prisma.user.create. simpl.
  rewrite (create_unique_of_find _ _ _ Hnone).
  eexists. split; [reflexivity|]. repeat split.
Qed.

(** After a registration that succeeded, a second one with the same username
    in any case, or with the same email, fails with [ApiError 409] and leaves
    the store as the first one left it. *)
Theorem registerUser_twice (salt salt2 : string) (req req2 : Request)
    (st st1 : Store) (resp : Response) (un em fn2 em2 un2 pw2 : string) :
  registerUser bcrypt_hash salt req st = (st1, Ok resp) ->
  prop (body req) "username" = VString un ->
  prop (body req) "email" = VString em ->
  prop (body req2) "fullName" = VString fn2 ->
  prop (body req2) "email" = VString em2 ->
  prop (body req2) "username" = VString un2 ->
  prop (body req2) "password" = VString pw2 ->
  trim fn2 <> "" -> trim em2 <> "" -> trim un2 <> "" -> trim pw2 <> "" ->
  caseVariant un2 un \/ em2 = em ->
  registerUser bcrypt_hash salt2 req2 st1
  = (st1, Throw (ApiError 409 "User with email or username already exists")).
Proof.
  intros Hreg Hun Hem Hfn2 Hem2 Hun2 Hpw2 T1 T2 T3 T4 Hsame.
  apply registerUser_ok_inv in Hreg.
  destruct Hreg as (fn & em0 & un0 & pw & _ & Bem & Bun & _ & _ & _ & -> & _).
  rewrite Bun in Hun. injection Hun as ->.
  rewrite Bem in Hem. injection Hem as ->.
  apply (registerUser_409_of_find salt2 req2 _ fn2 em2 un2 pw2
           (registered bcrypt_hash st salt fn em un pw)); auto.
  - cbn [users]. apply in_or_app. right. left. reflexivity.
  - unfold identifies, registered. cbn [User.username User.email].
    destruct Hsame as [Hc | ->].
    + unfold caseVariant in Hc. rewrite Hc, String.eqb_refl. reflexivity.
    + rewrite String.eqb_refl. apply orb_true_r.
Qed.

End RegistrationMore.

Lemma registerUser_blank_field_witness :
  In Sample.alice (users Sample.store)
  /\ registerUser Sample.bcrypt_hash "s3" Sample.registerBlankPassword Sample.store
     = (Sample.store, Throw (ApiError 400 "All fields are required")).
Proof.
  split; [left; reflexivity|].
  apply (registerUser_blank_field Sample.bcrypt_hash "s3"
           Sample.registerBlankPassword Sample.store
           "Carol" "carol@x.com" "alice" "   "); try reflexivity.
  right. right. right. reflexivity.
Defined.

Lemma registerUser_missing_field_witness :
  registerUser Sample.bcrypt_hash "s3" Sample.registerNoPassword Sample.store
  = (Sample.store, Throw TypeError).
Proof.
  apply (registerUser_missing_field Sample.bcrypt_hash "s3"
           Sample.registerNoPassword Sample.store
           ["Carol"; "carol@x.com"; "carol"] VUndefined []).
  - reflexivity.
  - repeat constructor; discriminate.
  - intros s. discriminate.
Defined.

Lemma registerUser_success_witness :
  exists st1 resp,
    registerUser Sample.bcrypt_hash "s3" Sample.registerCarol Sample.store
    = (st1, Ok resp)
    /\ List.map User.username (users st1) = ["alice"; "bob"; "carol"]
    /\ get "username" (responseData resp) = VString "carol"
    /\ get "password" (responseData resp) = VUndefined.
Proof.
  destruct (registerUser_success Sample.bcrypt_hash "s3" Sample.registerCarol
              Sample.store "Carol" "carol@x.com" "Carol" "pw-carol")
    as (resp & Hrun & _ & Hdata & Hpw); try reflexivity; try discriminate.
  - intros u [<-|[<-|[]]]; split; discriminate.
  - eexists. exists resp. split; [exact Hrun|]. split; [reflexivity|].
    split; [rewrite Hdata; reflexivity | exact Hpw].
Defined.

Lemma registerUser_twice_witness :
  exists st1 resp,
    registerUser Sample.bcrypt_hash "s3" Sample.registerCarol Sample.store
    = (st1, Ok resp)
    /\ registerUser Sample.bcrypt_hash "s4" Sample.registerCarolAgain st1
       = (st1, Throw (ApiError 409 "User with email or username already exists")).
Proof.
  destruct (registerUser Sample.bcrypt_hash "s3" Sample.registerCarol Sample.store)
    as [st1 [resp|e]] eqn:Hreg; [|vm_compute in Hreg; discriminate Hreg].
  exists st1, resp. split; [reflexivity|].
  apply (registerUser_twice Sample.bcrypt_hash "s3" "s4" Sample.registerCarol
           Sample.registerCarolAgain Sample.store st1 resp
           "Carol" "carol@x.com" "C." "other@x.com" "CAROL" "pw2" Hreg);
    try reflexivity; try discriminate.
  left. reflexivity.
Defined.

(** ** Token issuance and the failures of a login *)

Lemma findFirst_fst {DB : Engine} (username email : value) (st : Store) :
  fst (prisma.user.findFirst username email st) = st.
Proof.
  rewrite findFirst_unfold.
  destruct (prisma.user.orFilter username email); reflexivity.
Qed.

Section Tokens.

Context {DB : Engine}.

Variable verifyPassword : value -> string -> Result bool.
Variable generateAccessToken : Z -> Result string.
Variable generateRefreshToken : Z -> Result string.
Variable NODE_ENV : option string.

Lemma generateAccessAndRefreshTokens_throw_inv (userId : Z) (st st' : Store)
    (e : Exn) :
  generateAccessAndRefreshTokens generateAccessToken generateRefreshToken userId st
  = (st', Throw e) ->
  st' = st
  /\ e = ApiError 500
           "Something went wrong while generating refresh and access tokens".
Proof.
  unfold generateAccessAndRefreshTokens, tryCatch, bind, lift, ret, throw,
    prisma.user.findUnique, prisma.user.update.
  destruct (List.find (fun u => User.id u =? userId) (users st)) as [u|] eqn:Hf.
  - destruct (generateAccessToken userId) as [at_|e1]; [|now intros [= <- <-]].
    destruct (generateRefreshToken userId) as [rt|e2]; [|now intros [= <- <-]].
    cbv beta. rewrite Hf. discriminate.
  - now intros [= <- <-].
Qed.

(** [generateAccessAndRefreshTokens] fails in one way only: whatever went
    wrong inside its [try] (no such user, for which it throws 404 itself, or a
    token that cannot be signed) leaves as [ApiError 500], and the store is
    then untouched.  In particular an unknown user id gives 500, not 404. *)
Theorem generateAccessAndRefreshTokens_failure (userId : Z) (st : Store) :
  (forall st' e,
      generateAccessAndRefreshTokens generateAccessToken generateRefreshToken
        userId st = (st', Throw e) ->
      st' = st
      /\ e = ApiError 500
               "Something went wrong while generating refresh and access tokens")
  /\ (List.find (fun u => User.id u =? userId) (users st) = None ->
      generateAccessAndRefreshTokens generateAccessToken generateRefreshToken
        userId st
      = (st, Throw (ApiError 500
           "Something went wrong while generating refresh and access tokens"))).
Proof.
  split.
  - intros st' e. apply generateAccessAndRefreshTokens_throw_inv.
  - intros Hf.
    unfold generateAccessAndRefreshTokens, tryCatch, bind, throw,
      prisma.user.findUnique.
    rewrite Hf. reflexivity.
Qed.

(** A login that fails, for whatever reason, has written nothing: the store is
    the one before the call.  So the refresh token of a user changes only
    with a login that succeeds. *)
Theorem loginUser_failure_leaves_store (req : Request) (st st' : Store)
    (e : Exn) :
  loginUser verifyPassword generateAccessToken generateRefreshToken NODE_ENV
    req st = (st', Throw e) ->
  st' = st.
Proof.
  unfold loginUser.
  destruct (negb (truthy (prop (body req) "username"))
            && negb (truthy (prop (body req) "email"))); [now intros [= <-]|].
  unfold bind at 1.
  destruct (prisma.user.findFirst _ _ st) as [st1 [[u|]|e1]] eqn:Hfind.
  - apply findFirst_ok_inv in Hfind. destruct Hfind as [-> _].
    unfold bind at 1, lift at 1.
    destruct (verifyPassword _ _) as [[|]|e2]; cbn [negb].
    + unfold bind at 1.
      destruct (generateAccessAndRefreshTokens _ _ _ st) as [st2 [tokens|e3]] eqn:Ht.
      * discriminate.
      * apply generateAccessAndRefreshTokens_throw_inv in Ht.
        destruct Ht as [-> _]. now intros [= <-].
    + now intros [= <-].
    + now intros [= <-].
  - apply findFirst_ok_inv in Hfind. destruct Hfind as [-> _]. now intros [= <-].
  - pose proof (findFirst_fst (prop (body req) "username")
                  (prop (body req) "email") st) as Hst.
    rewrite Hfind in Hst. cbn [fst] in Hst. subst st1. now intros [= <-].
Qed.

End Tokens.

(** No user has id 99; and bob with a token service that cannot sign refresh
    tokens. *)
Lemma generateAccessAndRefreshTokens_failure_witness :
  generateAccessAndRefreshTokens Sample.generateAccessToken
    Sample.generateRefreshToken 99 Sample.store
  = (Sample.store,
     Throw (ApiError 500
       "Something went wrong while generating refresh and access tokens"))
  /\ generateAccessAndRefreshTokens Sample.generateAccessToken
       Sample.noRefreshToken 2 Sample.store
     = (Sample.store,
        Throw (ApiError 500
          "Something went wrong while generating refresh and access tokens")).
Proof.
  split.
  - apply (proj2 (generateAccessAndRefreshTokens_failure
                    Sample.generateAccessToken Sample.generateRefreshToken
                    99 Sample.store)).
    reflexivity.
  - destruct (generateAccessAndRefreshTokens Sample.generateAccessToken
                Sample.noRefreshToken 2 Sample.store) as [st' [t|e]] eqn:Hrun;
      [vm_compute in Hrun; discriminate Hrun|].
    destruct (proj1 (generateAccessAndRefreshTokens_failure
                       Sample.generateAccessToken Sample.noRefreshToken
                       2 Sample.store) st' e Hrun) as [-> ->].
    reflexivity.
Defined.

(** Bob logs in with the right password while refresh tokens cannot be
    signed: the login fails and his stored refresh token is the old one. *)
Lemma loginUser_failure_leaves_store_witness :
  exists e,
    loginUser Sample.verifyPassword Sample.generateAccessToken
      Sample.noRefreshToken None Sample.loginBob Sample.store
    = (Sample.store, Throw e).
Proof.
  destruct (loginUser Sample.verifyPassword Sample.generateAccessToken
              Sample.noRefreshToken None Sample.loginBob Sample.store)
    as [st' [r|e]] eqn:Hrun; [vm_compute in Hrun; discriminate Hrun|].
  exists e.
  rewrite (loginUser_failure_leaves_store Sample.verifyPassword
             Sample.generateAccessToken Sample.noRefreshToken None
             Sample.loginBob Sample.store st' e Hrun).
  reflexivity.
Defined.

(** ** What a call can do to the store *)

Section Effects.

Context {DB : Engine}.

Variable bcrypt_hash : string -> Z -> string -> string.
Variable verifyPassword : value -> string -> Result bool.
Variable generateAccessToken : Z -> Result string.
Variable generateRefreshToken : Z -> Result string.
Variable NODE_ENV : option string.
Variable verifyToken : option (string -> Result Identity).

Lemma registerUser_effect (salt : string) (req : Request) (st : Store) :
  Effect st (fst (registerUser bcrypt_hash salt req st)).
Proof.
  unfold registerUser. unfold bind at 1, lift at 1.
  destruct (someBlank _) as [[|]|e] eqn:Hblank; try apply Unchanged.
  apply someBlank_false in Hblank.
  inversion Hblank as [|? ? (fn & Hfn & _) H1]; subst.
  inversion H1 as [|? ? (em & Hem & _) H2]; subst.
  inversion H2 as [|? ? (un & Hun & _) H3]; subst.
  inversion H3 as [|? ? (pw & Hpw & _) _]; subst.
  rewrite Hfn, Hem, Hun, Hpw. simpl.
  unfold bind at 1, lift at 1. unfold bind at 1.
  rewrite findFirst_identifies by (right; eauto).
  destruct (firstRow _) as [u|] eqn:Hfind; [apply Unchanged|].
  apply firstRow_filter_find_None in Hfind.
  unfold bind, lift, ret, prisma.user.create. simpl.
  rewrite (create_unique_of_find _ _ _ Hfind). cbn [fst].
  apply Registered. intros u Hu.
  rewrite find_none_all in Hfind. specialize (Hfind u Hu).
  unfold identifies in Hfind. apply orb_false_elim in Hfind.
  destruct Hfind as [Ha Hb]. apply String.eqb_neq in Ha, Hb. auto.
Qed.

Lemma loginUser_effect (req : Request) (st : Store) :
  Effect st (fst (loginUser verifyPassword generateAccessToken
                            generateRefreshToken NODE_ENV req st)).
Proof.
  unfold loginUser.
  destruct (negb (truthy (prop (body req) "username"))
            && negb (truthy (prop (body req) "email"))); [apply Unchanged|].
  unfold bind at 1.
  pose proof (findFirst_fst (prop (body req) "username")
                (prop (body req) "email") st) as Hst.
  destruct (prisma.user.findFirst _ _ st) as [st1 [[u|]|e1]];
    cbn [fst] in Hst; subst st1; try apply Unchanged.
  unfold bind at 1, lift at 1.
  destruct (verifyPassword _ _) as [[|]|e2]; cbn [negb]; try apply Unchanged.
  unfold bind at 1.
  destruct (generateAccessAndRefreshTokens _ _ _ st) as [st2 [tokens|e3]] eqn:Ht.
  - apply generateAccessAndRefreshTokens_ok in Ht.
    destruct Ht as (_ & _ & ->). apply LoggedIn.
  - apply generateAccessAndRefreshTokens_throw_inv in Ht.
    destruct Ht as [-> _]. apply Unchanged.
Qed.

Lemma createReview_effect (req : Request) (st : Store) :
  Effect st (fst (createReview verifyToken req st)).
Proof.
  unfold createReview. destruct (noToken (bearer req)); [apply Unchanged|].
  unfold tryCatch, bind, lift, ret.
  destruct (callVerifyToken verifyToken _) as [ident|e]; [|apply Unchanged].
  destruct (prisma.review.create _ _ _ (_id ident) st) as [st1 [rv|e]] eqn:Hc.
  - apply review_create_ok_inv in Hc.
    destruct Hc as (_ & _ & _ & _ & Hid & ->). now apply Reviewed.
  - apply review_create_throw_inv in Hc. subst st1. apply Unchanged.
Qed.

Lemma updateReview_effect (req : Request) (st : Store) :
  Effect st (fst (updateReview req st)).
Proof.
  rewrite updateReview_unfold. unfold prisma.review.update.
  destruct (intArg _) as [i|]; [|apply Unchanged].
  destruct (dataString _) as [dt|]; [|apply Unchanged].
  destruct (dataInt _) as [dr|]; [|apply Unchanged].
  destruct (List.find _ _) as [old|]; [|apply Unchanged].
  destruct (applyData dt _) as [t|]; [|apply Unchanged].
  destruct (applyData dr _) as [r|]; [apply Edited | apply Unchanged].
Qed.

Lemma deleteReview_effect (req : Request) (st : Store) :
  Effect st (fst (deleteReview req st)).
Proof.
  rewrite deleteReview_unfold. unfold prisma.review.delete.
  destruct (intArg _) as [i|]; [|apply Unchanged].
  destruct (List.find _ _); [apply Deleted | apply Unchanged].
Qed.

Lemma getMovieWithReviews_fst (req : Request) (st : Store) :
  fst (getMovieWithReviews req st) = st.
Proof.
  unfold getMovieWithReviews, tryCatch, bind, ret, prisma.movie.findUnique.
  destruct (intArg _); [|reflexivity].
  destruct (List.find _ _); reflexivity.
Qed.

Lemma getcurrentUser_fst (req : Request) (st : Store) :
  fst (getcurrentUser req st) = st.
Proof.
  unfold getcurrentUser, tryCatch, bind, lift, ret, prisma.user.findUnique.
  destruct (user req); reflexivity.
Qed.

Lemma perform_effect (c : Call) (st : Store) :
  Effect st (fst (perform bcrypt_hash verifyPassword generateAccessToken
                          generateRefreshToken NODE_ENV verifyToken c st)).
Proof.
  destruct c; cbn [perform].
  - apply registerUser_effect.
  - apply loginUser_effect.
  - rewrite getMovieWithReviews_fst. apply Unchanged.
  - apply createReview_effect.
  - apply updateReview_effect.
  - apply deleteReview_effect.
  - rewrite getcurrentUser_fst. apply Unchanged.
  - apply Unchanged.
Qed.

(** An invariant of the six effects is an invariant of every sequence of
    calls. *)
Lemma after_invariant (P : Store -> Prop) :
  (forall st st', P st -> Effect st st' -> P st') ->
  forall calls st,
    P st ->
    P (after bcrypt_hash verifyPassword generateAccessToken generateRefreshToken
             NODE_ENV verifyToken calls st).
Proof.
  intros Hstep calls. induction calls as [|c calls IH]; intros st H; cbn [after].
  - exact H.
  - apply IH. apply (Hstep st); [exact H | apply perform_effect].
Qed.

End Effects.

(** ** Invariants of every sequence of calls *)

Lemma lowerChar_idem (a : ascii) : lowerChar (lowerChar a) = lowerChar a.
Proof.
  destruct a as [[] [] [] [] [] [] [] []]; vm_compute; reflexivity.
Qed.

Lemma toLowerCase_idem (s : string) : toLowerCase (toLowerCase s) = toLowerCase s.
Proof.
  induction s as [|a s IH]; [reflexivity|].
  cbn [toLowerCase]. now rewrite lowerChar_idem, IH.
Qed.

Lemma NoDup_snoc {A} (l : list A) (a : A) :
  List.NoDup l -> ~ In a l -> List.NoDup (l ++ [a])%list.
Proof.
  induction 1 as [|x l Hx Hl IH]; intros Ha; cbn.
  - constructor; [intros [] | constructor].
  - constructor.
    + intros Hin. apply in_app_or in Hin. destruct Hin as [Hin|[<-|[]]].
      * now apply Hx.
      * apply Ha. now left.
    + apply IH. intros Hin. apply Ha. now right.
Qed.

Lemma NoDup_map_filter {A B} (f : A -> B) (p : A -> bool) (l : list A) :
  List.NoDup (List.map f l) -> List.NoDup (List.map f (List.filter p l)).
Proof.
  induction l as [|a l IH]; cbn; [auto|].
  intros H. inversion H as [|? ? Hn Hl]; subst.
  destruct (p a); cbn; [|auto].
  constructor; [|auto].
  intros Hin. apply Hn. apply in_map_iff in Hin.
  destruct Hin as (x & Hfx & Hx). apply filter_In in Hx.
  apply in_map_iff. exists x. split; [exact Hfx | apply Hx].
Qed.

Lemma map_setRefreshToken {B} (f : User.t -> B) (uid : Z) (t : string)
    (l : list User.t) :
  (forall x, f (prisma.user.setRefreshToken t x) = f x) ->
  List.map f (List.map (fun x => if User.id x =? uid
                                 then prisma.user.setRefreshToken t x else x) l)
  = List.map f l.
Proof.
  intros Hf. rewrite List.map_map. apply List.map_ext. intros x.
  destruct (User.id x =? uid); [apply Hf | reflexivity].
Qed.

Lemma map_setData {B} (f : Review.t -> B) (i : Z) (t : option string)
    (r : option Z) (l : list Review.t) :
  (forall x, f (prisma.review.setData t r x) = f x) ->
  List.map f (List.map (fun x => if Review.id x =? i
                                 then prisma.review.setData t r x else x) l)
  = List.map f l.
Proof.
  intros Hf. rewrite List.map_map. apply List.map_ext. intros x.
  destruct (Review.id x =? i); [apply Hf | reflexivity].
Qed.

Section Invariants.

Context {DB : Engine}.

Variable bcrypt_hash : string -> Z -> string -> string.
Variable verifyPassword : value -> string -> Result bool.
Variable generateAccessToken : Z -> Result string.
Variable generateRefreshToken : Z -> Result string.
Variable NODE_ENV : option string.
Variable verifyToken : option (string -> Result Identity).

(** Usernames stay in lower case: if every stored username is in lower case,
    it is so after any sequence of calls, registrations included. *)
Theorem usernames_stay_lower_case (calls : list Call) (st : Store) :
  lowerCaseUsernames st ->
  lowerCaseUsernames
      (after bcrypt_hash verifyPassword generateAccessToken
             generateRefreshToken NODE_ENV verifyToken calls st).
Proof.
  apply after_invariant. clear st. intros st st' H E.
  destruct E as [| fn em un hash _ | uid rt | rv _ | i t r | i];
    try exact H; intros u Hu; cbn [users] in Hu.
  - apply in_app_or in Hu. destruct Hu as [Hu|[<-|[]]]; [apply H, Hu|].
    cbn [User.username]. apply toLowerCase_idem.
  - apply in_map_iff in Hu. destruct Hu as (x & <- & Hx).
    destruct (User.id x =? uid); cbn; apply H, Hx.
Qed.

(** No two users share a username or an email: the lookup that precedes the
    insertion of a registration keeps it so over any sequence of calls. *)
Theorem users_stay_unique (calls : list Call) (st : Store) :
  uniqueUsers st ->
  uniqueUsers
      (after bcrypt_hash verifyPassword generateAccessToken
             generateRefreshToken NODE_ENV verifyToken calls st).
Proof.
  apply after_invariant. clear st. intros st st' [Hn He] E.
  destruct E as [| fn em un hash Hfree | uid rt | rv _ | i t r | i];
    try (split; assumption); unfold uniqueUsers; cbn [users].
  - rewrite !List.map_app. cbn [List.map User.username User.email].
    split; apply NoDup_snoc; auto; intros Hin; apply in_map_iff in Hin;
      destruct Hin as (u & Hu & Hin); destruct (Hfree u Hin); congruence.
  - rewrite !map_setRefreshToken by reflexivity. split; assumption.
Qed.

(** Accounts are never removed, reordered or altered: after any sequence of
    calls the users of before are still there, in place, with the same id,
    name, email, username and password hash; what comes after them is new.
    Only refresh tokens change. *)
Theorem accounts_persist (calls : list Call) (st : Store) :
  exists new,
    List.map account (users
      (after bcrypt_hash verifyPassword generateAccessToken
             generateRefreshToken NODE_ENV verifyToken calls st))
    = (List.map account (users st) ++ new)%list.
Proof.
  apply (after_invariant bcrypt_hash verifyPassword generateAccessToken
           generateRefreshToken NODE_ENV verifyToken
           (fun st' => exists new,
              List.map account (users st')
              = (List.map account (users st) ++ new)%list)).
  - intros st1 st2 (new & Hnew) E.
    destruct E as [| fn em un hash _ | uid rt | rv _ | i t r | i];
      try (exists new; exact Hnew); cbn [users].
    + eexists. rewrite List.map_app, Hnew, <- List.app_assoc. reflexivity.
    + exists new. rewrite map_setRefreshToken by reflexivity. exact Hnew.
  - exists []. now rewrite List.app_nil_r.
Qed.

(** Movies are reference data: no sequence of calls changes the movie
    table. *)
Theorem movies_never_change (calls : list Call) (st : Store) :
  movies
      (after bcrypt_hash verifyPassword generateAccessToken
             generateRefreshToken NODE_ENV verifyToken calls st) = movies st.
Proof.
  apply (after_invariant bcrypt_hash verifyPassword generateAccessToken
           generateRefreshToken NODE_ENV verifyToken
           (fun st' => movies st' = movies st)); [|reflexivity].
  intros st1 st2 H E. destruct E; exact H.
Qed.

(** A review keeps its movie and its author: a review found after any
    sequence of calls under an id that had been handed out before them was
    there before, for the same movie and by the same user.  Updates change
    text and rating only. *)
Theorem reviews_keep_movie_and_author (calls : list Call) (st : Store)
    (r' : Review.t) :
  In r' (reviews
      (after bcrypt_hash verifyPassword generateAccessToken
             generateRefreshToken NODE_ENV verifyToken calls st)) ->
  Review.id r' < nextReviewId st ->
  exists r, In r (reviews st)
            /\ Review.id r = Review.id r'
            /\ Review.movieId r = Review.movieId r'
            /\ Review.userId r = Review.userId r'.
Proof.
  intros Hin Hlt.
  assert (H : nextReviewId st <= nextReviewId
      (after bcrypt_hash verifyPassword generateAccessToken
             generateRefreshToken NODE_ENV verifyToken calls st)
              /\ forall x, In x (reviews
      (after bcrypt_hash verifyPassword generateAccessToken
             generateRefreshToken NODE_ENV verifyToken calls st)) ->
                   (exists r, In r (reviews st)
                              /\ Review.id r = Review.id x
                              /\ Review.movieId r = Review.movieId x
                              /\ Review.userId r = Review.userId x)
                   \/ nextReviewId st <= Review.id x).
  { apply (after_invariant bcrypt_hash verifyPassword generateAccessToken
             generateRefreshToken NODE_ENV verifyToken
             (fun st' =>
                nextReviewId st <= nextReviewId st'
                /\ forall x, In x (reviews st') ->
                     (exists r, In r (reviews st)
                                /\ Review.id r = Review.id x
                                /\ Review.movieId r = Review.movieId x
                                /\ Review.userId r = Review.userId x)
                     \/ nextReviewId st <= Review.id x)).
    - intros st1 st2 [Hle Hall] E.
      destruct E as [| fn em un hash _ | uid rt | rv Hid | i t r | i];
        try (split; assumption); cbn [reviews nextReviewId].
      + split; [lia|]. intros x Hx. apply in_app_or in Hx.
        destruct Hx as [Hx|[<-|[]]]; [auto | right; lia].
      + split; [exact Hle|]. intros x Hx. apply in_map_iff in Hx.
        destruct Hx as (y & <- & Hy). specialize (Hall y Hy).
        destruct (Review.id y =? i); exact Hall.
      + split; [exact Hle|]. intros x Hx. apply filter_In in Hx.
        apply Hall, Hx.
    - split; [lia|]. intros x Hx. left. exists x. auto. }
  destruct H as [_ H]. destruct (H r' Hin) as [Hr|Hge]; [exact Hr | lia].
Qed.

(** Review ids are handed out once: if the review ids are distinct and below
    the counter, they are so after any sequence of calls. *)
Theorem review_ids_stay_fresh (calls : list Call) (st : Store) :
  reviewIdsFresh st ->
  reviewIdsFresh
      (after bcrypt_hash verifyPassword generateAccessToken
             generateRefreshToken NODE_ENV verifyToken calls st).
Proof.
  apply after_invariant. clear st. intros st st' [Hlt Hnd] E.
  destruct E as [| fn em un hash _ | uid rt | rv Hid | i t r | i];
    try (split; assumption);
    unfold reviewIdsFresh, reviewIdsBelowCounter; cbn [reviews nextReviewId].
  - split.
    + intros x Hx. apply in_app_or in Hx. destruct Hx as [Hx|[<-|[]]].
      * specialize (Hlt x Hx). lia.
      * lia.
    + rewrite List.map_app. apply NoDup_snoc; [exact Hnd|].
      intros Hin. apply in_map_iff in Hin. destruct Hin as (x & Hx & Hin).
      specialize (Hlt x Hin). lia.
  - split.
    + intros x Hx. apply in_map_iff in Hx. destruct Hx as (y & <- & Hy).
      specialize (Hlt y Hy). destruct (Review.id y =? i); exact Hlt.
    + rewrite map_setData by reflexivity. exact Hnd.
  - split.
    + intros x Hx. apply filter_In in Hx. apply Hlt, Hx.
    + apply NoDup_map_filter, Hnd.
Qed.

End Invariants.

Lemma sample_usernames_lower_case : lowerCaseUsernames Sample.store.
Proof. intros u [<-|[<-|[]]]; reflexivity. Qed.

Lemma sample_users_unique : uniqueUsers Sample.store.
Proof.
  split; (constructor; [intros [H|[]]; discriminate H|]);
    (constructor; [intros []|]); constructor.
Qed.

Lemma sample_review_ids_fresh : reviewIdsFresh Sample.store.
Proof.
  split.
  - intros r [<-|[<-|[]]]; reflexivity.
  - constructor; [intros [H|[]]; discriminate H|].
    constructor; [intros []|]. constructor.
Qed.

Lemma usernames_stay_lower_case_witness :
  List.map User.username
    (users (after Sample.bcrypt_hash Sample.verifyPassword
                  Sample.generateAccessToken Sample.generateRefreshToken None
                  (Some Sample.verifyToken) Sample.day Sample.store))
  = ["alice"; "bob"; "carol"]
  /\ lowerCaseUsernames
       (after Sample.bcrypt_hash Sample.verifyPassword
              Sample.generateAccessToken Sample.generateRefreshToken None
              (Some Sample.verifyToken) Sample.day Sample.store).
Proof.
  split; [vm_compute; reflexivity|].
  apply usernames_stay_lower_case. exact sample_usernames_lower_case.
Defined.

Lemma users_stay_unique_witness :
  uniqueUsers
    (after Sample.bcrypt_hash Sample.verifyPassword
           Sample.generateAccessToken Sample.generateRefreshToken None
           (Some Sample.verifyToken) Sample.day Sample.store).
Proof. apply users_stay_unique. exact sample_users_unique. Defined.

Lemma reviews_keep_movie_and_author_witness :
  List.map Review.id
    (reviews (after Sample.bcrypt_hash Sample.verifyPassword
                    Sample.generateAccessToken Sample.generateRefreshToken None
                    (Some Sample.verifyToken) Sample.day Sample.store))
  = [101; 102]
  /\ exists r, In r (reviews Sample.store)
               /\ Review.id r = 101
               /\ Review.movieId r = 10
               /\ Review.userId r = 2.
Proof.
  split; [vm_compute; reflexivity|].
  apply (reviews_keep_movie_and_author Sample.bcrypt_hash Sample.verifyPassword
           Sample.generateAccessToken Sample.generateRefreshToken None
           (Some Sample.verifyToken) Sample.day Sample.store Sample.review2).
  - vm_compute. left. reflexivity.
  - reflexivity.
Defined.

Lemma review_ids_stay_fresh_witness :
  nextReviewId
    (after Sample.bcrypt_hash Sample.verifyPassword
           Sample.generateAccessToken Sample.generateRefreshToken None
           (Some Sample.verifyToken) Sample.day Sample.store) = 103
  /\ reviewIdsFresh
       (after Sample.bcrypt_hash Sample.verifyPassword
              Sample.generateAccessToken Sample.generateRefreshToken None
              (Some Sample.verifyToken) Sample.day Sample.store).
Proof.
  split; [vm_compute; reflexivity|].
  apply review_ids_stay_fresh. exact sample_review_ids_fresh.
Defined.

(** ** Reading a movie with its reviews *)


Lemma to_json_nestedReview (us : list User.t) (r : Review.t) :
  to_json (nestedReview us r) = nestedReview us r.
Proof.
  unfold nestedReview.
  destruct (List.find _ us) as [u|]; [|reflexivity].
  unfold user_obj. destruct (User.refreshToken u); reflexivity.
Qed.

Lemma nestedReview_defined (us : list User.t) (r : Review.t) :
  nestedReview us r <> VUndefined.
Proof. discriminate. Qed.

Lemma to_json_object (fs : list (string * value)) :
  to_json (VObject fs) = VObject (jsonFields fs).
Proof. reflexivity. Qed.

Lemma to_json_cons (k : string) (x : value) (fs : list (string * value)) :
  to_json (VObject ((k, x) :: fs))
  = VObject (match x with
             | VUndefined => jsonFields fs
             | _ => (k, to_json x) :: jsonFields fs
             end).
Proof. destruct x; reflexivity. Qed.

Lemma jsonFields_app (l1 l2 : list (string * value)) :
  jsonFields (l1 ++ l2) = (jsonFields l1 ++ jsonFields l2)%list.
Proof.
  induction l1 as [|[k x] l1 IH]; [reflexivity|].
  unfold jsonFields in *. cbn [app]. rewrite !to_json_cons.
  unfold jsonFields. destruct x; cbn [app]; now rewrite ?IH.
Qed.

Lemma to_json_array_nested (us : list User.t) (rs : list Review.t) :
  to_json (VArray (List.map (nestedReview us) rs))
  = VArray (List.map (nestedReview us) rs).
Proof.
  cbn [to_json]. f_equal. rewrite List.map_map. apply List.map_ext.
  intros r. rewrite to_json_nestedReview. reflexivity.
Qed.

Lemma movieWithReviews_nested (mv : Movie.t) (us : list User.t)
    (rs : list Review.t) :
  movieWithReviews_obj
    (mv, List.map (fun r => (r, List.find (fun u => User.id u =? Review.userId r) us))
                  rs)
  = (movie_obj mv ++ [("reviews", VArray (List.map (nestedReview us) rs))])%list.
Proof.
  unfold movieWithReviews_obj. cbn [fst snd]. do 4 f_equal.
  rewrite List.map_map. apply List.map_ext. intros r. cbn [fst snd].
  unfold nestedReview. destruct (List.find _ us); reflexivity.
Qed.

Lemma getMovieWithReviews_found {DB : Engine} (req : Request) (st : Store) (i : Z)
    (mv : Movie.t) :
  parseInt (params req !! "id") = Some i -> fitsInt i = true ->
  List.find (fun m => Movie.id m =? i) (movies st) = Some mv ->
  getMovieWithReviews req st
  = (st, Ok (mkResponse 200 []
       (Json (VObject
          [("movie",
            VObject (jsonFields (movie_obj mv) ++
                     [("reviews",
                       VArray (List.map (nestedReview (users st))
                                 (List.filter (fun r => Review.movieId r =? i)
                                              (reviews st))))])%list)])))).
Proof.
  intros Hid Hr Hf.
  unfold getMovieWithReviews, tryCatch, bind, ret, prisma.movie.findUnique, intArg.
  rewrite Hid, Hr, Hf. rewrite movieWithReviews_nested.
  unfold json. do 3 f_equal.
  rewrite to_json_cons, to_json_object, jsonFields_app.
  do 4 f_equal. unfold jsonFields. rewrite to_json_cons, to_json_array_nested.
  reflexivity.
Qed.

(** [getMovieWithReviews] only reads, and always answers: with 500 exactly
    when the [id] parameter is missing, is no number or is one the database
    does not take as an [Int]; with 404 exactly when it is a number that no movie has as id; with
    200 otherwise.  The store is never changed. *)
Theorem getMovieWithReviews_outcome {DB : Engine} (req : Request) (st : Store) :
  exists resp,
    getMovieWithReviews req st = (st, Ok resp)
    /\ (status resp = 200 \/ status resp = 404 \/ status resp = 500)
    /\ (status resp = 500
        <-> forall i, parseInt (params req !! "id") = Some i -> fitsInt i = false)
    /\ (status resp = 404
        <-> exists i, parseInt (params req !! "id") = Some i
                      /\ fitsInt i = true
                      /\ forall m, In m (movies st) -> Movie.id m <> i).
Proof.
  unfold getMovieWithReviews, tryCatch, bind, ret, prisma.movie.findUnique, intArg.
  destruct (parseInt (params req !! "id")) as [i|].
  - destruct (fitsInt i) eqn:Hr.
    + destruct (List.find _ (movies st)) as [mv|] eqn:Hf.
      * eexists. split; [reflexivity|]. split; [left; reflexivity|]. split.
        -- split; [discriminate|]. intros H. specialize (H i eq_refl). congruence.
        -- split; [discriminate|]. intros (j & [= <-] & _ & Hno).
           apply find_some in Hf. destruct Hf as [Hin Hid].
           apply Z.eqb_eq in Hid. now destruct (Hno mv Hin).
      * eexists. split; [reflexivity|]. split; [right; left; reflexivity|]. split.
        -- split; [discriminate|]. intros H. specialize (H i eq_refl). congruence.
        -- split; [|reflexivity]. intros _. exists i. repeat split; auto.
           intros m Hm. rewrite find_none_all in Hf. specialize (Hf m Hm).
           now apply Z.eqb_neq.
    + eexists. split; [reflexivity|]. split; [right; right; reflexivity|]. split.
      * split; [|reflexivity]. intros _ j [= <-]. exact Hr.
      * split; [discriminate|]. intros (j & [= <-] & Hj & _). congruence.
  - eexists. split; [reflexivity|]. split; [right; right; reflexivity|]. split.
    + split; [|reflexivity]. intros _ j H. discriminate H.
    + split; [discriminate|]. intros (j & H & _). discriminate H.
Qed.

Lemma getMovieWithReviews_outcome_witness :
  (exists resp, getMovieWithReviews Sample.getMovie11 Sample.store
                = (Sample.store, Ok resp) /\ status resp = 404)
  /\ (exists resp, getMovieWithReviews Sample.getMovieBig Sample.store
                   = (Sample.store, Ok resp) /\ status resp = 404)
  /\ (exists resp, getMovieWithReviews Sample.getMovieX Sample.store
                   = (Sample.store, Ok resp) /\ status resp = 500).
Proof.
  split; [|split].
  - destruct (getMovieWithReviews_outcome Sample.getMovie11 Sample.store)
      as (resp & Hrun & _ & _ & H404).
    exists resp. split; [exact Hrun|]. apply H404. exists 11.
    split; [reflexivity|]. split; [reflexivity|].
    intros m [<-|[]]. discriminate.
  - destruct (getMovieWithReviews_outcome Sample.getMovieBig Sample.store)
      as (resp & Hrun & _ & _ & H404).
    exists resp. split; [exact Hrun|]. apply H404. exists 9999999999.
    split; [reflexivity|]. split; [reflexivity|].
    intros m [<-|[]]. discriminate.
  - destruct (getMovieWithReviews_outcome Sample.getMovieX Sample.store)
      as (resp & Hrun & _ & H500 & _).
    exists resp. split; [exact Hrun|]. apply H500.
    intros i H. vm_compute in H. discriminate H.
Defined.

(** The body of a 200 of [getMovieWithReviews]: the movie's own properties,
    then [reviews], which lists the stored reviews of that movie in their
    order, each with its author as [user].  The author is the whole user
    record: whoever may read a movie reads the password hash and the refresh
    token of everyone who reviewed it. *)
Theorem getMovieWithReviews_body {DB : Engine} (req : Request) (st : Store) (i : Z)
    (mv : Movie.t) :
  parseInt (params req !! "id") = Some i -> fitsInt i = true ->
  List.find (fun m => Movie.id m =? i) (movies st) = Some mv ->
  exists resp,
    getMovieWithReviews req st = (st, Ok resp)
    /\ status resp = 200
    /\ responseData resp
       = VObject
           [("movie",
             VObject (jsonFields (movie_obj mv) ++
                      [("reviews",
                        VArray (List.map (nestedReview (users st))
                                  (List.filter (fun r => Review.movieId r =? i)
                                               (reviews st))))])%list)]
    /\ forall r u,
         In r (reviews st) -> Review.movieId r = i ->
         List.find (fun x => User.id x =? Review.userId r) (users st) = Some u ->
         In (nestedReview (users st) r)
            (List.map (nestedReview (users st))
               (List.filter (fun r => Review.movieId r =? i) (reviews st)))
         /\ get "password" (get "user" (nestedReview (users st) r))
            = VString (User.password u)
         /\ get "refreshToken" (get "user" (nestedReview (users st) r))
            = match User.refreshToken u with
              | Some t => VString t
              | None => VNull
              end.
Proof.
  intros Hid Hr Hf. eexists.
  split; [apply (getMovieWithReviews_found req st i mv Hid Hr Hf)|].
  split; [reflexivity|]. split; [reflexivity|].
  intros r u Hin Hm Hu. split.
  - apply in_map. apply filter_In. split; [exact Hin | now apply Z.eqb_eq].
  - unfold nestedReview. rewrite Hu. split; reflexivity.
Qed.

(** Movie 10: two reviews, and with the first the password hash of alice. *)
Lemma getMovieWithReviews_body_witness :
  exists resp,
    getMovieWithReviews Sample.getMatrix Sample.store = (Sample.store, Ok resp)
    /\ get "reviews" (get "movie" (responseData resp))
       = VArray [ nestedReview (users Sample.store) Sample.review1;
                  nestedReview (users Sample.store) Sample.review2 ]
    /\ get "password" (get "user" (nestedReview (users Sample.store) Sample.review1))
       = VString "$2b$10$pw-alice$s1".
Proof.
  destruct (getMovieWithReviews_body (DB:=Sample.engine) Sample.getMatrix
              Sample.store 10
              Sample.matrix eq_refl eq_refl eq_refl)
    as (resp & Hrun & _ & Hdata & Hleak).
  exists resp. split; [exact Hrun|]. split; [rewrite Hdata; reflexivity|].
  destruct (Hleak Sample.review1 Sample.alice (or_introl eq_refl) eq_refl eq_refl)
    as (_ & Hp & _).
  exact Hp.
Defined.

(** ** The current user: edges *)

(** [getcurrentUser] answers 200 with [null], not an error, when the identity
    names no stored user, and 500 when no identity is attached to the request
    (reading [req.user._id] throws inside the [try]).  It never writes. *)
Theorem getcurrentUser_edges (req : Request) (st : Store) :
  (forall ident,
      user req = Some ident ->
      List.find (fun x => User.id x =? _id ident) (users st) = None ->
      getcurrentUser req st = (st, Ok (mkResponse 200 [] (Json VNull))))
  /\ (user req = None ->
      getcurrentUser req st
      = (st, Ok (mkResponse 500 []
                   (Json (VObject [("message", VString "Internal server error")])))))
  /\ fst (getcurrentUser req st) = st.
Proof.
  unfold getcurrentUser, tryCatch, bind, lift, ret, prisma.user.findUnique.
  split; [|split].
  - intros ident -> ->. reflexivity.
  - intros ->. reflexivity.
  - destruct (user req); reflexivity.
Qed.

Lemma getcurrentUser_edges_witness :
  getcurrentUser Sample.whoIsNobody Sample.store
  = (Sample.store, Ok (mkResponse 200 [] (Json VNull)))
  /\ getcurrentUser Sample.getMovie11 Sample.store
     = (Sample.store,
        Ok (mkResponse 500 []
              (Json (VObject [("message", VString "Internal server error")])))).
Proof.
  split.
  - apply (proj1 (getcurrentUser_edges Sample.whoIsNobody Sample.store)
             (mkIdentity 7)); reflexivity.
  - apply (proj1 (proj2 (getcurrentUser_edges Sample.getMovie11 Sample.store))).
    reflexivity.
Defined.

(** ** Updating and deleting a review: outcomes *)

Lemma find_filter_negb {A} (p : A -> bool) (l : list A) :
  List.find p (List.filter (fun x => negb (p x)) l) = None.
Proof.
  apply find_none_all. intros a Ha. apply filter_In in Ha.
  destruct Ha as [_ Ha]. now apply negb_true_iff.
Qed.








(** An update that names an existing review and supplies neither a text nor a
    rating answers 200 with the review as it is, and the store is exactly the
    one before. *)
Theorem updateReview_empty_body {DB : Engine} (req : Request) (st : Store) (i : Z)
    (old : Review.t) :
  parseInt (params req !! "reviewId") = Some i -> fitsInt i = true ->
  List.find (fun x => Review.id x =? i) (reviews st) = Some old ->
  prop (body req) "reviewText" = VUndefined ->
  prop (body req) "rating" = VUndefined ->
  updateReview req st = (st, Ok (json 200 (VObject (review_obj old)))).
Proof.
  intros Hid Hr Hf Ht Hg.
  rewrite updateReview_unfold. unfold prisma.review.update, intArg.
  rewrite Hid, Hr, Ht, Hg. cbn [dataString dataInt]. rewrite Hf.
  cbn [applyData].
  assert (Hsame : forall x, prisma.review.setData None None x = x)
    by (intros []; reflexivity).
  rewrite Hsame. f_equal.
  replace (List.map _ (reviews st)) with (reviews st).
  - destruct st; reflexivity.
  - symmetry. rewrite <- (List.map_id (reviews st)) at 2.
    apply List.map_ext. intros x. rewrite Hsame. now destruct (Review.id x =? i).
Qed.

Lemma updateReview_empty_body_witness :
  updateReview Sample.updateNothing Sample.store
  = (Sample.store, Ok (json 200 (VObject (review_obj Sample.review1)))).
Proof.
  apply (updateReview_empty_body Sample.updateNothing Sample.store 100
           Sample.review1); reflexivity.
Defined.

(** [deleteReview] always answers, with 204 or with 500; a 500 leaves the
    store untouched, and it is the answer exactly when the parameter is no
    [Int] or names no stored review.  On 204 the reviews with the parsed id
    are gone and every other review, every user and every movie is as
    before. *)
Theorem deleteReview_outcome {DB : Engine} (req : Request) (st : Store) :
  exists st' resp,
    deleteReview req st = (st', Ok resp)
    /\ (status resp = 204 \/ status resp = 500)
    /\ (status resp = 500 -> st' = st)
    /\ (status resp = 500
        <-> forall i, parseInt (params req !! "reviewId") = Some i ->
                      fitsInt i = true ->
                      forall x, In x (reviews st) -> Review.id x <> i)
    /\ (status resp = 204 ->
        exists i,
          parseInt (params req !! "reviewId") = Some i
          /\ reviews st'
             = List.filter (fun x => negb (Review.id x =? i)) (reviews st)
          /\ users st' = users st /\ movies st' = movies st).
Proof.
  rewrite deleteReview_unfold. unfold prisma.review.delete, intArg.
  destruct (parseInt (params req !! "reviewId")) as [i|].
  - destruct (fitsInt i) eqn:Hr.
    + destruct (List.find _ (reviews st)) as [old|] eqn:Hf.
      * eexists. eexists. split; [reflexivity|]. split; [left; reflexivity|].
        split; [discriminate|]. split.
        -- split; [discriminate|]. intros H. apply find_some in Hf.
           destruct Hf as [Hin Hid]. apply Z.eqb_eq in Hid.
           now destruct (H i eq_refl Hr old Hin).
        -- intros _. exists i. repeat split.
      * eexists. eexists. split; [reflexivity|]. split; [right; reflexivity|].
        split; [reflexivity|]. split; [|discriminate].
        split; [|reflexivity]. intros _ j [= <-] _ x Hx.
        rewrite find_none_all in Hf. apply Z.eqb_neq, Hf, Hx.
    + eexists. eexists. split; [reflexivity|]. split; [right; reflexivity|].
      split; [reflexivity|]. split; [|discriminate].
      split; [|reflexivity]. intros _ j [= <-] Hj. congruence.
  - eexists. eexists. split; [reflexivity|]. split; [right; reflexivity|].
    split; [reflexivity|]. split; [|discriminate].
    split; [|reflexivity]. intros _ j H. discriminate H.
Qed.

Lemma deleteReview_outcome_witness :
  exists resp,
    deleteReview Sample.update555 Sample.store = (Sample.store, Ok resp)
    /\ status resp = 500.
Proof.
  destruct (deleteReview_outcome Sample.update555 Sample.store)
    as (st' & resp & Hrun & _ & Hsame & H500 & _).
  assert (Hs : status resp = 500).
  { apply H500. intros i Hi _ x [<-|[<-|[]]];
      vm_compute in Hi; injection Hi as <-; discriminate. }
  exists resp. rewrite <- (Hsame Hs) at 2. split; [exact Hrun | exact Hs].
Defined.

(** Deleting is not repeatable: after a [deleteReview] that answered 204, the
    same request answers 500 and changes nothing. *)
Theorem deleteReview_twice {DB : Engine} (req : Request) (st st' : Store) (resp : Response) :
  deleteReview req st = (st', Ok resp) -> status resp = 204 ->
  deleteReview req st'
  = (st', Ok (json 500 (VObject [("message", VString "Failed to delete review")]))).
Proof.
  intros Hrun H204.
  destruct (deleteReview_204_inv _ _ _ _ Hrun H204) as (rid & r & Hid & _ & _ & ->).
  rewrite deleteReview_unfold, Hid. unfold prisma.review.delete, intArg.
  destruct (fitsInt rid); [|reflexivity]. cbn [reviews].
  rewrite (find_filter_negb (fun x => Review.id x =? rid)). reflexivity.
Qed.

(** Bob deletes review 100, and tries again. *)
Lemma deleteReview_twice_witness :
  exists st' resp,
    deleteReview Sample.updateByBob Sample.store = (st', Ok resp)
    /\ status resp = 204
    /\ deleteReview Sample.updateByBob st'
       = (st', Ok (json 500 (VObject [("message",
                                       VString "Failed to delete review")]))).
Proof.
  destruct (deleteReview Sample.updateByBob Sample.store)
    as [st' [resp|e]] eqn:HD; [|vm_compute in HD; discriminate HD].
  assert (H204 : status resp = 204)
    by (vm_compute in HD; injection HD as <- <-; reflexivity).
  exists st', resp. split; [reflexivity|]. split; [exact H204|].
  apply (deleteReview_twice Sample.updateByBob Sample.store st' resp HD H204).
Defined.

(** ** The gate in front of the routes *)

(** An update of review 100 with the cookie of bob, the path in capitals and
    with a closing slash: with [jwt] bound the handler runs and finds no
    [reviewId] parameter; with [jwt] unbound, as in the sources, the gate
    throws. *)
Lemma review_routes_without_parameters_witness :
  (exists handler,
     router Sample.bcrypt_hash Sample.verifyPassword Sample.generateAccessToken
            Sample.generateRefreshToken None (Some Sample.verifyToken)
            (Some Sample.jwt_verify) "s3" Sample.httpUpdate = Some handler
     /\ exists resp, handler Sample.store = (Sample.store, Ok resp)
                     /\ status resp = 500)
  /\ (exists handler,
        router Sample.bcrypt_hash Sample.verifyPassword
               Sample.generateAccessToken Sample.generateRefreshToken None None
               None "s3" Sample.httpUpdate = Some handler
        /\ handler Sample.store = (Sample.store, Throw (ReferenceError "jwt"))).
Proof.
  split.
  - destruct (review_routes_without_parameters Sample.bcrypt_hash
                Sample.verifyPassword Sample.generateAccessToken
                Sample.generateRefreshToken None (Some Sample.verifyToken)
                (Some Sample.jwt_verify) "s3" Sample.httpUpdate Sample.store
                "/updatereview")
      as (handler & Hr & [(resp & Hrun & Hs) | (Hj & _)]);
      [reflexivity | right; left; reflexivity | reflexivity | | discriminate Hj].
    exists handler. split; [exact Hr|]. exists resp. split; [exact Hrun|].
    injection Hr as <-. vm_compute in Hrun. injection Hrun as <-. reflexivity.
  - destruct (review_routes_without_parameters Sample.bcrypt_hash
                Sample.verifyPassword Sample.generateAccessToken
                Sample.generateRefreshToken None None
                None "s3" Sample.httpUpdate Sample.store "/updatereview")
      as (handler & Hr & [(resp & Hrun & Hs) | (_ & _ & Hrun)]);
      [reflexivity | right; left; reflexivity | reflexivity | | ].
    + injection Hr as <-. vm_compute in Hrun. discriminate Hrun.
    + exists handler. split; [exact Hr | exact Hrun].
Defined.

Lemma headOnly_unfold (m : M Response) (st : Store) :
  headOnly m st
  = match m st with
    | (st', Ok r) => (st', Ok (mkResponse (status r) (setCookie r) NoBody))
    | (st', Throw e) => (st', Throw e)
    end.
Proof. unfold headOnly, bind, ret. destruct (m st) as [st' [r|e]]; reflexivity. Qed.

Section GateAndRoutes.

Context {DB : Engine}.

Variable bcrypt_hash : string -> Z -> string -> string.
Variable verifyPassword : value -> string -> Result bool.
Variable generateAccessToken : Z -> Result string.
Variable generateRefreshToken : Z -> Result string.
Variable NODE_ENV : option string.
Variable verifyToken : option (string -> Result Identity).
Variable jwt : option (string -> option Identity).

Lemma getRoutes_currentuser (h : HttpRequest) :
  routeMatches "/currentuser" (http_path h) = true ->
  getRoutes jwt h = Some (gated jwt getcurrentUser (incoming h)).
Proof.
  intros Hr. apply routeMatches_cases in Hr.
  unfold getRoutes, routeMatches. cbv zeta. destruct Hr as [-> | ->]; reflexivity.
Qed.

(** What a gated handler does with a request that holds no verified token. *)
Lemma gated_without_token (handler : Request -> M Response) (h : HttpRequest)
    (st : Store) :
  (noToken (http_cookies h !! "accessToken") = true ->
   gated jwt handler (incoming h) st = (st, Ok unauthorized))
  /\ (forall t verify,
        http_cookies h !! "accessToken" = Some t -> t <> "" ->
        jwt = Some verify -> verify t = None ->
        gated jwt handler (incoming h) st = (st, Ok forbidden))
  /\ (forall t,
        http_cookies h !! "accessToken" = Some t -> t <> "" -> jwt = None ->
        gated jwt handler (incoming h) st = (st, Throw (ReferenceError "jwt"))).
Proof.
  unfold gated, authenticateToken. cbn [cookies incoming].
  split; [|split].
  - intros ->. reflexivity.
  - intros t verify -> Hne -> Hv. cbn [noToken].
    apply String.eqb_neq in Hne. rewrite Hne.
    change (default "" (Some t)) with t. rewrite Hv. reflexivity.
  - intros t -> Hne ->. cbn [noToken].
    apply String.eqb_neq in Hne. rewrite Hne. reflexivity.
Qed.

(** Behind the gate nothing runs without a verified token.  On the five
    gated routes ([HEAD] goes the way of [GET]), however the path is cased, a
    request whose [accessToken] cookie is absent or empty is answered 401; one
    whose cookie holds a token that [jwt.verify] refuses is answered 403; and
    where [jwt] is unbound, as in the text of the middleware, one whose cookie
    holds any token ends in the [ReferenceError] the gate throws.  In each
    case no cookie is set and the store is untouched, whatever the body asks
    for. *)
Theorem gated_routes_need_a_token (salt : string) (h : HttpRequest) (st : Store)
    (route : string) :
  ((http_method h = GET \/ http_method h = HEAD) /\ route = "/currentuser")
  \/ (http_method h = POST
      /\ In route ["/deletereview"; "/updatereview"; "/getmoviewithreviews";
                   "/createreview"]) ->
  routeMatches route (http_path h) = true ->
  exists handler,
    router bcrypt_hash verifyPassword generateAccessToken generateRefreshToken
           NODE_ENV verifyToken jwt salt h = Some handler
    /\ (noToken (http_cookies h !! "accessToken") = true ->
        exists resp, handler st = (st, Ok resp)
                     /\ status resp = 401 /\ setCookie resp = [])
    /\ (forall t verify,
          http_cookies h !! "accessToken" = Some t -> t <> "" ->
          jwt = Some verify -> verify t = None ->
          exists resp, handler st = (st, Ok resp)
                       /\ status resp = 403 /\ setCookie resp = [])
    /\ (forall t,
          http_cookies h !! "accessToken" = Some t -> t <> "" -> jwt = None ->
          handler st = (st, Throw (ReferenceError "jwt"))).
Proof.
  intros Hroute Hmatch.
  assert (Hgate : forall handler : Request -> M Response,
            (noToken (http_cookies h !! "accessToken") = true ->
             exists resp, gated jwt handler (incoming h) st = (st, Ok resp)
                          /\ status resp = 401 /\ setCookie resp = [])
            /\ (forall t verify,
                  http_cookies h !! "accessToken" = Some t -> t <> "" ->
                  jwt = Some verify -> verify t = None ->
                  exists resp, gated jwt handler (incoming h) st = (st, Ok resp)
                               /\ status resp = 403 /\ setCookie resp = [])
            /\ (forall t,
                  http_cookies h !! "accessToken" = Some t -> t <> "" ->
                  jwt = None ->
                  gated jwt handler (incoming h) st
                  = (st, Throw (ReferenceError "jwt")))).
  { intros handler.
    destruct (gated_without_token handler h st) as (H401 & H403 & Hthrow).
    split; [|split].
    - intros Hno. exists unauthorized. rewrite (H401 Hno). auto.
    - intros t verify Ht Hne Hj Hv. exists forbidden.
      rewrite (H403 t verify Ht Hne Hj Hv). auto.
    - exact Hthrow. }
  unfold router.
  destruct Hroute as [[Hm ->] | [Hm Hin]].
  - rewrite (getRoutes_currentuser h Hmatch).
    destruct (http_method h); [| |destruct Hm; discriminate].
    + eexists. split; [reflexivity|]. apply Hgate.
    + cbn [fmap option_fmap option_map]. eexists. split; [reflexivity|].
      destruct (Hgate getcurrentUser) as (H401 & H403 & Hthrow).
      split; [|split].
      * intros Hno. destruct (H401 Hno) as (resp & Hrun & Hs & Hc).
        rewrite headOnly_unfold, Hrun. eexists. split; [reflexivity|]. auto.
      * intros t verify Ht Hne Hj Hv.
        destruct (H403 t verify Ht Hne Hj Hv) as (resp & Hrun & Hs & Hc).
        rewrite headOnly_unfold, Hrun. eexists. split; [reflexivity|]. auto.
      * intros t Ht Hne Hj.
        rewrite headOnly_unfold, (Hthrow t Ht Hne Hj). reflexivity.
  - rewrite Hm.
    destruct (postRoutes_review bcrypt_hash verifyPassword generateAccessToken
                generateRefreshToken NODE_ENV verifyToken jwt salt h)
      as (Hd & Hu & Hg & Hc).
    destruct Hin as [<-|[<-|[<-|[<-|[]]]]];
      [ rewrite (Hd Hmatch) | rewrite (Hu Hmatch) | rewrite (Hg Hmatch)
      | rewrite (Hc Hmatch) ];
      eexists; (split; [reflexivity|]); apply Hgate.
Qed.

End GateAndRoutes.

(** A deletion without a cookie; the current user with a forged cookie where
    [jwt] is bound; and the current user with the cookie of bob where it is
    not. *)
Lemma gated_routes_need_a_token_witness :
  (exists handler resp,
      router Sample.bcrypt_hash Sample.verifyPassword Sample.generateAccessToken
             Sample.generateRefreshToken None None None "s3"
             Sample.httpDeleteNoCookie = Some handler
      /\ handler Sample.store = (Sample.store, Ok resp) /\ status resp = 401)
  /\ (exists handler resp,
        router Sample.bcrypt_hash Sample.verifyPassword
               Sample.generateAccessToken Sample.generateRefreshToken None
               None (Some Sample.jwt_verify) "s3"
               (Sample.httpWhoAmI [("accessToken", "forged")]) = Some handler
        /\ handler Sample.store = (Sample.store, Ok resp) /\ status resp = 403)
  /\ (exists handler,
        router Sample.bcrypt_hash Sample.verifyPassword
               Sample.generateAccessToken Sample.generateRefreshToken None
               None None "s3"
               (Sample.httpWhoAmI [("accessToken", "at:2")]) = Some handler
        /\ handler Sample.store = (Sample.store, Throw (ReferenceError "jwt"))).
Proof.
  split; [|split].
  - destruct (gated_routes_need_a_token Sample.bcrypt_hash Sample.verifyPassword
                Sample.generateAccessToken Sample.generateRefreshToken None
                None None "s3" Sample.httpDeleteNoCookie Sample.store
                "/deletereview")
      as (handler & Hr & H401 & _);
      [right; split; [reflexivity | left; reflexivity] | reflexivity |].
    destruct (H401 eq_refl) as (resp & Hrun & Hs & _).
    exists handler, resp. auto.
  - destruct (gated_routes_need_a_token Sample.bcrypt_hash Sample.verifyPassword
                Sample.generateAccessToken Sample.generateRefreshToken None
                None (Some Sample.jwt_verify) "s3"
                (Sample.httpWhoAmI [("accessToken", "forged")]) Sample.store
                "/currentuser")
      as (handler & Hr & _ & H403 & _);
      [left; split; [left; reflexivity | reflexivity] | reflexivity |].
    destruct (H403 "forged" Sample.jwt_verify) as (resp & Hrun & Hs & _);
      [reflexivity | discriminate | reflexivity | reflexivity |].
    exists handler, resp. auto.
  - destruct (gated_routes_need_a_token Sample.bcrypt_hash Sample.verifyPassword
                Sample.generateAccessToken Sample.generateRefreshToken None
                None None "s3"
                (Sample.httpWhoAmI [("accessToken", "at:2")]) Sample.store
                "/currentuser")
      as (handler & Hr & _ & _ & Hthrow);
      [left; split; [left; reflexivity | reflexivity] | reflexivity |].
    exists handler. split; [exact Hr|].
    apply (Hthrow "at:2"); [reflexivity | discriminate | reflexivity].
Defined.

(** ** From a login to the current user *)

Section LoginThenCurrentUser.

Context {DB : Engine}.

Variable verifyPassword : value -> string -> Result bool.
Variable generateAccessToken : Z -> Result string.
Variable generateRefreshToken : Z -> Result string.
Variable NODE_ENV : option string.



End LoginThenCurrentUser.

